(** * Nuance: the deterministic statistical-check engine, its aggregation
      and the extraction retry loop

    A shallow embedding of [src/nuance/statistical_checks.py],
    [src/nuance/schemas.py], [src/nuance/retry.py] and of the status, the
    reliability-score and the prediction-accuracy code of [app.py].

    Conventions of the embedding.
    - A Python [str] is a [string]; one character is one code point in
      U+0000..U+00FF, classified as CPython classifies it ([str.isspace],
      [str.isalnum], [str.lower]).  Text outside that range is not modelled.
    - A Python [float] is an exact rational ([Q]); rounding is not modelled.
    - A Python [int] is a [Z] or, for counts and lengths, a [nat].
    - A Python [dict] with string keys is the list of its items in the order
      of insertion, a [set] of strings the list of its elements; a lookup
      that raises [KeyError] is [None].
    - Patterns are kept as the raw pattern strings of the source and are
      compiled by [Re.parse], a parser for the fragment of the [re] syntax
      that the source uses. *)

From Stdlib Require Import List String Ascii Bool Arith ZArith QArith Lia.
From Stdlib Require Import Qminmax Lqa DecimalString DecimalPos Permutation.
Import ListNotations.

Close Scope Q_scope.
Local Open Scope string_scope.
Local Open Scope bool_scope.

(* ================================================================== *)
(** ** Python strings *)

Module PyStr.

Definition code (c : ascii) : nat := nat_of_ascii c.

Definition in_range (lo hi : nat) (c : ascii) : bool :=
  (lo <=? code c)%nat && (code c <=? hi)%nat.

(** [str.isspace] for one character: TAB..CR, FS..US, SPACE, NEL, NBSP. *)
Definition isspace (c : ascii) : bool :=
  in_range 9 13 c || in_range 28 32 c
  || (code c =? 133)%nat || (code c =? 160)%nat.

(** The decimal digits, [\d]. *)
Definition isdecimal (c : ascii) : bool := in_range 48 57 c.

(** [str.isalnum] for one character. *)
Definition isalnum (c : ascii) : bool :=
  isdecimal c || in_range 65 90 c || in_range 97 122 c
  || (code c =? 170)%nat || (code c =? 178)%nat || (code c =? 179)%nat
  || (code c =? 181)%nat || (code c =? 185)%nat || (code c =? 186)%nat
  || in_range 188 190 c
  || in_range 192 214 c || in_range 216 246 c || in_range 248 255 c.

(** A word character of [re]: alphanumeric or the underscore. *)
Definition isword (c : ascii) : bool := isalnum c || (code c =? 95)%nat.

Definition upper_cased (c : ascii) : bool :=
  in_range 65 90 c || (in_range 192 222 c && negb (code c =? 215)%nat).

Definition lower_char (c : ascii) : ascii :=
  if upper_cased c then ascii_of_nat (code c + 32) else c.

(** [s.lower()] *)
Fixpoint lower (s : string) : string :=
  match s with
  | EmptyString => EmptyString
  | String c s' => String (lower_char c) (lower s')
  end.

Fixpoint lstrip (s : string) : string :=
  match s with
  | String c s' => if isspace c then lstrip s' else s
  | EmptyString => EmptyString
  end.

(** Drops the white space at the end: a character is kept when it is not
    white space or when something is kept after it. *)
Fixpoint rstrip (s : string) : string :=
  match s with
  | EmptyString => EmptyString
  | String c s' =>
      match rstrip s' with
      | EmptyString => if isspace c then EmptyString else String c EmptyString
      | t => String c t
      end
  end.

(** [s.strip()] *)
Definition strip (s : string) : string := rstrip (lstrip s).

(** [len(s.split())]: the number of maximal runs of characters that are
    not white space.  [inword] tells whether the previous character was
    part of a word. *)
Fixpoint count_words_from (inword : bool) (s : string) : nat :=
  match s with
  | EmptyString => 0
  | String c s' =>
      if isspace c then count_words_from false s'
      else if inword then count_words_from true s'
           else S (count_words_from true s')
  end.

Definition count_words (s : string) : nat := count_words_from false s.

(** [sub in s] *)
Fixpoint contains (sub s : string) : bool :=
  prefix sub s
  || match s with
     | EmptyString => false
     | String _ s' => contains sub s'
     end.

(** [s.find(sub, start)] for [0 <= start]: the least index at or after
    [start] where [sub] occurs, or -1. *)
Fixpoint find_from (sub s : string) (pos : Z) : Z :=
  if prefix sub s then pos
  else match s with
       | EmptyString => (-1)%Z
       | String _ s' => find_from sub s' (pos + 1)%Z
       end.

Fixpoint drop (n : nat) (s : string) : string :=
  match n, s with
  | O, _ => s
  | S n', String _ s' => drop n' s'
  | S _, EmptyString => EmptyString
  end.

Definition find (sub s : string) (start : Z) : Z :=
  if (Z.of_nat (length s) <? start)%Z then (-1)%Z
  else find_from sub (drop (Z.to_nat start) s) start.

(** [s[a:b]] with the negative indices of Python counted from the end. *)
Definition slice (s : string) (a b : Z) : string :=
  let n := Z.of_nat (length s) in
  let norm i := if (i <? 0)%Z then Z.max 0 (i + n) else Z.min i n in
  let a' := norm a in
  let b' := norm b in
  substring (Z.to_nat a') (Z.to_nat (b' - a')) s.

(** [", ".join(l)] *)
Fixpoint join (sep : string) (l : list string) : string :=
  match l with
  | [] => ""
  | [x] => x
  | x :: rest => x ++ sep ++ join sep rest
  end.

(** [str(n)] for an integer. *)
Definition str_of_Z (n : Z) : string :=
  NilEmpty.string_of_int (Z.to_int n).

End PyStr.

(* ================================================================== *)
(** ** Python dictionaries with string keys *)

Module PyDict.

(** The items of the dictionary, in the order in which their keys were first
    inserted; no key occurs twice in a dictionary built with [set]. *)
Definition dict (V : Type) : Type := list (string * V).

(** [d[key] = value]: a key that is present keeps its place. *)
Fixpoint set {V : Type} (d : dict V) (key : string) (value : V) : dict V :=
  match d with
  | [] => [(key, value)]
  | (k, v) :: rest =>
      if String.eqb k key then (k, value) :: rest
      else (k, v) :: set rest key value
  end.

(** [d[key]], where [None] stands for [KeyError]. *)
Fixpoint get {V : Type} (d : dict V) (key : string) : option V :=
  match d with
  | [] => None
  | (k, v) :: rest => if String.eqb k key then Some v else get rest key
  end.

(** [key in d] *)
Definition mem {V : Type} (d : dict V) (key : string) : bool :=
  match get d key with Some _ => true | None => false end.

(** [list(d.keys())] *)
Definition keys {V : Type} (d : dict V) : list string := map fst d.

End PyDict.

(* ================================================================== *)
(** ** Python sets of strings *)

Module PySet.

(** The elements of the set, each once, in the order in which they were
    first added.  Python iterates over a set in an order of its own; nothing
    here depends on the order. *)
Definition set : Type := list string.

(** [x in s] *)
Definition mem (x : string) (s : set) : bool := existsb (String.eqb x) s.

(** [s.add(x)] *)
Definition add (s : set) (x : string) : set :=
  if mem x s then s else (s ++ [x])%list.

(** [{x for x in l}] *)
Definition of_list (l : list string) : set := fold_left add l [].

(** [a & b] *)
Definition inter (a b : set) : set := filter (fun x => mem x b) a.

(** [a - b] *)
Definition diff (a b : set) : set := filter (fun x => negb (mem x b)) a.

End PySet.

(* ================================================================== *)
(** ** The fragment of Python's [re] that the source uses *)

Module Re.

Import PyStr.

(** An item of a character class [[...]]. *)
Inductive citem : Type :=
| ILit (c : ascii)
| IDigit
| ISpace
| IWord.

(** A pattern that consumes exactly one character. *)
Inductive atom : Type :=
| ALit (c : ascii)          (* a literal character *)
| AAny                      (* [.]: anything but a newline *)
| ADigit                    (* [\d] *)
| ASpace                    (* [\s] *)
| AWord                     (* [\w] *)
| ASet (items : list citem) (* [[...]] *).

Inductive regex : Type :=
| REmpty
| RAtom (a : atom)
| RBound                    (* [\b] *)
| RCat (r1 r2 : regex)
| RAlt (r1 r2 : regex)      (* [r1|r2], [r1] tried first *)
| ROpt (r : regex)          (* [r?], greedy *)
| RStar (a : atom)          (* [a*], greedy *)
| RPlus (a : atom)          (* [a+], greedy *)
| RLazyStar (a : atom)      (* [a*?] *)
| RGroup (r : regex)        (* [( r )] *).

(** *** Parsing a pattern string *)

Definition is_ascii_alnum (c : ascii) : bool :=
  in_range 48 57 c || in_range 65 90 c || in_range 97 122 c.

Definition chr (n : nat) : ascii := ascii_of_nat n.

Definition is_chr (n : nat) (c : ascii) : bool := (code c =? n)%nat.

(** The items of a class up to the closing bracket.  Ranges and negated
    classes do not occur in the source and are refused. *)
Fixpoint parse_class (s : list ascii) : option (list citem * list ascii) :=
  match s with
  | [] => None
  | c :: rest =>
      if is_chr 93 c then Some ([], rest)                      (* ] *)
      else if is_chr 92 c then                                 (* \ *)
        match rest with
        | [] => None
        | e :: rest' =>
            let item :=
              if is_chr 100 e then Some IDigit                 (* \d *)
              else if is_chr 115 e then Some ISpace            (* \s *)
              else if is_chr 119 e then Some IWord             (* \w *)
              else if is_ascii_alnum e then None
              else Some (ILit e) in
            match item, parse_class rest' with
            | Some i, Some (items, rest'') => Some (i :: items, rest'')
            | _, _ => None
            end
        end
      else if is_chr 45 c || is_chr 94 c || is_chr 91 c then None (* - ^ [ *)
      else
        match parse_class rest with
        | Some (items, rest') => Some (ILit c :: items, rest')
        | None => None
        end
  end.

(** The quantifier that may follow an item. *)
Definition parse_quant (r : regex) (s : list ascii)
  : option (regex * list ascii) :=
  match s with
  | q :: rest =>
      if is_chr 63 q then                                      (* ? *)
        match r, rest with
        | RBound, _ => None
        | _, q2 :: _ =>
            if is_chr 63 q2 || is_chr 42 q2 || is_chr 43 q2 then None
            else Some (ROpt r, rest)
        | _, [] => Some (ROpt r, rest)
        end
      else if is_chr 42 q then                                 (* * *)
        match r, rest with
        | RAtom a, q2 :: rest' =>
            if is_chr 63 q2 then Some (RLazyStar a, rest')     (* *? *)
            else if is_chr 42 q2 || is_chr 43 q2 then None
            else Some (RStar a, rest)
        | RAtom a, [] => Some (RStar a, rest)
        | _, _ => None
        end
      else if is_chr 43 q then                                 (* + *)
        match r, rest with
        | RAtom a, q2 :: _ =>
            if is_chr 63 q2 || is_chr 42 q2 || is_chr 43 q2 then None
            else Some (RPlus a, rest)
        | RAtom a, [] => Some (RPlus a, rest)
        | _, _ => None
        end
      else if is_chr 123 q then None                           (* { *)
      else Some (r, s)
  | [] => Some (r, s)
  end.

Fixpoint parse_alt (fuel : nat) (s : list ascii)
  : option (regex * list ascii) :=
  match fuel with
  | O => None
  | S f =>
      match parse_seq f s with
      | Some (r, rest) =>
          match rest with
          | c :: rest' =>
              if is_chr 124 c then                             (* | *)
                match parse_alt f rest' with
                | Some (r2, rest'') => Some (RAlt r r2, rest'')
                | None => None
                end
              else Some (r, rest)
          | [] => Some (r, rest)
          end
      | None => None
      end
  end
with parse_seq (fuel : nat) (s : list ascii)
  : option (regex * list ascii) :=
  match fuel with
  | O => None
  | S f =>
      match s with
      | [] => Some (REmpty, s)
      | c :: _ =>
          if is_chr 124 c || is_chr 41 c then Some (REmpty, s) (* | ) *)
          else
            match parse_item f s with
            | Some (r1, rest) =>
                match parse_seq f rest with
                | Some (REmpty, rest') => Some (r1, rest')
                | Some (r2, rest') => Some (RCat r1 r2, rest')
                | None => None
                end
            | None => None
            end
      end
  end
with parse_item (fuel : nat) (s : list ascii)
  : option (regex * list ascii) :=
  match fuel with
  | O => None
  | S f =>
      match s with
      | [] => None
      | c :: rest =>
          let base :=
            if is_chr 40 c then                                (* ( *)
              match rest with
              | q :: _ =>
                  if is_chr 63 q then None                     (* (?...) *)
                  else
                    match parse_alt f rest with
                    | Some (r, c2 :: rest') =>
                        if is_chr 41 c2 then Some (RGroup r, rest')
                        else None
                    | _ => None
                    end
              | [] => None
              end
            else if is_chr 91 c then                           (* [ *)
              match parse_class rest with
              | Some (i :: items, rest') =>
                  Some (RAtom (ASet (i :: items)), rest')
              | _ => None
              end
            else if is_chr 92 c then                           (* \ *)
              match rest with
              | [] => None
              | e :: rest' =>
                  if is_chr 98 e then Some (RBound, rest')     (* \b *)
                  else if is_chr 100 e then Some (RAtom ADigit, rest')
                  else if is_chr 115 e then Some (RAtom ASpace, rest')
                  else if is_chr 119 e then Some (RAtom AWord, rest')
                  else if is_ascii_alnum e then None
                  else Some (RAtom (ALit e), rest')
              end
            else if is_chr 46 c then Some (RAtom AAny, rest)   (* . *)
            else if is_chr 42 c || is_chr 43 c || is_chr 63 c  (* * + ? *)
                    || is_chr 94 c || is_chr 36 c              (* ^ $ *)
                    || is_chr 123 c || is_chr 125 c            (* { } *)
                    || is_chr 93 c                             (* ] *)
            then None
            else Some (RAtom (ALit c), rest) in
          match base with
          | Some (r, rest') => parse_quant r rest'
          | None => None
          end
      end
  end.

(** [re.compile]: [None] stands for [re.error]. *)
Definition parse (p : string) : option regex :=
  let s := list_ascii_of_string p in
  match parse_alt (3 * List.length s + 3) s with
  | Some (r, []) => Some r
  | _ => None
  end.

(** *** Matching *)

Section Matching.

(** [re.IGNORECASE] *)
Variable ignorecase : bool.

Definition same_char (p c : ascii) : bool :=
  if ignorecase then Ascii.eqb (lower_char p) (lower_char c)
  else Ascii.eqb p c.

Definition item_ok (i : citem) (c : ascii) : bool :=
  match i with
  | ILit p => same_char p c
  | IDigit => isdecimal c
  | ISpace => isspace c
  | IWord => isword c
  end.

Definition atom_ok (a : atom) (c : ascii) : bool :=
  match a with
  | ALit p => same_char p c
  | AAny => negb (is_chr 10 c)
  | ADigit => isdecimal c
  | ASpace => isspace c
  | AWord => isword c
  | ASet items => existsb (fun i => item_ok i c) items
  end.

Definition word_before (prev : option ascii) : bool :=
  match prev with Some c => isword c | None => false end.

Definition word_after (s : list ascii) : bool :=
  match s with c :: _ => isword c | [] => false end.

(** [\b] holds between a word character and a non-word character or
    an end of the string. *)
Definition at_boundary (prev : option ascii) (s : list ascii) : bool :=
  xorb (word_before prev) (word_after s).

Section Continuation.

Variable A : Type.

(** A continuation receives the character before the position
    reached and the text from that position on. *)
Definition cont : Type := option ascii -> list ascii -> option A.

(** Greedy repetition: take as many characters as possible and give
    them back one at a time while the continuation fails. *)
Fixpoint star_greedy (p : ascii -> bool) (k : cont)
         (prev : option ascii) (s : list ascii) : option A :=
  match s with
  | c :: s' =>
      if p c then
        match star_greedy p k (Some c) s' with
        | Some x => Some x
        | None => k prev s
        end
      else k prev s
  | [] => k prev s
  end.

(** Lazy repetition: take one more character only when the
    continuation fails. *)
Fixpoint star_lazy (p : ascii -> bool) (k : cont)
         (prev : option ascii) (s : list ascii) : option A :=
  match k prev s with
  | Some x => Some x
  | None =>
      match s with
      | c :: s' => if p c then star_lazy p k (Some c) s' else None
      | [] => None
      end
  end.

(** The backtracking matcher: the first success in the order in
    which [re] tries the alternatives. *)
Fixpoint run (r : regex) (k : cont)
         (prev : option ascii) (s : list ascii) : option A :=
  match r with
  | REmpty => k prev s
  | RAtom a =>
      match s with
      | c :: s' => if atom_ok a c then k (Some c) s' else None
      | [] => None
      end
  | RBound => if at_boundary prev s then k prev s else None
  | RCat r1 r2 => run r1 (run r2 k) prev s
  | RAlt r1 r2 =>
      match run r1 k prev s with
      | Some x => Some x
      | None => run r2 k prev s
      end
  | ROpt r1 =>
      match run r1 k prev s with
      | Some x => Some x
      | None => k prev s
      end
  | RStar a => star_greedy (atom_ok a) k prev s
  | RPlus a =>
      match s with
      | c :: s' =>
          if atom_ok a c then star_greedy (atom_ok a) k (Some c) s'
          else None
      | [] => None
      end
  | RLazyStar a => star_lazy (atom_ok a) k prev s
  | RGroup r1 => run r1 k prev s
  end.

End Continuation.

(** The end of a match: the last character matched (or the one before
    the match when it is empty) and the text that follows. *)
Definition position : Type := (option ascii * list ascii)%type.

Definition match_here (r : regex) (prev : option ascii) (s : list ascii)
  : option position :=
  run position r (fun p s' => Some (p, s')) prev s.

(** The leftmost match at or after the current position: the text from
    its start and the position of its end. *)
Fixpoint search_from (r : regex) (prev : option ascii) (s : list ascii)
  : option (list ascii * position) :=
  match match_here r prev s with
  | Some e => Some (s, e)
  | None =>
      match s with
      | [] => None
      | c :: s' => search_from r (Some c) s'
      end
  end.

(** [match.group()]: what lies between the start and the end. *)
Definition matched_text (start : list ascii) (e : position) : list ascii :=
  firstn (List.length start - List.length (snd e)) start.

(** Successive non-overlapping matches, as [re.findall] and [re.split]
    take them.  None of the patterns of the source matches the empty
    string; after an empty match the scan moves on by one character. *)
Fixpoint matches_from (fuel : nat) (r : regex)
         (prev : option ascii) (s : list ascii)
  : list (list ascii * list ascii) :=
  match fuel with
  | O => []
  | S f =>
      match search_from r prev s with
      | None => []
      | Some (start, e) =>
          let before := firstn (List.length s - List.length start) s in
          let m := matched_text start e in
          match m, snd e with
          | [], [] => [(before, m)]
          | [], c :: rest => (before, m) :: matches_from f r (Some c) rest
          | _, _ => (before, m) :: matches_from f r (fst e) (snd e)
          end
      end
  end.

End Matching.

(** A pattern that does not compile matches nothing here; all the
    patterns of the source compile (see [patterns_compile]). *)
Definition search_in (ignorecase : bool) (pattern : string) (s : string)
  : option (list ascii * position) :=
  match parse pattern with
  | Some r => search_from ignorecase r None (list_ascii_of_string s)
  | None => None
  end.

(** [bool(re.search(pattern, s))] and
    [bool(re.search(pattern, s, re.IGNORECASE))] *)
Definition search (pattern s : string) : bool :=
  match search_in false pattern s with Some _ => true | None => false end.

Definition search_ignorecase (pattern s : string) : bool :=
  match search_in true pattern s with Some _ => true | None => false end.

(** [re.search(pattern, s).group()] *)
Definition search_group (pattern s : string) : option string :=
  match search_in false pattern s with
  | Some (start, e) => Some (string_of_list_ascii (matched_text start e))
  | None => None
  end.

Definition all_matches (pattern s : string)
  : list (list ascii * list ascii) :=
  match parse pattern with
  | Some r =>
      let l := list_ascii_of_string s in
      matches_from false (S (List.length l)) r None l
  | None => []
  end.

(** [len(re.findall(pattern, s))] *)
Definition count_findall (pattern s : string) : nat :=
  List.length (all_matches pattern s).

(** [re.split(pattern, s)] for a pattern without groups: the pieces
    between the matches and the piece after the last one. *)
Definition split (pattern s : string) : list string :=
  let ms := all_matches pattern s in
  let consumed :=
    fold_right (fun bm n => List.length (fst bm) + List.length (snd bm) + n)
               0 ms in
  map (fun bm => string_of_list_ascii (fst bm)) ms
  ++ [PyStr.drop consumed s].

End Re.

(* ================================================================== *)
(** ** [schemas.py] *)

Module Schemas.

(** [Literal["low", "medium", "high", "critical"]] *)
Inductive Severity : Type := low | medium | high | critical.

Definition Severity_eqb (a b : Severity) : bool :=
  match a, b with
  | low, low | medium, medium | high, high | critical, critical => true
  | _, _ => false
  end.

(** [Literal["statistical", "causal", "comparative", "absolute"]] *)
Inductive ClaimType : Type := statistical | causal | comparative | absolute.

Record Claim : Type := {
  claim_id : string;
  quote : string;
  claim_type : ClaimType;
  confidence : Q;
  variables : list string;
  numerical_values : list string
}.

Record StatisticalCheck : Type := {
  check_name : string;
  passed : bool;
  severity : Severity;
  explanation : string;
  suggestion : option string
}.

(** [Literal["clean", "minor_issues", "major_issues", "critical"]] *)
Inductive Status : Type :=
| clean | minor_issues | major_issues | critical_status.

Record ClaimAudit : Type := {
  audit_claim_id : string;
  claim_quote : string;
  checks_performed : list StatisticalCheck;
  overall_status : Status
}.

Record TextMetrics : Type := {
  data_density_score : Q;
  vagueness_score : Q;
  extreme_language_count : Z;
  sample_size_mentioned : bool;
  causation_language_count : Z
}.

End Schemas.

(* ================================================================== *)
(** ** [schemas.py]: the validators of the fields *)

Module Validators.

(** [str.isdigit] for one character: the decimal digits and the superscripts
    two, three and one. *)
Definition isdigit_char (c : ascii) : bool :=
  PyStr.isdecimal c
  || (PyStr.code c =? 178)%nat || (PyStr.code c =? 179)%nat
  || (PyStr.code c =? 185)%nat.

(** [s.isdigit()]: false for the empty string. *)
Definition isdigit (s : string) : bool :=
  match s with
  | EmptyString => false
  | String _ _ => forallb isdigit_char (list_ascii_of_string s)
  end.

(** [s.startswith(p)] *)
Definition startswith (s p : string) : bool := prefix p s.

(** The validators return the value, or raise [ValueError] with a message,
    which is the left summand. *)
Definition validate_claim_id (v : string) : string + string :=
  if negb (startswith v "c") || negb (isdigit (PyStr.drop 1 v))
  then inl "claim_id must follow format 'c1', 'c2', etc."
  else inr v.

Definition validate_claim_id_format (v : string) : string + string :=
  if negb (startswith v "c")
  then inl "claim_id must reference a valid claim (format: 'c1', 'c2', etc.)"
  else inr v.

End Validators.

(* ================================================================== *)
(** ** [statistical_checks.py] *)

Module StatisticalChecks.

Import Schemas.

(** *** Pattern definitions *)

Definition HEDGE_WORDS : list string := [
  "\bmight\b"; "\bmay\b"; "\bcould\b"; "\bpossibly\b"; "\bperhaps\b";
  "\bprobably\b"; "\blikely\b"; "\bseems?\b"; "\bappears?\b"; "\bsuggests?\b";
  "\btends?\b"; "\boften\b"; "\bsometimes\b"; "\bgenerally\b"
].

Definition EXTREME_WORDS : list string := [
  "\bprove[sd]?\b"; "\balways\b"; "\bnever\b"; "\bimpossible\b";
  "\bcertainly\b"; "\bdefinitely\b"; "\bclearly\b"; "\bobviously\b";
  "\bundoubtedly\b"; "\ball\b"; "\bnone\b"; "\bevery\b"; "\bno\b";
  "\bcure[sd]?\b"; "\bwill\b"; "\bguarantee[sd]?\b"; "\bcertain\b";
  "\bzero risk\b"; "\bmust\b"; "\bcan\'?t\b"; "\bwon\'?t\b";
  "\beliminates?\b"; "\bensures?\b"; "\b100%\b"; "\bcompletely\b";
  "\bentirely\b"; "\babsolutely\b"; "\btotally\b"
].

Definition CAUSATION_WORDS : list string := [
  "\bcauses?\b"; "\bcaused by\b"; "\bleads? to\b"; "\bresults? in\b";
  "\bmakes?\b"; "\bforces?\b"; "\bproduces?\b"; "\bcreates?\b";
  "\bdue to\b"; "\bbecause of\b"; "\btherefore\b"; "\bthus\b";
  "\bincreases?\b"; "\bdecreases?\b"; "\bimproves?\b"; "\bworsens?\b";
  "\bcures?\b"; "\bboosts?\b"; "\breduces?\b"; "\braises?\b";
  "\blowers?\b"; "\benhances?\b"; "\bprevents?\b"; "\btriggers?\b";
  "\benables?\b"; "\bdisables?\b"
].

Definition SAMPLE_SIZE_PATTERNS : list string := [
  "\bn\s*=\s*\d+"; "\bsample size[:\s]+\d+"; "\b\d+\s+participants?\b";
  "\b\d+\s+subjects?\b"; "\b\d+\s+respondents?\b"; "\b\d+\s+people\b";
  "\bN\s*=\s*\d+"
].

Definition NUMBER_PATTERNS : list string := [
  "\b\d+\.?\d*%"; "\b\d+\.?\d*x\b"; "\b\d+\.?\d*\s*times\b";
  "\b\d+\s*percent"; "\$\d+"; "\b\d+\.?\d*\s*(million|billion|thousand)\b"
].

Definition RISK_MULTIPLIER_PATTERNS : list string := [
  "\bdoubl(e|es|ed|ing)\b"; "\btripl(e|es|ed|ing)\b";
  "\b\d+x\s+(higher|more|greater|increased)";
  "\b\d+\s+times\s+(higher|more|greater|as likely)";
  "\b\d+%\s+increase"; "\b\d+00%\b"
].

Definition RISK_WORDS : list string := [
  "\brisk\b"; "\bchance\b"; "\blikely\b"; "\blikelihood\b";
  "\bprobability\b"; "\bodds\b"; "\bmore likely\b"; "\bhazard\b"
].

Definition EFFECT_WORDS : list string := [
  "\bimproved?\b"; "\breduced?\b"; "\bincreased?\b"; "\bdecreased?\b";
  "\bbetter\b"; "\bworse\b"; "\bmore effective\b"; "\bless effective\b";
  "\bsuperior\b"; "\binferior\b"; "\benhanced?\b"; "\bworked\b";
  "\bhelped\b"; "\bbenefited\b"; "\bboosted\b";
  "\bregulates?\b"; "\bfights?\b"; "\bblocks?\b"; "\bstops?\b";
  "\bprevents?\b"; "\bcures?\b"
].

Definition COMPARATOR_WORDS : list string := [
  "\bthan\b"; "\bvs\.?\b"; "\bversus\b"; "\bcompared to\b";
  "\bcompared with\b"; "\brelative to\b"; "\bagainst\b";
  "\bcontrol group\b"; "\bplacebo\b"; "\bbaseline\b";
  "\bcontrol\b"; "\bcomparison group\b"
].

(** The patterns written inside the methods. *)
Definition EXPERIMENTAL_EVIDENCE : string :=
  "\brandomized\b|\bcontrolled trial\b|\bRCT\b|\bexperiment\b|\bintervention\b".

Definition HAS_NUMBERS : string := "\d+%|\d+\s*percent|\d+\.?\d*\s*times".

Definition HAS_PERCENTAGE : string := "\d+%|\d+\s*percent".

Definition HAS_RELATIVE : string :=
  "increase[sd]?|decrease[sd]?|more|less|higher|lower|times".

Definition HAS_MULTIPLIER : string := "\d+x\b".

Definition BASE_RATE_ABSOLUTE : string :=
  "\bof\s+\d+|\bout of\s+\d+|from\s+\d+\s+to\s+\d+|n\s*=\s*\d+".

Definition ABSOLUTE_RISK_CONTEXT : string :=
  "\bfrom\s+\d+\.?\d*%?\s+to\s+\d+\.?\d*%?|\bout of\s+\d+|\bof\s+\d+|\bin\s+\d+|\b\d+\.?\d*%\s+to\s+\d+\.?\d*%|\babsolute risk".

Definition IMPLICIT_COMPARATOR : string :=
  "\b(increase[ds]?|decrease[ds]?|reduced?|improved?|rose|fell|dropped|grew|enhanced?)\s+(by|from|to)\s+\d+|\bfrom\s+\d+.*?\bto\s+\d+".

Definition RESEARCH_CONTEXT : string :=
  "\bstudy\b|\bresearch\b|\btrial\b|\btest\b|\bparticipants?\b|\bsubjects?\b".

Definition SENTENCE_END : string := "[.!?]+".

(** [any(re.search(pattern, s) for pattern in patterns)] *)
Definition any_search (patterns : list string) (s : string) : bool :=
  existsb (fun pattern => Re.search pattern s) patterns.

(** [any(re.search(pattern, s, re.IGNORECASE) for pattern in patterns)] *)
Definition any_search_ignorecase (patterns : list string) (s : string)
  : bool :=
  existsb (fun pattern => Re.search_ignorecase pattern s) patterns.

(** [sum(len(re.findall(pattern, s)) for pattern in patterns)] *)
Definition sum_findall (patterns : list string) (s : string) : nat :=
  fold_right (fun pattern n => (Re.count_findall pattern s + n)%nat)
             0%nat patterns.

(** *** The analyzer *)

Record StatisticalAnalyzer : Type := {
  text : string;
  sentences : list string
}.

Definition nonempty (s : string) : bool :=
  match s with EmptyString => false | String _ _ => true end.

Definition _split_sentences (text : string) : list string :=
  map PyStr.strip
      (filter (fun s => nonempty (PyStr.strip s))
              (Re.split SENTENCE_END text)).

(** [StatisticalAnalyzer(text)] *)
Definition new_analyzer (text : string) : StatisticalAnalyzer :=
  {| text := text; sentences := _split_sentences text |}.

Definition ratio (n d : nat) : Q :=
  (inject_Z (Z.of_nat n) / inject_Z (Z.of_nat d))%Q.

Definition sentence_has_numbers (sentence : string) : bool :=
  any_search_ignorecase NUMBER_PATTERNS sentence.

Definition _calculate_data_density (self : StatisticalAnalyzer) : Q :=
  match sentences self with
  | [] => 0%Q
  | _ =>
      let sentences_with_numbers :=
        List.length (filter sentence_has_numbers (sentences self)) in
      ratio sentences_with_numbers (List.length (sentences self))
  end.

Definition _calculate_vagueness_score (self : StatisticalAnalyzer) : Q :=
  let text_lower := PyStr.lower (text self) in
  let total_words := PyStr.count_words (text self) in
  if (total_words =? 0)%nat then 0%Q
  else
    let hedge_count := sum_findall HEDGE_WORDS text_lower in
    Qmin 1 (ratio hedge_count total_words * 10)%Q.

Definition _count_extreme_language (self : StatisticalAnalyzer) : Z :=
  let text_lower := PyStr.lower (text self) in
  Z.of_nat (sum_findall EXTREME_WORDS text_lower).

Definition _check_sample_size_mentioned (self : StatisticalAnalyzer) : bool :=
  any_search_ignorecase SAMPLE_SIZE_PATTERNS (text self).

Definition _count_causation_language (self : StatisticalAnalyzer) : Z :=
  let text_lower := PyStr.lower (text self) in
  Z.of_nat (sum_findall CAUSATION_WORDS text_lower).

Definition calculate_text_metrics (self : StatisticalAnalyzer) : TextMetrics :=
  {| data_density_score := _calculate_data_density self;
     vagueness_score := _calculate_vagueness_score self;
     extreme_language_count := _count_extreme_language self;
     sample_size_mentioned := _check_sample_size_mentioned self;
     causation_language_count := _count_causation_language self |}.

(** *** The seven rules *)

Definition truthy {A : Type} (l : list A) : bool :=
  match l with [] => false | _ :: _ => true end.

Definition _check_correlation_vs_causation
           (self : StatisticalAnalyzer) (claim : Claim) : StatisticalCheck :=
  let quote_lower := PyStr.lower (quote claim) in
  let has_causation_words := any_search CAUSATION_WORDS quote_lower in
  let has_experimental_evidence :=
    Re.search_ignorecase EXPERIMENTAL_EVIDENCE (quote claim) in
  if has_causation_words && negb has_experimental_evidence then
    {| check_name := "Correlation vs Causation";
       passed := false;
       severity := high;
       explanation :=
         "Claim uses causal language ('" ++ quote claim
         ++ "') but doesn't mention experimental evidence. "
         ++ "Causal claims require randomized controlled trials or careful causal inference, not just correlation.";
       suggestion :=
         Some "Either provide experimental evidence or rephrase using correlational language: 'associated with', 'correlated with', 'linked to'" |}
  else
    {| check_name := "Correlation vs Causation";
       passed := true;
       severity := low;
       explanation := "No inappropriate causal language detected.";
       suggestion := None |}.

Definition _check_sample_size
           (self : StatisticalAnalyzer) (claim : Claim) : StatisticalCheck :=
  let quote_lower := PyStr.lower (quote claim) in
  let has_numbers := Re.search HAS_NUMBERS quote_lower in
  let sample_size_passed :=
    {| check_name := "Sample Size Disclosure";
       passed := true;
       severity := low;
       explanation := "Sample size mentioned or not required for this claim type.";
       suggestion := None |} in
  if has_numbers || truthy (numerical_values claim) then
    let has_sample_size :=
      any_search_ignorecase SAMPLE_SIZE_PATTERNS (quote claim) in
    if negb has_sample_size then
      {| check_name := "Sample Size Disclosure";
         passed := false;
         severity := medium;
         explanation :=
           "Statistical claim '" ++ quote claim
           ++ "' provides numbers but doesn't mention sample size. "
           ++ "Small samples can produce misleading statistics.";
         suggestion :=
           Some "Include sample size: 'n=X' or 'based on X participants'" |}
    else sample_size_passed
  else sample_size_passed.

Definition HIGH_IMPACT : list string := ["will"; "cure"; "guarantee"; "must"].

(** [[pattern for pattern in patterns if re.search(pattern, s)]] *)
Definition matching (patterns : list string) (s : string) : list string :=
  flat_map (fun pattern => if Re.search pattern s then [pattern] else [])
           patterns.

Definition extreme_matches (quote_lower : string) : list string :=
  matching EXTREME_WORDS quote_lower.

(** [match.group()] of each pattern that matched. *)
Definition matched_words (quote_lower : string) : list string :=
  flat_map (fun pattern =>
              match Re.search_group pattern quote_lower with
              | Some w => [w]
              | None => []
              end)
           (extreme_matches quote_lower).

Definition _check_extreme_language_in_claim
           (self : StatisticalAnalyzer) (claim : Claim) : StatisticalCheck :=
  let quote_lower := PyStr.lower (quote claim) in
  if truthy (extreme_matches quote_lower) then
    {| check_name := "Extreme Language";
       passed := false;
       severity :=
         if existsb (fun word => PyStr.contains word quote_lower) HIGH_IMPACT
         then high else medium;
       explanation :=
         "Claim uses absolute language: '"
         ++ PyStr.join ", " (firstn 3 (matched_words quote_lower)) ++ "'. "
         ++ "Words like 'always', 'never', 'will', 'cure', 'guarantee' are rarely justified in science.";
       suggestion :=
         Some "Use qualified language: 'often', 'may', 'suggests', 'can help', 'associated with'" |}
  else
    {| check_name := "Extreme Language";
       passed := true;
       severity := low;
       explanation := "No problematic absolute language detected.";
       suggestion := None |}.

Definition _check_base_rate
           (self : StatisticalAnalyzer) (claim : Claim) : StatisticalCheck :=
  let quote_lower := PyStr.lower (quote claim) in
  let has_percentage := Re.search HAS_PERCENTAGE quote_lower in
  let has_relative := Re.search HAS_RELATIVE quote_lower in
  let has_multiplier := Re.search HAS_MULTIPLIER quote_lower in
  let base_rate_passed :=
    {| check_name := "Base Rate Neglect";
       passed := true;
       severity := low;
       explanation := "Base rates provided or not applicable.";
       suggestion := None |} in
  if has_percentage || has_relative || has_multiplier then
    let has_absolute := Re.search BASE_RATE_ABSOLUTE quote_lower in
    if negb has_absolute then
      {| check_name := "Base Rate Neglect";
         passed := false;
         severity := medium;
         explanation :=
           "Claim provides relative statistics without absolute context. "
           ++ "'50% increase' or '200%' means different things if starting from 2 vs 2000.";
         suggestion :=
           Some "Include absolute numbers: '50% increase (from 100 to 150)' or baseline context" |}
    else base_rate_passed
  else base_rate_passed.

Definition quant_keywords : list string := [
  "significant"; "substantial"; "large"; "small"; "majority";
  "minority"; "most"; "few"; "many"; "rare"; "common"
].

Definition _check_data_support
           (self : StatisticalAnalyzer) (claim : Claim) : StatisticalCheck :=
  let quote_lower := PyStr.lower (quote claim) in
  let has_quant_keyword :=
    existsb (fun keyword => PyStr.contains keyword quote_lower)
            quant_keywords in
  if has_quant_keyword && negb (truthy (numerical_values claim)) then
    {| check_name := "Data Support";
       passed := false;
       severity := medium;
       explanation :=
         "Claim uses quantitative language ('" ++ quote claim
         ++ "') but provides no actual numbers. "
         ++ "Terms like 'significant' or 'most' should be backed by data.";
       suggestion :=
         Some "Replace vague terms with specific percentages or counts" |}
  else
    {| check_name := "Data Support";
       passed := true;
       severity := low;
       explanation := "Claims are appropriately supported with data or don't require it.";
       suggestion := None |}.

Definition _check_relative_risk_without_context
           (self : StatisticalAnalyzer) (claim : Claim) : StatisticalCheck :=
  let quote_lower := PyStr.lower (quote claim) in
  let has_risk_multiplier := any_search RISK_MULTIPLIER_PATTERNS quote_lower in
  let has_risk_word := any_search RISK_WORDS quote_lower in
  let relative_risk_passed :=
    {| check_name := "Relative Risk Without Context";
       passed := true;
       severity := low;
       explanation := "Relative risk properly contextualized or not applicable.";
       suggestion := None |} in
  if has_risk_multiplier && has_risk_word then
    let has_absolute := Re.search ABSOLUTE_RISK_CONTEXT quote_lower in
    if negb has_absolute then
      {| check_name := "Relative Risk Without Context";
         passed := false;
         severity := high;
         explanation :=
           "Claim uses alarming relative risk language ('" ++ quote claim
           ++ "') without providing absolute numbers. "
           ++ "'Doubles your risk' sounds scary, but doubling from 0.001% to 0.002% is very different from 10% to 20%.";
         suggestion :=
           Some "Include absolute risk: 'increased from 0.5% to 1%' or 'affecting 2 in 10,000 people instead of 1 in 10,000'" |}
    else relative_risk_passed
  else relative_risk_passed.

Definition _check_missing_comparator
           (self : StatisticalAnalyzer) (claim : Claim) : StatisticalCheck :=
  let quote_lower := PyStr.lower (quote claim) in
  let has_effect_claim := any_search EFFECT_WORDS quote_lower in
  let comparator_passed :=
    {| check_name := "Missing Comparator";
       passed := true;
       severity := low;
       explanation := "Comparisons are properly specified or not required.";
       suggestion := None |} in
  if has_effect_claim then
    let has_comparator := any_search COMPARATOR_WORDS quote_lower in
    let has_implicit_comparator :=
      Re.search IMPLICIT_COMPARATOR quote_lower in
    if negb has_comparator && negb has_implicit_comparator then
      let is_research_claim := Re.search RESEARCH_CONTEXT quote_lower in
      {| check_name := "Missing Comparator";
         passed := false;
         severity := if is_research_claim then high else medium;
         explanation :=
           "Claim states that something '" ++ quote claim
           ++ "' but doesn't specify compared to what. "
           ++ "Improved vs. placebo? Control group? Previous version? Doing nothing? Without a comparison point, the claim is meaningless.";
         suggestion :=
           Some "Specify the comparison: 'improved compared to placebo', 'better than standard treatment', 'reduced vs. baseline'" |}
    else comparator_passed
  else comparator_passed.

Definition check_claim (self : StatisticalAnalyzer) (claim : Claim)
  : list StatisticalCheck :=
  let checks : list StatisticalCheck := [] in
  let checks := (checks ++ [_check_correlation_vs_causation self claim])%list in
  let checks := (checks ++ [_check_sample_size self claim])%list in
  let checks := (checks ++ [_check_extreme_language_in_claim self claim])%list in
  let checks := (checks ++ [_check_base_rate self claim])%list in
  let checks := (checks ++ [_check_data_support self claim])%list in
  let checks := (checks ++ [_check_relative_risk_without_context self claim])%list in
  let checks := (checks ++ [_check_missing_comparator self claim])%list in
  checks.

Definition analyze_text (text : string) : TextMetrics :=
  calculate_text_metrics (new_analyzer text).

(** [check_claims]: the dictionary comprehension inserts the claims one
    after the other, so a later claim with the same id replaces the checks
    of an earlier one. *)
Definition check_claims (text : string) (claims : list Claim)
  : PyDict.dict (list StatisticalCheck) :=
  let analyzer := new_analyzer text in
  fold_left (fun d claim =>
               PyDict.set d (claim_id claim) (check_claim analyzer claim))
            claims [].

End StatisticalChecks.

(* ================================================================== *)
(** ** [app.py]: status of a claim and reliability score *)

Module App.

Import Schemas.

(** The status derivation of [run_standard_analysis]. *)
Definition derive_status (checks : list StatisticalCheck) : Status :=
  let failed_checks := filter (fun c => negb (passed c)) checks in
  if existsb (fun c => Severity_eqb (severity c) critical) failed_checks
  then critical_status
  else if existsb (fun c => Severity_eqb (severity c) high) failed_checks
  then major_issues
  else if StatisticalChecks.truthy failed_checks then minor_issues
  else clean.

(** The audit that [run_standard_analysis] builds for one claim. *)
Definition audit_claim (analyzer : StatisticalChecks.StatisticalAnalyzer)
           (claim : Claim) : ClaimAudit :=
  let checks := StatisticalChecks.check_claim analyzer claim in
  {| audit_claim_id := claim_id claim;
     claim_quote := quote claim;
     checks_performed := checks;
     overall_status := derive_status checks |}.

(** [sum(f(audit) for audit in claim_audits)] *)
Definition sum_over (f : ClaimAudit -> nat) (claim_audits : list ClaimAudit)
  : nat :=
  fold_right (fun audit n => (f audit + n)%nat) 0%nat claim_audits.

Definition total_checks (claim_audits : list ClaimAudit) : nat :=
  sum_over (fun audit => List.length (checks_performed audit)) claim_audits.

Definition failed_checks (claim_audits : list ClaimAudit) : nat :=
  sum_over (fun audit =>
              List.length (filter (fun c => negb (passed c))
                                  (checks_performed audit)))
           claim_audits.

Definition failure_rate (claim_audits : list ClaimAudit) : Q :=
  StatisticalChecks.ratio (failed_checks claim_audits)
                          (total_checks claim_audits).

(** The score before it is clamped. *)
Definition raw_score (text_metrics : TextMetrics)
           (claim_audits : list ClaimAudit) : Q :=
  let score := 50%Q in
  let score := (score + data_density_score text_metrics * 20)%Q in
  let score := (score - vagueness_score text_metrics * 15)%Q in
  let score :=
    if sample_size_mentioned text_metrics then (score + 10)%Q else score in
  let score :=
    (score
     - inject_Z (Z.min (extreme_language_count text_metrics * 2) 15))%Q in
  if (0 <? total_checks claim_audits)%nat
  then (score - failure_rate claim_audits * 30)%Q
  else score.

Definition calculate_reliability_score (text_metrics : TextMetrics)
           (claim_audits : list ClaimAudit) : Q :=
  Qmax 0 (Qmin 100 (raw_score text_metrics claim_audits)).

(** Step 2 of [run_standard_analysis]: the checks of every claim, stored
    under its id. *)
Definition claim_check_results
           (analyzer : StatisticalChecks.StatisticalAnalyzer)
           (claims : list Claim) : PyDict.dict (list StatisticalCheck) :=
  fold_left (fun d claim =>
               PyDict.set d (claim_id claim)
                          (StatisticalChecks.check_claim analyzer claim))
            claims [].

(** The audits that [run_standard_analysis] builds from the stored checks:
    the checks of a claim are looked up by its id.  [None] stands for the
    [KeyError] of a failed lookup. *)
Fixpoint build_claim_audits (results : PyDict.dict (list StatisticalCheck))
         (claims : list Claim) : option (list ClaimAudit) :=
  match claims with
  | [] => Some []
  | claim :: rest =>
      match PyDict.get results (claim_id claim) with
      | None => None
      | Some checks =>
          let audit :=
            {| audit_claim_id := claim_id claim;
               claim_quote := quote claim;
               checks_performed := checks;
               overall_status := derive_status checks |} in
          match build_claim_audits results rest with
          | None => None
          | Some claim_audits => Some (audit :: claim_audits)
          end
      end
  end.

Definition run_checks (analyzer : StatisticalChecks.StatisticalAnalyzer)
           (claims : list Claim) : option (list ClaimAudit) :=
  build_claim_audits (claim_check_results analyzer claims) claims.

End App.

(* ================================================================== *)
(** ** [app.py]: the accuracy of the user's predictions *)

Module Predictions.

Import Schemas.

Definition PRED_TO_CHECK : PyDict.dict string := [
  ("correlation", "Correlation vs Causation");
  ("sample_size", "Sample Size Disclosure");
  ("extreme_language", "Extreme Language");
  ("base_rate", "Base Rate Neglect");
  ("data_support", "Data Support");
  ("relative_risk", "Relative Risk Without Context");
  ("missing_comparator", "Missing Comparator")
].

(** An entry of [by_type_metrics], [{'caught': ..., 'total': ...}]. *)
Module ByType.
Record metrics : Type := { caught : nat; total : nat }.
End ByType.

(** An entry of [per_claim_metrics]. *)
Module PerClaim.
Record metrics : Type := {
  quote : string;
  predicted : list string;
  actual : list string;
  caught : list string;
  missed : list string;
  false_positives : list string
}.
End PerClaim.

(** The variables of the loop. *)
Module Loop.
Record state : Type := {
  total_issues : nat;
  true_positives : nat;
  false_positives : nat;
  false_negatives : nat;
  per_claim_metrics : PyDict.dict PerClaim.metrics;
  by_type_metrics : PyDict.dict ByType.metrics
}.
End Loop.

(** The dictionary that the function returns. *)
Record accuracy_metrics : Type := {
  overall_accuracy : Q;
  true_positives : nat;
  false_positives : nat;
  false_negatives : nat;
  total_issues : nat;
  per_claim : PyDict.dict PerClaim.metrics;
  by_type : PyDict.dict ByType.metrics
}.

(** [user_predictions.get(claim_id, {})] *)
Definition get_or_empty (user_predictions : PyDict.dict (PyDict.dict bool))
           (claim_id : string) : PyDict.dict bool :=
  match PyDict.get user_predictions claim_id with
  | Some user_pred => user_pred
  | None => []
  end.

(** [{issue for issue, flagged in user_pred.items() if flagged}] *)
Definition predicted_issues_of (user_pred : PyDict.dict bool) : PySet.set :=
  PySet.of_list (map fst (filter (fun item => snd item) user_pred)).

(** [{check.check_name for check in audit.checks_performed
      if not check.passed}] *)
Definition actual_checks_of (audit : ClaimAudit) : PySet.set :=
  PySet.of_list
    (map check_name
         (filter (fun check => negb (passed check)) (checks_performed audit))).

(** The inner loop with its [break]: the first key of [PRED_TO_CHECK] whose
    check name occurs in [check_name]. *)
Definition pred_key_of (check_name : string) : option string :=
  match find (fun item => PyStr.contains (snd item) check_name) PRED_TO_CHECK
  with
  | Some (pred_key, _) => Some pred_key
  | None => None
  end.

Definition actual_issues_of (actual_checks : PySet.set) : PySet.set :=
  fold_left (fun actual_issues check_name =>
               match pred_key_of check_name with
               | Some pred_key => PySet.add actual_issues pred_key
               | None => actual_issues
               end)
            actual_checks [].

(** One round of [for issue in actual_issues]; [None] stands for the
    [KeyError] of [by_type_metrics[issue]]. *)
Definition track (caught : PySet.set)
           (by_type_metrics : PyDict.dict ByType.metrics) (issue : string)
  : option (PyDict.dict ByType.metrics) :=
  match PyDict.get by_type_metrics issue with
  | None => None
  | Some entry =>
      let entry :=
        {| ByType.caught := ByType.caught entry;
           ByType.total := ByType.total entry + 1 |} in
      let entry :=
        if PySet.mem issue caught
        then {| ByType.caught := ByType.caught entry + 1;
                ByType.total := ByType.total entry |}
        else entry in
      Some (PyDict.set by_type_metrics issue entry)
  end.

Fixpoint track_all (caught : PySet.set)
         (by_type_metrics : PyDict.dict ByType.metrics)
         (actual_issues : list string)
  : option (PyDict.dict ByType.metrics) :=
  match actual_issues with
  | [] => Some by_type_metrics
  | issue :: rest =>
      match track caught by_type_metrics issue with
      | None => None
      | Some by_type_metrics => track_all caught by_type_metrics rest
      end
  end.

(** The body of [for audit in claim_audits]. *)
Definition review (user_predictions : PyDict.dict (PyDict.dict bool))
           (st : Loop.state) (audit : ClaimAudit) : option Loop.state :=
  let claim_id := audit_claim_id audit in
  if negb (PyDict.mem user_predictions claim_id) then Some st
  else
    let user_pred := get_or_empty user_predictions claim_id in
    let predicted_issues := predicted_issues_of user_pred in
    let actual_checks := actual_checks_of audit in
    let actual_issues := actual_issues_of actual_checks in
    let caught := PySet.inter predicted_issues actual_issues in
    let missed := PySet.diff actual_issues predicted_issues in
    let false_pos := PySet.diff predicted_issues actual_issues in
    match track_all caught (Loop.by_type_metrics st) actual_issues with
    | None => None
    | Some by_type_metrics =>
        Some {| Loop.total_issues :=
                  Loop.total_issues st + List.length actual_issues;
                Loop.true_positives :=
                  Loop.true_positives st + List.length caught;
                Loop.false_positives :=
                  Loop.false_positives st + List.length false_pos;
                Loop.false_negatives :=
                  Loop.false_negatives st + List.length missed;
                Loop.per_claim_metrics :=
                  PyDict.set (Loop.per_claim_metrics st) claim_id
                    {| PerClaim.quote := claim_quote audit;
                       PerClaim.predicted := predicted_issues;
                       PerClaim.actual := actual_issues;
                       PerClaim.caught := caught;
                       PerClaim.missed := missed;
                       PerClaim.false_positives := false_pos |};
                Loop.by_type_metrics := by_type_metrics |}
    end.

Fixpoint review_all (user_predictions : PyDict.dict (PyDict.dict bool))
         (st : Loop.state) (claim_audits : list ClaimAudit)
  : option Loop.state :=
  match claim_audits with
  | [] => Some st
  | audit :: rest =>
      match review user_predictions st audit with
      | None => None
      | Some st => review_all user_predictions st rest
      end
  end.

Definition initial : Loop.state :=
  {| Loop.total_issues := 0;
     Loop.true_positives := 0;
     Loop.false_positives := 0;
     Loop.false_negatives := 0;
     Loop.per_claim_metrics := [];
     Loop.by_type_metrics :=
       map (fun issue => (issue, {| ByType.caught := 0; ByType.total := 0 |}))
           (PyDict.keys PRED_TO_CHECK) |}.

(** [None] stands for a [KeyError]. *)
Definition calculate_prediction_accuracy
           (user_predictions : PyDict.dict (PyDict.dict bool))
           (claim_audits : list ClaimAudit) : option accuracy_metrics :=
  match review_all user_predictions initial claim_audits with
  | None => None
  | Some st =>
      Some {| overall_accuracy :=
                if (0 <? Loop.total_issues st)%nat
                then StatisticalChecks.ratio (Loop.true_positives st)
                                             (Loop.total_issues st)
                else 0%Q;
              true_positives := Loop.true_positives st;
              false_positives := Loop.false_positives st;
              false_negatives := Loop.false_negatives st;
              total_issues := Loop.total_issues st;
              per_claim := Loop.per_claim_metrics st;
              by_type := Loop.by_type_metrics st |}
  end.

End Predictions.

(* ================================================================== *)
(** ** [retry.py] *)

Module Retry.

(** One turn of the conversation, [{"role": ..., "content": ...}]. *)
Record message : Type := { role : string; content : string }.

(** The two exceptions that the loop catches, with their [str(e)]. *)
Inductive decode_error : Type :=
| JSONDecodeError (msg : string)
| ValidationError (msg : string).

Definition str_of_error (e : decode_error) : string :=
  match e with
  | JSONDecodeError msg => msg
  | ValidationError msg => msg
  end.

(** [str(last_error)], where [last_error] may still be [None]. *)
Definition str_of_last_error (last_error : option decode_error) : string :=
  match last_error with
  | Some e => str_of_error e
  | None => "None"
  end.

Inductive exception : Type :=
| RetryExhaustedError (msg : string).

Definition nl : string := String (ascii_of_nat 10) EmptyString.

(** The text between the code fences of a response, or the whole
    response when it has none. *)
Definition extract_json_str (response_text : string) : string :=
  if PyStr.contains "```json" response_text then
    let json_start := (PyStr.find "```json" response_text 0 + 7)%Z in
    let json_end := PyStr.find "```" response_text json_start in
    PyStr.strip (PyStr.slice response_text json_start json_end)
  else if PyStr.contains "```" response_text then
    let json_start := (PyStr.find "```" response_text 0 + 3)%Z in
    let json_end := PyStr.find "```" response_text json_start in
    PyStr.strip (PyStr.slice response_text json_start json_end)
  else PyStr.strip response_text.

(** [extract_json_from_text]: the same extraction on the stripped text,
    which is returned as it is when it has no fence. *)
Definition extract_json_from_text (text : string) : string :=
  let text := PyStr.strip text in
  if PyStr.contains "```json" text then
    let start := (PyStr.find "```json" text 0 + 7)%Z in
    let end_ := PyStr.find "```" text start in
    PyStr.strip (PyStr.slice text start end_)
  else if PyStr.contains "```" text then
    let start := (PyStr.find "```" text 0 + 3)%Z in
    let end_ := PyStr.find "```" text start in
    PyStr.strip (PyStr.slice text start end_)
  else text.

(** [range(n)] *)
Definition range (n : Z) : list Z := map Z.of_nat (seq 0 (Z.to_nat n)).

Section Loop.

(** What [json.loads] returns and the validated schema instance. *)
Variables Data T : Type.

(** [json.loads]: the parsed data, or the text of the
    [json.JSONDecodeError]. *)
Variable json_loads : string -> string + Data.

(** [schema_class.model_validate]: the instance, or the text of the
    [ValidationError]. *)
Variable model_validate : Data -> string + T.

(** [schema_class.__name__] *)
Variable schema_name : string.

(** The generation service: [client.messages.create] answers a
    conversation with the text of [response.content[0]] and may change
    its own state. *)
Variable Client : Type.
Variable create : Client -> string -> Q -> list message -> Client * string.

(** The body of the [try] block after the call. *)
Definition decode (response_text : string) : decode_error + T :=
  let json_str := extract_json_str response_text in
  match json_loads json_str with
  | inl msg => inl (JSONDecodeError msg)
  | inr data =>
      match model_validate data with
      | inl msg => inl (ValidationError msg)
      | inr validated_data => inr validated_data
      end
  end.

Definition error_type (e : decode_error) : string :=
  match e with
  | JSONDecodeError _ => "JSON parsing"
  | ValidationError _ => "Schema validation"
  end.

Definition error_message (e : decode_error) : string :=
  nl ++ error_type e
  ++ " error occurred. Please fix the JSON and try again." ++ nl
  ++ nl
  ++ "Error details:" ++ nl
  ++ str_of_error e ++ nl
  ++ nl
  ++ "Requirements:" ++ nl
  ++ "1. Your response must be valid JSON" ++ nl
  ++ "2. It must match this schema exactly: " ++ schema_name ++ nl
  ++ "3. Check all required fields are present" ++ nl
  ++ "4. Ensure all field types are correct (strings, numbers, booleans, etc.)" ++ nl
  ++ "5. Validate that numeric fields are in the correct ranges" ++ nl
  ++ nl
  ++ "Please output ONLY the corrected JSON, with no additional text or explanation."
  ++ nl.

Definition exhausted_message (max_retries : Z)
           (last_error : option decode_error) : string :=
  "Failed to get valid " ++ schema_name ++ " after "
  ++ PyStr.str_of_Z (max_retries + 1) ++ " attempts. "
  ++ "Last error: " ++ str_of_last_error last_error.

(** One call of the service: the conversation sent and the answer. *)
Record attempt : Type := {
  sent : list message;
  response_text : string
}.

(** What a run of the loop leaves behind: the value returned or the
    exception raised, the calls made in order, and the client. *)
Record run : Type := {
  outcome : T + exception;
  calls : list attempt;
  client_after : Client
}.

Definition record_call (a : attempt) (r : run) : run :=
  {| outcome := outcome r;
     calls := a :: calls r;
     client_after := client_after r |}.

(** The [for attempt in range(max_retries + 1)] loop over the attempts
    that remain. *)
Fixpoint retry_loop (attempts : list Z) (client : Client)
         (model : string) (temperature : Q) (max_retries : Z)
         (messages : list message) (last_error : option decode_error)
  : run :=
  match attempts with
  | [] =>
      {| outcome :=
           inr (RetryExhaustedError
                  ("Unexpected error in retry loop. Last error: "
                   ++ str_of_last_error last_error));
         calls := [];
         client_after := client |}
  | attempt_no :: rest =>
      let (client', response_text) :=
        create client model temperature messages in
      let this_call :=
        {| sent := messages; response_text := response_text |} in
      match decode response_text with
      | inr validated_data =>
          {| outcome := inl validated_data;
             calls := [this_call];
             client_after := client' |}
      | inl e =>
          let last_error := Some e in
          if (attempt_no <? max_retries)%Z then
            let messages :=
              (messages
               ++ [ {| role := "assistant"; content := response_text |};
                    {| role := "user"; content := error_message e |} ])%list
            in
            record_call this_call
              (retry_loop rest client' model temperature max_retries
                          messages last_error)
          else
            {| outcome :=
                 inr (RetryExhaustedError
                        (exhausted_message max_retries last_error));
               calls := [this_call];
               client_after := client' |}
      end
  end.

Definition validate_with_retry (client : Client) (model : string)
           (initial_messages : list message) (max_retries : Z)
           (temperature : Q) : run :=
  let messages := initial_messages in
  let last_error : option decode_error := None in
  retry_loop (range (max_retries + 1)) client model temperature
             max_retries messages last_error.

End Loop.


End Retry.

(* ================================================================== *)
(** * Vocabulary of the properties *)

Import Schemas StatisticalChecks.

(** The claim with a given quote and list of numeric tokens that the
    examples below audit. *)
Definition claim_of (q : string) (values : list string) : Claim :=
  {| claim_id := "c1";
     quote := q;
     claim_type := statistical;
     confidence := 0.9%Q;
     variables := [];
     numerical_values := values |}.

(** The analyzer of the test suites. *)
Definition test_analyzer : StatisticalAnalyzer := new_analyzer "Test text".

Definition compiles (pattern : string) : bool :=
  match Re.parse pattern with Some _ => true | None => false end.

(** Case analysis on the tests of a rule, without computing them. *)
Ltac rule_cases :=
  repeat match goal with
         | |- context [if ?b then _ else _] => destruct b; cbn
         end.

Definition RULE_NAMES : list string := [
  "Correlation vs Causation"; "Sample Size Disclosure"; "Extreme Language";
  "Base Rate Neglect"; "Data Support"; "Relative Risk Without Context";
  "Missing Comparator"
].

(** The seven rules, in the order in which [check_claim] runs them. *)
Definition RULES : list (StatisticalAnalyzer -> Claim -> StatisticalCheck) := [
  _check_correlation_vs_causation; _check_sample_size;
  _check_extreme_language_in_claim; _check_base_rate; _check_data_support;
  _check_relative_risk_without_context; _check_missing_comparator
].

(** A check as a rule may emit it: its name, then either a passing check of
    severity low or a failing check of severity medium or high. *)
Definition well_formed_check (name : string) (check : StatisticalCheck) : Prop :=
  check_name check = name
  /\ (passed check = true -> severity check = low)
  /\ (passed check = false -> severity check = medium \/ severity check = high)
  /\ severity check <> critical.

(** The literal characters with which every match of a pattern starts. *)
Fixpoint required_prefix (r : Re.regex) : list ascii :=
  match r with
  | Re.RAtom (Re.ALit c) => [c]
  | Re.RCat Re.RBound r2 => required_prefix r2
  | Re.RCat (Re.RAtom (Re.ALit c)) r2 => c :: required_prefix r2
  | Re.RGroup r1 => required_prefix r1
  | _ => []
  end.

(** The patterns of [EXTREME_WORDS] for will, cure, guarantee and must. *)
Definition HIGH_IMPACT_PATTERNS : list string :=
  ["\bcure[sd]?\b"; "\bwill\b"; "\bguarantee[sd]?\b"; "\bmust\b"].

(** One of the four is among the patterns that matched. *)
Definition high_impact_among_matches (quote_lower : string) : bool :=
  existsb (fun pattern => existsb (String.eqb pattern) HIGH_IMPACT_PATTERNS)
          (extreme_matches quote_lower).

(** The severity of a failing check as the specification words it: by the
    matches. *)
Definition severity_by_matches (quote_lower : string) : Severity :=
  if high_impact_among_matches quote_lower then high else medium.

(** The severity of a failing check as the source computes it: by the
    substrings of the lowercased quote. *)
Definition severity_by_substring (quote_lower : string) : Severity :=
  if existsb (fun word => PyStr.contains word quote_lower) HIGH_IMPACT
  then high else medium.

(** The implicit comparator as the specification words it: only the nine
    verb forms that it lists. *)
Definition STATED_IMPLICIT_COMPARATOR : string :=
  "\b(increased|decreased|reduced|improved|rose|fell|dropped|grew|enhanced)\s+(by|from|to)\s+\d+|\bfrom\s+\d+.*?\bto\s+\d+".

Definition atom_le (a b : Re.atom) : bool :=
  match a, b with
  | Re.ALit c, Re.ALit d => Ascii.eqb c d
  | Re.ALit c, Re.ASet items =>
      existsb (fun i => match i with
                        | Re.ILit d => Ascii.eqb c d
                        | _ => false
                        end) items
  | Re.AAny, Re.AAny => true
  | Re.ADigit, Re.ADigit => true
  | Re.ASpace, Re.ASpace => true
  | Re.AWord, Re.AWord => true
  | _, _ => false
  end.

(** A sufficient test, by the shape of the two patterns, for [r'] to match
    wherever [r] does. *)
Fixpoint regex_le (r r' : Re.regex) : bool :=
  match r, r' with
  | Re.REmpty, Re.REmpty => true
  | Re.RAtom a, Re.RAtom b => atom_le a b
  | Re.RAtom a, Re.ROpt (Re.RAtom b) => atom_le a b
  | Re.RBound, Re.RBound => true
  | Re.RCat r1 r2, Re.RCat r1' r2' => regex_le r1 r1' && regex_le r2 r2'
  | Re.RAlt r1 r2, Re.RAlt r1' r2' => regex_le r1 r1' && regex_le r2 r2'
  | Re.ROpt r1, Re.ROpt r1' => regex_le r1 r1'
  | Re.RStar a, Re.RStar b => atom_le a b
  | Re.RPlus a, Re.RPlus b => atom_le a b
  | Re.RLazyStar a, Re.RLazyStar b => atom_le a b
  | Re.RGroup r1, Re.RGroup r1' => regex_le r1 r1'
  | _, _ => false
  end.

(** [k'] succeeds wherever [k] does. *)
Definition cont_le {A : Type} (k k' : Re.cont A) : Prop :=
  forall prev s, k prev s <> None -> k' prev s <> None.

(** [p'] takes every character that [p] takes. *)
Definition pred_le (p p' : ascii -> bool) : Prop :=
  forall c, p c = true -> p' c = true.

Definition failed_with (sev : Severity) (checks : list StatisticalCheck)
  : Prop :=
  exists check, In check checks /\ passed check = false /\ severity check = sev.

Definition some_failed (checks : list StatisticalCheck) : Prop :=
  exists check, In check checks /\ passed check = false.

(** Turns the equation of a test that was decided into the fact it stands
    for. *)
Ltac decide_test H :=
  match type of H with
  | true = true <-> ?P => assert P by (apply H; reflexivity)
  | false = true <-> ?P =>
      assert (~ P)
        by (let X := fresh "X" in intros X; apply H in X; discriminate X)
  end;
  clear H.

Definition clamp (score : Q) : Q := Qmax 0 (Qmin 100 score).

(** The checks of all the audits, in one list. *)
Definition all_checks (claim_audits : list ClaimAudit)
  : list StatisticalCheck :=
  flat_map checks_performed claim_audits.

Definition failed (check : StatisticalCheck) : bool := negb (passed check).

(** The share of the checks of all the audits that failed, 0 when there is
    no check. *)
Definition failed_share (claim_audits : list ClaimAudit) : Q :=
  match all_checks claim_audits with
  | [] => 0%Q
  | checks =>
      (inject_Z (Z.of_nat (List.length (filter failed checks)))
       / inject_Z (Z.of_nat (List.length checks)))%Q
  end.

(** The penalty for failed checks: nothing when there are no checks. *)
Definition failure_penalty (claim_audits : list ClaimAudit) : Q :=
  if (App.total_checks claim_audits =? 0)%nat then 0%Q
  else (App.failure_rate claim_audits * 30)%Q.

(** The attempt yields output that fails JSON parsing or validation. *)
Definition fails {Data T : Type} (json_loads : string -> string + Data)
           (model_validate : Data -> string + T) (a : Retry.attempt) : Prop :=
  exists e,
    Retry.decode Data T json_loads model_validate (Retry.response_text a)
    = inl e.



(** A stub of the parsing and of the service: only the text [{}] is valid
    JSON of the schema, and the service never answers with it. *)
Definition stub_loads (json_str : string) : string + string :=
  if String.eqb json_str "{}" then inr json_str
  else inl "Expecting value: line 1 column 1 (char 0)".

Definition stub_validate (data : string) : string + string := inr data.

Definition always_invalid (served : nat) (model : string) (temperature : Q)
           (messages : list Retry.message) : nat * string :=
  (S served, "Sorry, here are the claims you asked for").

Definition stub_prompt : list Retry.message :=
  [ {| Retry.role := "user"; Retry.content := "Extract the claims." |} ].


(** ** Letter case *)

(** Case analysis on the 256 characters. *)
Ltac each_char c :=
  destruct c as [[] [] [] [] [] [] [] []]; vm_compute; reflexivity.

Definition lower_list (s : list ascii) : list ascii := map PyStr.lower_char s.

(** What a rule decides: the name of the check, whether it passed and its
    severity. *)
Definition decision (check : StatisticalCheck) : string * bool * Severity :=
  (check_name check, passed check, severity check).

(** The rules that read the quote through [claim.quote.lower()] only.  The
    two others, Correlation vs Causation and Sample Size Disclosure, also
    match the quote as it is written, with [re.IGNORECASE]. *)
Definition LOWERCASE_RULES
  : list (StatisticalAnalyzer -> Claim -> StatisticalCheck) := [
  _check_extreme_language_in_claim; _check_base_rate; _check_data_support;
  _check_relative_risk_without_context; _check_missing_comparator
].

(** ** Patterns that need a digit *)

(** A sufficient test, by the shape of the pattern, for every match to take
    a decimal digit. *)
Fixpoint needs_digit (r : Re.regex) : bool :=
  match r with
  | Re.RAtom Re.ADigit => true
  | Re.RPlus Re.ADigit => true
  | Re.RCat r1 r2 => needs_digit r1 || needs_digit r2
  | Re.RAlt r1 r2 => needs_digit r1 && needs_digit r2
  | Re.RGroup r1 => needs_digit r1
  | _ => false
  end.

Definition pattern_needs_digit (pattern : string) : bool :=
  match Re.parse pattern with
  | Some r => needs_digit r
  | None => true
  end.

Definition digit_free (s : list ascii) : Prop :=
  Forall (fun c => PyStr.isdecimal c = false) s.

Definition text_digit_free (s : string) : Prop :=
  digit_free (list_ascii_of_string s).

(** The continuation fails on every text that is left with the property
    [P]. *)
Definition fails_on {A : Type} (P : list ascii -> Prop) (k : Re.cont A)
  : Prop :=
  forall prev s, P s -> k prev s = None.

(** ** Characters of a string *)

Definition chars (s : string) : list ascii := list_ascii_of_string s.

Definition all_chars (P : ascii -> Prop) (s : string) : Prop :=
  Forall P (chars s).

(** The string does not start with white space. *)
Definition starts_with_text (s : string) : Prop :=
  match s with
  | EmptyString => True
  | String c _ => PyStr.isspace c = false
  end.

(** ** Splitting at runs of separator characters *)

Fixpoint take_while (p : ascii -> bool) (s : list ascii) : list ascii :=
  match s with
  | c :: s' => if p c then c :: take_while p s' else []
  | [] => []
  end.

Fixpoint drop_while (p : ascii -> bool) (s : list ascii) : list ascii :=
  match s with
  | c :: s' => if p c then drop_while p s' else s
  | [] => []
  end.

(** The characters that the atom takes, and the others. *)
Definition separator (a : Re.atom) (c : ascii) : bool := Re.atom_ok false a c.

Definition text_char (a : Re.atom) (c : ascii) : bool :=
  negb (Re.atom_ok false a c).

(** The atom of [SENTENCE_END], the class of the three terminal marks. *)
Definition TERMINAL : Re.atom :=
  Re.ASet [Re.ILit "."%char; Re.ILit "!"%char; Re.ILit "?"%char].

Definition not_terminal (c : ascii) : Prop :=
  c <> "."%char /\ c <> "!"%char /\ c <> "?"%char.

(** What a sentence of the analyzer is: not empty, stripped, and without a
    terminal mark. *)
Definition well_formed_sentence (sentence : string) : Prop :=
  sentence <> ""
  /\ PyStr.strip sentence = sentence
  /\ all_chars not_terminal sentence.

(** ** Fenced responses *)

#[local] Abbreviation backtick := ("`"%char).

Definition no_backtick (s : string) : Prop :=
  all_chars (fun c => c <> backtick) s.

Definition JSON_FENCE : string := "```json".

Definition FENCE : string := "```".

Ltac no_backticks :=
  unfold no_backtick, all_chars; vm_compute chars;
  repeat (apply Forall_cons; [discriminate|]); apply Forall_nil.

(** ** The conversation of the retry loop *)

(** The conversations of successive calls: the first is [messages]; after a
    call that failed with [e] the next conversation has the response and the
    feedback on [e] appended. *)
Fixpoint conversation_grows {Data T : Type}
         (json_loads : string -> string + Data)
         (model_validate : Data -> string + T) (schema_name : string)
         (messages : list Retry.message) (calls : list Retry.attempt) : Prop :=
  match calls with
  | [] => True
  | a :: later =>
      Retry.sent a = messages
      /\ match later with
         | [] => True
         | _ :: _ =>
             exists e,
               Retry.decode Data T json_loads model_validate
                            (Retry.response_text a) = inl e
               /\ conversation_grows
                    json_loads model_validate schema_name
                    (messages
                     ++ [ {| Retry.role := "assistant";
                             Retry.content := Retry.response_text a |};
                          {| Retry.role := "user";
                             Retry.content :=
                               Retry.error_message schema_name e |} ])%list
                    later
         end
  end.

(** ** The audits of a run *)

(** The last claim of a list that has a given id. *)
Fixpoint last_with_id (id : string) (claims : list Claim) : option Claim :=
  match claims with
  | [] => None
  | claim :: rest =>
      match last_with_id id rest with
      | Some later => Some later
      | None => if String.eqb (claim_id claim) id then Some claim else None
      end
  end.

(** The audit of a claim that holds the checks of [source]. *)
Definition audit_with_checks_of (analyzer : StatisticalAnalyzer)
           (claim source : Claim) : ClaimAudit :=
  {| audit_claim_id := claim_id claim;
     claim_quote := quote claim;
     checks_performed := check_claim analyzer source;
     overall_status := App.derive_status (check_claim analyzer source) |}.

(** A second claim, with an id of its own. *)
Definition second_claim (q : string) (values : list string) : Claim :=
  {| claim_id := "c2";
     quote := q;
     claim_type := causal;
     confidence := 0.8%Q;
     variables := [];
     numerical_values := values |}.

Definition two_claims : list Claim :=
  [ claim_of "Sales increased by 300%" ["300%"];
    second_claim "Coffee causes cancer" [] ].

(** The metrics of a text in which every sentence has data, no word hedges,
    nothing is extreme and a sample size is given. *)
Definition best_metrics : TextMetrics :=
  {| data_density_score := 1;
     vagueness_score := 0;
     extreme_language_count := 0;
     sample_size_mentioned := true;
     causation_language_count := 0 |}.

(** ** The accounts of the predictions *)

(** [sum(entry[f] for entry in by_type.values())] *)
Definition sum_by_type (f : Predictions.ByType.metrics -> nat)
           (by_type : PyDict.dict Predictions.ByType.metrics) : nat :=
  fold_right (fun item n => (f (snd item) + n)%nat) 0%nat by_type.

(** The user reviewed the claim of the audit. *)
Definition reviewed (user_predictions : PyDict.dict (PyDict.dict bool))
           (audit : ClaimAudit) : bool :=
  PyDict.mem user_predictions (audit_claim_id audit).

(** The table by type of issue has the seven types, and of no type more
    caught issues than issues. *)
Definition by_type_well_formed
           (by_type : PyDict.dict Predictions.ByType.metrics) : Prop :=
  PyDict.keys by_type = PyDict.keys Predictions.PRED_TO_CHECK
  /\ Forall (fun item =>
               (Predictions.ByType.caught (snd item)
                <= Predictions.ByType.total (snd item))%nat) by_type.

(** What holds of the variables of the loop after every round. *)
Definition accounted (st : Predictions.Loop.state) : Prop :=
  (Predictions.Loop.true_positives st + Predictions.Loop.false_negatives st
   = Predictions.Loop.total_issues st)%nat
  /\ by_type_well_formed (Predictions.Loop.by_type_metrics st)
  /\ sum_by_type Predictions.ByType.total (Predictions.Loop.by_type_metrics st)
     = Predictions.Loop.total_issues st
  /\ sum_by_type Predictions.ByType.caught (Predictions.Loop.by_type_metrics st)
     = Predictions.Loop.true_positives st.

(** The name and the outcome of every check. *)
Definition flags (checks : list StatisticalCheck) : list (string * bool) :=
  map (fun check => (check_name check, passed check)) checks.

Definition failed_flags (fl : list (string * bool)) : list (string * bool) :=
  filter (fun flag => negb (snd flag)) fl.

(** ** The explanations of the checks *)

(** [Field(..., min_length=10)] of [StatisticalCheck.explanation]. *)
Definition MIN_EXPLANATION : nat := 10.

Definition explained (check : StatisticalCheck) : Prop :=
  (MIN_EXPLANATION <= String.length (explanation check))%nat.

(* ================================================================== *)
(** * Properties *)

(** A pattern is compiled by computation on a concrete pattern only: the
    proofs about arbitrary quotes never look inside [Re.parse]. *)
#[local] Opaque Re.parse.
#[local] Arguments Re.search : simpl never.
#[local] Arguments Re.search_ignorecase : simpl never.
#[local] Arguments Re.search_group : simpl never.
#[local] Arguments any_search : simpl never.
#[local] Arguments any_search_ignorecase : simpl never.
#[local] Arguments extreme_matches : simpl never.
#[local] Arguments matched_words : simpl never.
#[local] Arguments String.append : simpl never.

(** ** The patterns of the source are in the fragment that is modelled *)

Lemma patterns_compile :
  forallb compiles
    (HEDGE_WORDS ++ EXTREME_WORDS ++ CAUSATION_WORDS ++ SAMPLE_SIZE_PATTERNS
     ++ NUMBER_PATTERNS ++ RISK_MULTIPLIER_PATTERNS ++ RISK_WORDS
     ++ EFFECT_WORDS ++ COMPARATOR_WORDS
     ++ [EXPERIMENTAL_EVIDENCE; HAS_NUMBERS; HAS_PERCENTAGE; HAS_RELATIVE;
         HAS_MULTIPLIER; BASE_RATE_ABSOLUTE; ABSOLUTE_RISK_CONTEXT;
         IMPLICIT_COMPARATOR; RESEARCH_CONTEXT; SENTENCE_END])%list = true.
Proof. vm_compute. reflexivity. Qed.

(** ** Booleans and lists *)

Lemma truthy_filter_existsb {A : Type} (f : A -> bool) (l : list A) :
  truthy (filter f l) = existsb f l.
Proof.
  induction l as [|x l IH]; simpl; [reflexivity|].
  destruct (f x); simpl; [reflexivity | exact IH].
Qed.

Lemma Severity_eqb_eq (a b : Severity) : Severity_eqb a b = true <-> a = b.
Proof. destruct a, b; simpl; split; congruence. Qed.

(** ** Rule 1: Correlation vs Causation *)

(** C4. The Correlation vs Causation rule fails with severity high exactly
    when a causal-relation pattern matches the lowercased quote and the
    experimental-evidence pattern does not match the quote; the check passes
    otherwise.  The quote 'Coffee drinking causes longevity' fails with
    severity high. *)
Theorem correlation_vs_causation_rule :
  (forall (self : StatisticalAnalyzer) (claim : Claim),
      let check := _check_correlation_vs_causation self claim in
      (passed check = false /\ severity check = high
       <-> any_search CAUSATION_WORDS (PyStr.lower (quote claim)) = true
           /\ Re.search_ignorecase EXPERIMENTAL_EVIDENCE (quote claim) = false)
      /\ (passed check = false <-> severity check = high))
  /\ (forall (self : StatisticalAnalyzer) (claim : Claim),
         quote claim = "Coffee drinking causes longevity" ->
         passed (_check_correlation_vs_causation self claim) = false
         /\ severity (_check_correlation_vs_causation self claim) = high).
Proof.
  split.
  - intros self claim check. subst check.
    unfold _check_correlation_vs_causation.
    destruct (any_search CAUSATION_WORDS (PyStr.lower (quote claim)));
      destruct (Re.search_ignorecase EXPERIMENTAL_EVIDENCE (quote claim));
      simpl; repeat split; intros; try tauto; try congruence;
      try (destruct H; congruence).
  - intros self claim Hq.
    unfold _check_correlation_vs_causation. rewrite Hq.
    vm_compute. split; reflexivity.
Qed.

(** ** Rule 6: Relative Risk Without Context *)

(** C3. The Relative Risk Without Context rule fails exactly when a
    risk-multiplier pattern and a risk-word pattern both match the lowercased
    quote and the absolute-risk-context pattern does not; a failing check has
    severity high.  'Smokers are 3x more likely to develop cancer' fails with
    severity high and 'Risk increased from 0.5% to 1% in the treatment group'
    passes. *)
Theorem relative_risk_rule :
  (forall (self : StatisticalAnalyzer) (claim : Claim),
      let check := _check_relative_risk_without_context self claim in
      let quote_lower := PyStr.lower (quote claim) in
      (passed check = false
       <-> any_search RISK_MULTIPLIER_PATTERNS quote_lower = true
           /\ any_search RISK_WORDS quote_lower = true
           /\ Re.search ABSOLUTE_RISK_CONTEXT quote_lower = false)
      /\ (passed check = false <-> severity check = high))
  /\ (forall (self : StatisticalAnalyzer) (claim : Claim),
         quote claim = "Smokers are 3x more likely to develop cancer" ->
         passed (_check_relative_risk_without_context self claim) = false
         /\ severity (_check_relative_risk_without_context self claim) = high)
  /\ (forall (self : StatisticalAnalyzer) (claim : Claim),
         quote claim = "Risk increased from 0.5% to 1% in the treatment group" ->
         passed (_check_relative_risk_without_context self claim) = true).
Proof.
  split; [|split].
  - intros self claim check quote_lower. subst check quote_lower.
    unfold _check_relative_risk_without_context.
    destruct (any_search RISK_MULTIPLIER_PATTERNS (PyStr.lower (quote claim)));
      destruct (any_search RISK_WORDS (PyStr.lower (quote claim)));
      destruct (Re.search ABSOLUTE_RISK_CONTEXT (PyStr.lower (quote claim)));
      simpl; repeat split; intros; try tauto; try congruence;
      try (destruct H as [? [? ?]]; congruence).
  - intros self claim Hq.
    unfold _check_relative_risk_without_context. rewrite Hq.
    vm_compute. split; reflexivity.
  - intros self claim Hq.
    unfold _check_relative_risk_without_context. rewrite Hq.
    vm_compute. reflexivity.
Qed.

(** ** The entry point *)

Lemma rules_well_formed (self : StatisticalAnalyzer) (claim : Claim) :
  Forall2 (fun name rule => well_formed_check name (rule self claim))
          RULE_NAMES RULES.
Proof.
  unfold RULE_NAMES, RULES.
  repeat (apply Forall2_cons; [| try apply Forall2_nil]);
    unfold well_formed_check;
    match goal with
    | |- context [?rule self claim] => unfold rule
    end;
    rule_cases; cbn;
    (split; [reflexivity|]);
    (split; [intros; first [discriminate | reflexivity]|]);
    (split; [intros; first [discriminate | left; reflexivity
                           | right; reflexivity]
            | discriminate]).
Qed.

(** C8. [check_claim] returns the results of the seven rules in the fixed
    order, hence exactly seven checks with the seven names in that order;
    a check that passes has severity low, and no check has severity
    critical. *)
Theorem check_claim_seven_rules (self : StatisticalAnalyzer) (claim : Claim) :
  check_claim self claim = map (fun rule => rule self claim) RULES
  /\ List.length (check_claim self claim) = 7%nat
  /\ map check_name (check_claim self claim) = RULE_NAMES
  /\ Forall (fun check =>
               (passed check = true -> severity check = low)
               /\ severity check <> critical)
            (check_claim self claim).
Proof.
  pose proof (rules_well_formed self claim) as W.
  unfold RULE_NAMES, RULES in W.
  repeat match goal with
         | H : Forall2 _ (_ :: _) (_ :: _) |- _ =>
             apply Forall2_cons_iff in H; destruct H as [[? [? [? ?]]] ?]
         end.
  split; [reflexivity|]. split; [reflexivity|]. split.
  - unfold check_claim, RULE_NAMES. cbn [app map]. congruence.
  - unfold check_claim. cbn [app].
    repeat (apply Forall_cons; [split; assumption|]). apply Forall_nil.
Qed.

(** C10. The checks of a claim do not depend on the text the analyzer was
    built from, and depend on the claim only through its quote and its
    numerical values. *)
Theorem check_claim_ignores_document :
  (forall (t1 t2 : string) (claim : Claim),
      check_claim (new_analyzer t1) claim = check_claim (new_analyzer t2) claim)
  /\ (forall (self1 self2 : StatisticalAnalyzer) (claim1 claim2 : Claim),
         quote claim1 = quote claim2 ->
         numerical_values claim1 = numerical_values claim2 ->
         check_claim self1 claim1 = check_claim self2 claim2).
Proof.
  assert (two : forall (self1 self2 : StatisticalAnalyzer)
                        (claim1 claim2 : Claim),
             quote claim1 = quote claim2 ->
             numerical_values claim1 = numerical_values claim2 ->
             check_claim self1 claim1 = check_claim self2 claim2).
  { intros self1 self2 claim1 claim2 Hq Hn.
    unfold check_claim, _check_correlation_vs_causation, _check_sample_size,
      _check_extreme_language_in_claim, _check_base_rate, _check_data_support,
      _check_relative_risk_without_context, _check_missing_comparator.
    rewrite Hq, Hn. reflexivity. }
  split.
  - intros t1 t2 claim. apply two; reflexivity.
  - exact two.
Qed.

(** ** Literal text that a match must contain *)

Lemma run_required_prefix (A : Type) (r : Re.regex) :
  forall (k : Re.cont A) prev s x,
    Re.run false A r k prev s = Some x ->
    exists rest, s = (required_prefix r ++ rest)%list.
Proof.
  induction r as [ | a | | r1 IH1 r2 IH2 | r1 IH1 r2 IH2 | r1 IH1 | a | a | a
                 | r1 IH1 ]; intros k prev s x H;
    try (exists s; reflexivity).
  - (* one character *)
    destruct a; try (exists s; reflexivity).
    cbn in H. destruct s as [|c' s']; [discriminate|].
    unfold Re.same_char in H.
    destruct (Ascii.eqb c c') eqn:E; [|discriminate].
    apply Ascii.eqb_eq in E. subst c'. exists s'. reflexivity.
  - (* concatenation *)
    destruct r1 as [ | a | | | | | | | | ]; try (exists s; reflexivity).
    + destruct a; try (exists s; reflexivity).
      cbn in H. destruct s as [|c' s']; [discriminate|].
      unfold Re.same_char in H.
      destruct (Ascii.eqb c c') eqn:E; [|discriminate].
      apply Ascii.eqb_eq in E. subst c'.
      apply IH2 in H. destruct H as [rest ->].
      exists rest. reflexivity.
    + cbn in H. destruct (Re.at_boundary prev s); [|discriminate].
      apply IH2 in H. exact H.
  - (* group *)
    cbn in H. apply IH1 in H. exact H.
Qed.

Lemma search_from_required_prefix (r : Re.regex) :
  forall prev s found,
    Re.search_from false r prev s = Some found ->
    exists before rest, s = (before ++ required_prefix r ++ rest)%list.
Proof.
  intros prev s. revert prev.
  induction s as [|c s IH]; intros prev found H; cbn in H.
  - destruct (Re.match_here false r prev []) eqn:M; [|discriminate].
    apply run_required_prefix in M. destruct M as [rest M].
    exists [], rest. exact M.
  - destruct (Re.match_here false r prev (c :: s)) eqn:M.
    + apply run_required_prefix in M. destruct M as [rest M].
      exists [], rest. exact M.
    + apply IH in H. destruct H as [before [rest ->]].
      exists (c :: before), rest. reflexivity.
Qed.

Lemma prefix_app (w rest : list ascii) :
  prefix (string_of_list_ascii w) (string_of_list_ascii (w ++ rest)) = true.
Proof.
  induction w as [|c w IH]; cbn.
  - destruct rest; reflexivity.
  - destruct (ascii_dec c c); [exact IH | congruence].
Qed.

Lemma prefix_contains (sub s : string) :
  prefix sub s = true -> PyStr.contains sub s = true.
Proof.
  intros H. destruct s; cbn [PyStr.contains]; rewrite H; reflexivity.
Qed.

Lemma contains_app (w before rest : list ascii) :
  PyStr.contains (string_of_list_ascii w)
                 (string_of_list_ascii (before ++ w ++ rest)) = true.
Proof.
  induction before as [|c before IH].
  - cbn [app]. apply prefix_contains, prefix_app.
  - cbn [app string_of_list_ascii PyStr.contains].
    rewrite IH. apply orb_true_r.
Qed.

(** A pattern that matches somewhere in [s] has its literal start in [s]. *)
Lemma search_contains (pattern : string) (r : Re.regex) (s : string) :
  Re.parse pattern = Some r ->
  Re.search pattern s = true ->
  PyStr.contains (string_of_list_ascii (required_prefix r)) s = true.
Proof.
  intros P H. unfold Re.search, Re.search_in in H. rewrite P in H.
  destruct (Re.search_from false r None (list_ascii_of_string s)) eqn:F;
    [|discriminate].
  apply search_from_required_prefix in F. destruct F as [before [rest F]].
  rewrite <- (string_of_list_ascii_of_string s), F.
  apply contains_app.
Qed.

(** ** Rule 3: Extreme Language *)

(** On 'Our servers are always secure' the only extreme word matched is
    'always', so by the matches the severity would be medium; the check has
    severity high, because 'secure' contains 'cure'.  Likewise for
    'Never use mustard', where 'mustard' contains 'must'. *)
Lemma extreme_language_substring_escalates :
  (passed (_check_extreme_language_in_claim
             test_analyzer (claim_of "Our servers are always secure" []))
   = false
   /\ extreme_matches "our servers are always secure" = ["\balways\b"]
   /\ matched_words "our servers are always secure" = ["always"]
   /\ severity_by_matches "our servers are always secure" = medium
   /\ severity (_check_extreme_language_in_claim
                  test_analyzer (claim_of "Our servers are always secure" []))
      = high)
  /\ (passed (_check_extreme_language_in_claim
                test_analyzer (claim_of "Never use mustard" [])) = false
      /\ matched_words "never use mustard" = ["never"]
      /\ severity_by_matches "never use mustard" = medium
      /\ severity (_check_extreme_language_in_claim
                     test_analyzer (claim_of "Never use mustard" [])) = high).
Proof. vm_compute. repeat split; reflexivity. Qed.

Lemma high_impact_pattern_contains (pattern quote_lower : string) :
  In pattern HIGH_IMPACT_PATTERNS ->
  Re.search pattern quote_lower = true ->
  existsb (fun word => PyStr.contains word quote_lower) HIGH_IMPACT = true.
Proof.
  intros Hin Hs. unfold HIGH_IMPACT. cbn [existsb].
  destruct Hin as [<- | [<- | [<- | [<- | []]]]];
    (eapply search_contains in Hs; [| vm_compute; reflexivity]);
    cbv [required_prefix string_of_list_ascii] in Hs; rewrite Hs;
    repeat rewrite orb_true_r; reflexivity.
Qed.

Lemma In_matching (patterns : list string) (s pattern : string) :
  In pattern (matching patterns s)
  <-> In pattern patterns /\ Re.search pattern s = true.
Proof.
  unfold matching. rewrite in_flat_map. split.
  - intros [p [Hin Hp]]. destruct (Re.search p s) eqn:E.
    + destruct Hp as [<- | []]. split; assumption.
    + destruct Hp.
  - intros [Hin Hs]. exists pattern. rewrite Hs. split; [assumption|].
    left. reflexivity.
Qed.

Lemma truthy_matching (patterns : list string) (s : string) :
  truthy (matching patterns s) = any_search patterns s.
Proof.
  unfold matching, any_search.
  induction patterns as [|p patterns IH]; cbn [flat_map existsb];
    [reflexivity|].
  destruct (Re.search p s); cbn; [reflexivity | exact IH].
Qed.

Lemma high_impact_among (patterns : list string) (s : string) :
  existsb (fun pattern => existsb (String.eqb pattern) HIGH_IMPACT_PATTERNS)
          (matching patterns s) = true ->
  truthy (matching patterns s) = true
  /\ existsb (fun word => PyStr.contains word s) HIGH_IMPACT = true.
Proof.
  intros Hh. apply existsb_exists in Hh. destruct Hh as [pattern [Hin Hp]].
  apply existsb_exists in Hp. destruct Hp as [p' [Hin' Heq]].
  apply String.eqb_eq in Heq. subst p'. split.
  - destruct (matching patterns s); [destruct Hin | reflexivity].
  - apply In_matching in Hin. destruct Hin as [_ Hs].
    exact (high_impact_pattern_contains pattern s Hin' Hs).
Qed.

(** C1, amended.  The Extreme Language rule fails exactly when an
    extreme-word pattern matches the lowercased quote.  A failing check has
    severity high when the lowercased quote contains 'will', 'cure',
    'guarantee' or 'must' as a substring, and medium otherwise; this is the
    case in particular when the pattern of one of these four words is among
    the matches. *)
Theorem extreme_language_rule (self : StatisticalAnalyzer) (claim : Claim) :
  let check := _check_extreme_language_in_claim self claim in
  let quote_lower := PyStr.lower (quote claim) in
  (passed check = false <-> any_search EXTREME_WORDS quote_lower = true)
  /\ (passed check = false ->
      severity check = severity_by_substring quote_lower)
  /\ (passed check = true -> severity check = low)
  /\ (high_impact_among_matches quote_lower = true ->
      passed check = false /\ severity check = high).
Proof.
  cbv zeta.
  pose proof (truthy_matching EXTREME_WORDS (PyStr.lower (quote claim))) as M.
  pose proof (high_impact_among EXTREME_WORDS (PyStr.lower (quote claim)))
    as G.
  unfold high_impact_among_matches, severity_by_substring,
    _check_extreme_language_in_claim, extreme_matches.
  destruct (truthy (matching EXTREME_WORDS (PyStr.lower (quote claim)))).
  - rewrite <- M. cbn [passed severity].
    split; [split; reflexivity|].
    split; [reflexivity|].
    split; [discriminate|].
    intros Hh. destruct (G Hh) as [_ ->]. split; reflexivity.
  - rewrite <- M. cbn [passed severity].
    split; [split; discriminate|].
    split; [discriminate|].
    split; [reflexivity|].
    intros Hh. destruct (G Hh) as [F _]. discriminate F.
Qed.

(** ** Rule 7: Missing Comparator *)

(** 'Profits increase by 20 each year' has an effect word, no explicit
    comparator and none of the nine listed verb forms, and it passes: the
    pattern of the source also takes 'increase by 20'. *)
Lemma missing_comparator_increase_by :
  any_search EFFECT_WORDS "profits increase by 20 each year" = true
  /\ any_search COMPARATOR_WORDS "profits increase by 20 each year" = false
  /\ Re.search STATED_IMPLICIT_COMPARATOR
               "profits increase by 20 each year" = false
  /\ Re.search IMPLICIT_COMPARATOR "profits increase by 20 each year" = true
  /\ passed (_check_missing_comparator
               test_analyzer
               (claim_of "Profits increase by 20 each year" ["20"])) = true.
Proof. vm_compute. repeat split; reflexivity. Qed.

(** ** One pattern taking everything that another takes *)

Section Inclusion.

Variable ignorecase : bool.
Variable A : Type.

Lemma atom_le_sound (a b : Re.atom) :
  atom_le a b = true ->
  pred_le (Re.atom_ok ignorecase a) (Re.atom_ok ignorecase b).
Proof.
  intros H c Hc.
  destruct a, b; cbn in H; try discriminate; try exact Hc.
  - apply Ascii.eqb_eq in H. subst. exact Hc.
  - cbn [Re.atom_ok] in *. apply existsb_exists in H.
    destruct H as [i [Hin Hi]]. destruct i; try discriminate.
    apply Ascii.eqb_eq in Hi. subst.
    apply existsb_exists. exists (Re.ILit c1). split; [assumption|].
    exact Hc.
Qed.

Lemma star_greedy_le (p p' : ascii -> bool) (k k' : Re.cont A) :
  pred_le p p' -> cont_le k k' ->
  cont_le (Re.star_greedy A p k) (Re.star_greedy A p' k').
Proof.
  intros Hp Hk prev s. revert prev.
  induction s as [|c s IH]; intros prev H; cbn in *.
  - apply Hk. exact H.
  - destruct (p c) eqn:Pc.
    + rewrite (Hp c Pc).
      destruct (Re.star_greedy A p k (Some c) s) eqn:G.
      * assert (N : Re.star_greedy A p' k' (Some c) s <> None)
          by (apply IH; rewrite G; discriminate).
        destruct (Re.star_greedy A p' k' (Some c) s);
          [discriminate | contradiction].
      * destruct (Re.star_greedy A p' k' (Some c) s);
          [discriminate | apply Hk; exact H].
    + destruct (p' c).
      * destruct (Re.star_greedy A p' k' (Some c) s);
          [discriminate | apply Hk; exact H].
      * apply Hk. exact H.
Qed.

Lemma star_lazy_le (p p' : ascii -> bool) (k k' : Re.cont A) :
  pred_le p p' -> cont_le k k' ->
  cont_le (Re.star_lazy A p k) (Re.star_lazy A p' k').
Proof.
  intros Hp Hk prev s. revert prev.
  induction s as [|c s IH]; intros prev H; cbn in *.
  - destruct (k prev []) eqn:K; [|contradiction].
    assert (N : k' prev [] <> None) by (apply Hk; rewrite K; discriminate).
    destruct (k' prev []); [discriminate | contradiction].
  - destruct (k' prev (c :: s)) eqn:K'; [discriminate|].
    destruct (k prev (c :: s)) eqn:K.
    + exfalso. apply (Hk prev (c :: s)); [rewrite K; discriminate | exact K'].
    + destruct (p c) eqn:Pc; [|contradiction].
      rewrite (Hp c Pc). apply IH. exact H.
Qed.

Lemma run_le (r : Re.regex) :
  forall (r' : Re.regex) (k k' : Re.cont A),
    regex_le r r' = true -> cont_le k k' ->
    cont_le (Re.run ignorecase A r k) (Re.run ignorecase A r' k').
Proof.
  induction r as [ | a | | r1 IH1 r2 IH2 | r1 IH1 r2 IH2 | r1 IH1 | a | a | a
                 | r1 IH1 ];
    intros r' k k' Hle Hk prev s H; destruct r'; cbn in Hle;
    try discriminate.
  - (* empty *) cbn in *. apply Hk. exact H.
  - (* character, character *)
    cbn in *. destruct s as [|c s]; [contradiction|].
    destruct (Re.atom_ok ignorecase a c) eqn:Ac; [|contradiction].
    rewrite (atom_le_sound a a0 Hle c Ac). apply Hk. exact H.
  - (* character, optional character *)
    destruct r'; try discriminate.
    cbn in *. destruct s as [|c s]; [contradiction|].
    destruct (Re.atom_ok ignorecase a c) eqn:Ac; [|contradiction].
    rewrite (atom_le_sound a a0 Hle c Ac).
    assert (N : k' (Some c) s <> None) by (apply Hk; exact H).
    destruct (k' (Some c) s); [discriminate | contradiction].
  - (* boundary *)
    cbn in *. destruct (Re.at_boundary prev s); [|contradiction].
    apply Hk. exact H.
  - (* concatenation *)
    apply andb_true_iff in Hle. destruct Hle as [L1 L2]. cbn in *.
    apply (IH1 r'1 (Re.run ignorecase A r2 k) (Re.run ignorecase A r'2 k') L1);
      [|exact H].
    apply IH2; assumption.
  - (* alternation *)
    apply andb_true_iff in Hle. destruct Hle as [L1 L2]. cbn in *.
    destruct (Re.run ignorecase A r1 k prev s) eqn:R1.
    + assert (N : Re.run ignorecase A r'1 k' prev s <> None)
        by (apply (IH1 r'1 k k' L1 Hk); rewrite R1; discriminate).
      destruct (Re.run ignorecase A r'1 k' prev s);
        [discriminate | contradiction].
    + destruct (Re.run ignorecase A r'1 k' prev s); [discriminate|].
      apply (IH2 r'2 k k' L2 Hk). exact H.
  - (* option *)
    cbn in *.
    destruct (Re.run ignorecase A r1 k prev s) eqn:R1.
    + assert (N : Re.run ignorecase A r' k' prev s <> None)
        by (apply (IH1 r' k k' Hle Hk); rewrite R1; discriminate).
      destruct (Re.run ignorecase A r' k' prev s);
        [discriminate | contradiction].
    + destruct (Re.run ignorecase A r' k' prev s); [discriminate|].
      apply Hk. exact H.
  - (* greedy star *)
    cbn in *.
    apply (star_greedy_le _ _ k k' (atom_le_sound a a0 Hle) Hk). exact H.
  - (* plus *)
    cbn in *. destruct s as [|c s]; [contradiction|].
    destruct (Re.atom_ok ignorecase a c) eqn:Ac; [|contradiction].
    rewrite (atom_le_sound a a0 Hle c Ac).
    apply (star_greedy_le _ _ k k' (atom_le_sound a a0 Hle) Hk). exact H.
  - (* lazy star *)
    cbn in *.
    apply (star_lazy_le _ _ k k' (atom_le_sound a a0 Hle) Hk). exact H.
  - (* group *)
    cbn in *. apply (IH1 r' k k' Hle Hk). exact H.
Qed.

End Inclusion.

Lemma search_from_le (ignorecase : bool) (r r' : Re.regex) :
  regex_le r r' = true ->
  forall prev s,
    Re.search_from ignorecase r prev s <> None ->
    Re.search_from ignorecase r' prev s <> None.
Proof.
  intros Hle prev s. revert prev.
  assert (M : forall prev s,
             Re.match_here ignorecase r prev s <> None ->
             Re.match_here ignorecase r' prev s <> None).
  { intros prev0 s0. unfold Re.match_here.
    apply (run_le ignorecase Re.position r r'); [exact Hle|].
    intros p t Hk. exact Hk. }
  induction s as [|c s IH]; intros prev H; cbn in *.
  - destruct (Re.match_here ignorecase r prev []) eqn:E; [|contradiction].
    assert (N : Re.match_here ignorecase r' prev [] <> None)
      by (apply M; rewrite E; discriminate).
    destruct (Re.match_here ignorecase r' prev []);
      [discriminate | contradiction].
  - destruct (Re.match_here ignorecase r' prev (c :: s)) eqn:E';
      [discriminate|].
    destruct (Re.match_here ignorecase r prev (c :: s)) eqn:E.
    + exfalso. apply (M prev (c :: s)); [rewrite E; discriminate | exact E'].
    + apply IH. exact H.
Qed.

(** A pattern that is below another by shape matches only where the other
    matches. *)
Lemma search_le (pattern pattern' : string) (r r' : Re.regex) (s : string) :
  Re.parse pattern = Some r ->
  Re.parse pattern' = Some r' ->
  regex_le r r' = true ->
  Re.search pattern s = true -> Re.search pattern' s = true.
Proof.
  intros P P' Hle H. unfold Re.search, Re.search_in in *.
  rewrite P in H. rewrite P'.
  pose proof (search_from_le false r r' Hle None (list_ascii_of_string s)) as L.
  destruct (Re.search_from false r None (list_ascii_of_string s));
    [|discriminate].
  destruct (Re.search_from false r' None (list_ascii_of_string s));
    [reflexivity|].
  exfalso. apply L; [discriminate | reflexivity].
Qed.

(** Every implicit comparator in the sense of the listed verb forms is one
    for the source. *)
Lemma stated_implicit_comparator_taken (s : string) :
  Re.search STATED_IMPLICIT_COMPARATOR s = true ->
  Re.search IMPLICIT_COMPARATOR s = true.
Proof.
  eapply search_le; vm_compute; reflexivity.
Qed.

(** C2, amended.  The Missing Comparator rule fails exactly when an effect
    word matches the lowercased quote and neither an explicit comparator
    pattern nor the implicit-comparator pattern of the source does; that
    pattern takes increase, increased, increases, decrease, decreased,
    decreases, reduce, reduced, improve, improved, rose, fell, dropped, grew,
    enhance or enhanced followed by white space, by, from or to, white space
    and a digit, or a 'from N ... to N' span.  A failing check has severity
    high when a research-context marker matches and medium otherwise.
    'The study found that participants improved significantly' fails with
    severity high, 'Symptoms improved significantly' fails with severity
    medium and 'Sales increased by 300%' passes.  The nine verb forms that
    the specification lists are among those that the pattern takes. *)
Theorem missing_comparator_rule :
  (forall (self : StatisticalAnalyzer) (claim : Claim),
      let check := _check_missing_comparator self claim in
      let quote_lower := PyStr.lower (quote claim) in
      (passed check = false
       <-> any_search EFFECT_WORDS quote_lower = true
           /\ any_search COMPARATOR_WORDS quote_lower = false
           /\ Re.search IMPLICIT_COMPARATOR quote_lower = false)
      /\ (passed check = false ->
          severity check
          = if Re.search RESEARCH_CONTEXT quote_lower then high else medium)
      /\ (passed check = true -> severity check = low))
  /\ (forall (self : StatisticalAnalyzer) (claim : Claim),
         quote claim
         = "The study found that participants improved significantly" ->
         passed (_check_missing_comparator self claim) = false
         /\ severity (_check_missing_comparator self claim) = high)
  /\ (forall (self : StatisticalAnalyzer) (claim : Claim),
         quote claim = "Symptoms improved significantly" ->
         passed (_check_missing_comparator self claim) = false
         /\ severity (_check_missing_comparator self claim) = medium)
  /\ (forall (self : StatisticalAnalyzer) (claim : Claim),
         quote claim = "Sales increased by 300%" ->
         passed (_check_missing_comparator self claim) = true)
  /\ (forall quote_lower : string,
         Re.search STATED_IMPLICIT_COMPARATOR quote_lower = true ->
         Re.search IMPLICIT_COMPARATOR quote_lower = true).
Proof.
  split; [|split; [|split; [|split]]];
    [| | | | exact stated_implicit_comparator_taken].
  - intros self claim. cbv zeta.
    unfold _check_missing_comparator.
    destruct (any_search EFFECT_WORDS (PyStr.lower (quote claim)));
      destruct (any_search COMPARATOR_WORDS (PyStr.lower (quote claim)));
      destruct (Re.search IMPLICIT_COMPARATOR (PyStr.lower (quote claim)));
      cbn [negb andb passed severity];
      (split; [split; [intros; try discriminate; auto
                      | intros [A [B C]]; try discriminate; reflexivity]|]);
      (split; [intros; try discriminate; reflexivity|]);
      intros; try discriminate; reflexivity.
  - intros self claim Hq.
    unfold _check_missing_comparator. rewrite Hq.
    vm_compute. split; reflexivity.
  - intros self claim Hq.
    unfold _check_missing_comparator. rewrite Hq.
    vm_compute. split; reflexivity.
  - intros self claim Hq.
    unfold _check_missing_comparator. rewrite Hq.
    vm_compute. reflexivity.
Qed.

(** ** Status of a claim *)

Lemma existsb_failed_with (sev : Severity) (checks : list StatisticalCheck) :
  existsb (fun c => Severity_eqb (severity c) sev)
          (filter (fun c => negb (passed c)) checks) = true
  <-> failed_with sev checks.
Proof.
  unfold failed_with. rewrite existsb_exists. split.
  - intros [c [Hin Hs]]. apply filter_In in Hin. destruct Hin as [Hin Hp].
    exists c. repeat split; [assumption | | apply Severity_eqb_eq; assumption].
    destruct (passed c); [discriminate | reflexivity].
  - intros [c [Hin [Hp Hs]]]. exists c. split.
    + apply filter_In. split; [assumption|]. rewrite Hp. reflexivity.
    + apply Severity_eqb_eq. assumption.
Qed.

Lemma truthy_failed (checks : list StatisticalCheck) :
  truthy (filter (fun c => negb (passed c)) checks) = true
  <-> some_failed checks.
Proof.
  unfold some_failed. rewrite truthy_filter_existsb, existsb_exists. split.
  - intros [c [Hin Hp]]. exists c. split; [assumption|].
    destruct (passed c); [discriminate | reflexivity].
  - intros [c [Hin Hp]]. exists c. split; [assumption|].
    rewrite Hp. reflexivity.
Qed.

(** C6. The status derived from a list of checks is [critical] when a
    failed check has severity critical; else [major_issues] when a failed
    check has severity high; else [minor_issues] when a check failed; else
    [clean].  The status of an audit is this function of its checks. *)
Theorem derive_status_tie_break :
  (forall checks : list StatisticalCheck,
      (App.derive_status checks = critical_status
       <-> failed_with critical checks)
      /\ (App.derive_status checks = major_issues
          <-> ~ failed_with critical checks /\ failed_with high checks)
      /\ (App.derive_status checks = minor_issues
          <-> ~ failed_with critical checks /\ ~ failed_with high checks
              /\ some_failed checks)
      /\ (App.derive_status checks = clean
          <-> forall check, In check checks -> passed check = true))
  /\ (forall (analyzer : StatisticalAnalyzer) (claim : Claim),
         overall_status (App.audit_claim analyzer claim)
         = App.derive_status (checks_performed (App.audit_claim analyzer claim))).
Proof.
  split; [|intros; reflexivity].
  intros checks.
  pose proof (existsb_failed_with critical checks) as Hc.
  pose proof (existsb_failed_with high checks) as Hh.
  pose proof (truthy_failed checks) as Hf.
  assert (Hclean : ~ some_failed checks
                   <-> forall check, In check checks -> passed check = true).
  { unfold some_failed. split.
    - intros N c Hin. destruct (passed c) eqn:E; [reflexivity|].
      exfalso. apply N. exists c. split; assumption.
    - intros A [c [Hin Hp]]. rewrite (A c Hin) in Hp. discriminate. }
  assert (Hsome : forall sev, failed_with sev checks -> some_failed checks).
  { intros sev [c [Hin [Hp _]]]. exists c. split; assumption. }
  pose proof (Hsome critical) as Sc. pose proof (Hsome high) as Sh.
  clear Hsome.
  unfold App.derive_status.
  rewrite <- Hclean.
  destruct (existsb (fun c => Severity_eqb (severity c) critical)
                    (filter (fun c => negb (passed c)) checks));
    [|destruct (existsb (fun c => Severity_eqb (severity c) high)
                        (filter (fun c => negb (passed c)) checks));
      [|destruct (truthy (filter (fun c => negb (passed c)) checks))]];
    decide_test Hc; try decide_test Hh; try decide_test Hf;
    repeat match goal with
           | |- _ /\ _ => split
           | |- _ <-> _ =>
               split;
               [ let E := fresh "E" in
                 intros E; first [discriminate E | tauto]
               | intros; first [reflexivity | exfalso; tauto] ]
           end.
Qed.

(** ** Ratios of counts *)

Lemma inject_nat_nonneg (n : nat) : (0 <= inject_Z (Z.of_nat n))%Q.
Proof.
  change 0%Q with (inject_Z 0). rewrite <- Zle_Qle. apply Nat2Z.is_nonneg.
Qed.

Lemma ratio_zero_denominator (n : nat) : (ratio n 0 == 0)%Q.
Proof. unfold ratio. cbn. unfold Qdiv, Qinv. cbn. apply Qmult_0_r. Qed.

Lemma ratio_nonneg (n d : nat) : (0 <= ratio n d)%Q.
Proof.
  destruct d as [|d].
  - rewrite ratio_zero_denominator. apply Qle_refl.
  - unfold ratio. apply Qle_shift_div_l.
    + change 0%Q with (inject_Z 0). rewrite <- Zlt_Qlt. lia.
    + rewrite Qmult_0_l. apply inject_nat_nonneg.
Qed.

Lemma ratio_le_1 (n d : nat) : (n <= d)%nat -> (ratio n d <= 1)%Q.
Proof.
  intros Hle. destruct d as [|d].
  - rewrite ratio_zero_denominator. discriminate.
  - unfold ratio. apply Qle_shift_div_r.
    + change 0%Q with (inject_Z 0). rewrite <- Zlt_Qlt. lia.
    + rewrite Qmult_1_l. rewrite <- Zle_Qle. lia.
Qed.

(** ** Text metrics *)

(** C9. For every text the data density and the vagueness score lie in
    [0,1] and the two counts are non-negative.  The sentences are the
    stripped pieces between runs of terminal punctuation that are not empty;
    the data density is the share of sentences in which a numeric-marker
    pattern matches, 0 without sentences; the vagueness score is
    min(1, 10 * hedge matches / words), 0 without words. *)
Theorem text_metrics_bounds (document : string) :
  let self := new_analyzer document in
  let metrics := calculate_text_metrics self in
  ((0 <= data_density_score metrics)%Q /\ (data_density_score metrics <= 1)%Q)
  /\ ((0 <= vagueness_score metrics)%Q /\ (vagueness_score metrics <= 1)%Q)
  /\ (0 <= extreme_language_count metrics)%Z
  /\ (0 <= causation_language_count metrics)%Z
  /\ sentences self
     = map PyStr.strip
           (filter (fun s => nonempty (PyStr.strip s))
                   (Re.split SENTENCE_END document))
  /\ Forall (fun sentence => sentence <> "") (sentences self)
  /\ (data_density_score metrics
      == match sentences self with
         | [] => 0
         | _ => ratio (List.length (filter sentence_has_numbers
                                           (sentences self)))
                      (List.length (sentences self))
         end)%Q
  /\ (vagueness_score metrics
      == if (PyStr.count_words document =? 0)%nat then 0
         else Qmin 1 (10 * ratio (sum_findall HEDGE_WORDS (PyStr.lower document))
                                 (PyStr.count_words document)))%Q.
Proof.
  cbv zeta.
  unfold calculate_text_metrics, new_analyzer.
  cbn [data_density_score vagueness_score extreme_language_count
       causation_language_count sentences].
  unfold _calculate_data_density, _calculate_vagueness_score,
    _count_extreme_language, _count_causation_language.
  cbn [StatisticalChecks.sentences StatisticalChecks.text].
  remember (_split_sentences document) as l eqn:Hl.
  assert (D : (0 <= match l with
                    | [] => 0
                    | _ :: _ =>
                        ratio (List.length (filter sentence_has_numbers l))
                              (List.length l)
                    end
               <= 1)%Q).
  { destruct l as [|x l']; [split; discriminate|].
    split; [apply ratio_nonneg | apply ratio_le_1, filter_length_le]. }
  assert (V : (0 <= (if (PyStr.count_words document =? 0)%nat then 0
                     else Qmin 1 (ratio (sum_findall HEDGE_WORDS
                                                     (PyStr.lower document))
                                        (PyStr.count_words document) * 10))
               <= 1)%Q).
  { destruct (PyStr.count_words document =? 0)%nat; [split; discriminate|].
    split.
    - apply Q.min_glb; [discriminate|].
      apply Qmult_le_0_compat; [apply ratio_nonneg | discriminate].
    - apply Q.le_min_l. }
  repeat match goal with |- _ /\ _ => split end;
    try apply D; try apply V; try apply Nat2Z.is_nonneg.
  - rewrite Hl. reflexivity.
  - rewrite Hl. unfold _split_sentences.
    apply Forall_forall. intros s Hin. apply in_map_iff in Hin.
    destruct Hin as [s0 [<- Hin]]. apply filter_In in Hin.
    destruct Hin as [_ Hne]. destruct (PyStr.strip s0); [discriminate|].
    discriminate.
  - reflexivity.
  - destruct (PyStr.count_words document =? 0)%nat; [reflexivity|].
    rewrite Qmult_comm. reflexivity.
Qed.

(** ** Reliability score *)

Lemma clamp_monotone (x y : Q) : (x <= y)%Q -> (clamp x <= clamp y)%Q.
Proof.
  intros H. unfold clamp.
  apply Q.max_le_compat_l, Q.min_le_compat_l, H.
Qed.

Lemma clamp_proper (x y : Q) : (x == y)%Q -> (clamp x == clamp y)%Q.
Proof.
  intros H. apply Qle_antisym; apply clamp_monotone; rewrite H; apply Qle_refl.
Qed.

Lemma clamp_bounds (x : Q) : (0 <= clamp x)%Q /\ (clamp x <= 100)%Q.
Proof.
  unfold clamp. split.
  - apply Q.le_max_l.
  - apply Q.max_lub; [discriminate | apply Q.le_min_l].
Qed.

(** The score before clamping, term by term. *)
Lemma raw_score_terms (text_metrics : TextMetrics)
      (claim_audits : list ClaimAudit) :
  (App.raw_score text_metrics claim_audits
   == 50 + data_density_score text_metrics * 20
      - vagueness_score text_metrics * 15
      + (if sample_size_mentioned text_metrics then 10 else 0)
      - inject_Z (Z.min (extreme_language_count text_metrics * 2) 15)
      - failure_penalty claim_audits)%Q.
Proof.
  unfold App.raw_score, failure_penalty.
  destruct (App.total_checks claim_audits) as [|n];
    destruct (sample_size_mentioned text_metrics);
    cbn [Nat.ltb Nat.leb Nat.eqb]; lra.
Qed.

Lemma failure_penalty_rate (claim_audits : list ClaimAudit) :
  (failure_penalty claim_audits == App.failure_rate claim_audits * 30)%Q.
Proof.
  unfold failure_penalty, App.failure_rate.
  destruct (App.total_checks claim_audits) as [|n]; cbn [Nat.eqb].
  - rewrite ratio_zero_denominator. lra.
  - reflexivity.
Qed.

(** The sums over the audits count the checks of all the audits. *)
Lemma total_checks_all (claim_audits : list ClaimAudit) :
  App.total_checks claim_audits = List.length (all_checks claim_audits).
Proof.
  unfold App.total_checks, App.sum_over, all_checks.
  induction claim_audits as [|audit audits IH]; cbn [fold_right flat_map];
    [reflexivity|].
  rewrite length_app, IH. reflexivity.
Qed.

Lemma failed_checks_all (claim_audits : list ClaimAudit) :
  App.failed_checks claim_audits
  = List.length (filter failed (all_checks claim_audits)).
Proof.
  unfold App.failed_checks, App.sum_over, all_checks.
  induction claim_audits as [|audit audits IH]; cbn [fold_right flat_map];
    [reflexivity|].
  rewrite filter_app, length_app, IH. reflexivity.
Qed.

Lemma failure_penalty_share (claim_audits : list ClaimAudit) :
  (failure_penalty claim_audits == failed_share claim_audits * 30)%Q.
Proof.
  unfold failure_penalty, App.failure_rate, ratio, failed_share.
  rewrite failed_checks_all, total_checks_all.
  destruct (all_checks claim_audits) as [|check checks]; cbn [List.length Nat.eqb];
    [lra | reflexivity].
Qed.

(** C7. The reliability score is 50 + data density * 20 - vagueness * 15
    + 10 if a sample size is mentioned - min(extreme count * 2, 15)
    - (failed checks / total checks) * 30, where the failed checks and the
    checks are counted over the checks of all the audits together and the
    last term is left out when there is no check, clamped to [0,100].  It
    does not decrease when the data density grows or a sample size becomes
    mentioned, and does not increase when the vagueness, the
    extreme-language count or the failed-check ratio grows. *)
Theorem reliability_score_rule :
  (forall (text_metrics : TextMetrics) (claim_audits : list ClaimAudit),
      (App.calculate_reliability_score text_metrics claim_audits
       == Qmax 0
            (Qmin 100
               (50 + data_density_score text_metrics * 20
                - vagueness_score text_metrics * 15
                + (if sample_size_mentioned text_metrics then 10 else 0)
                - inject_Z
                    (Z.min (extreme_language_count text_metrics * 2) 15)
                - match all_checks claim_audits with
                  | [] => 0
                  | checks =>
                      inject_Z (Z.of_nat (List.length (filter failed checks)))
                      / inject_Z (Z.of_nat (List.length checks))
                      * 30
                  end)))%Q
      /\ (0 <= App.calculate_reliability_score text_metrics claim_audits)%Q
      /\ (App.calculate_reliability_score text_metrics claim_audits <= 100)%Q)
  /\ (forall (d d' v : Q) (n : Z) (s : bool) (c : Z) (audits : list ClaimAudit),
         (d <= d')%Q ->
         (App.calculate_reliability_score
            (Build_TextMetrics d v n s c) audits
          <= App.calculate_reliability_score
               (Build_TextMetrics d' v n s c) audits)%Q)
  /\ (forall (d v : Q) (n c : Z) (audits : list ClaimAudit),
         (App.calculate_reliability_score
            (Build_TextMetrics d v n false c) audits
          <= App.calculate_reliability_score
               (Build_TextMetrics d v n true c) audits)%Q)
  /\ (forall (d v v' : Q) (n : Z) (s : bool) (c : Z) (audits : list ClaimAudit),
         (v <= v')%Q ->
         (App.calculate_reliability_score
            (Build_TextMetrics d v' n s c) audits
          <= App.calculate_reliability_score
               (Build_TextMetrics d v n s c) audits)%Q)
  /\ (forall (d v : Q) (n n' : Z) (s : bool) (c : Z) (audits : list ClaimAudit),
         (n <= n')%Z ->
         (App.calculate_reliability_score
            (Build_TextMetrics d v n' s c) audits
          <= App.calculate_reliability_score
               (Build_TextMetrics d v n s c) audits)%Q)
  /\ (forall (text_metrics : TextMetrics) (audits audits' : list ClaimAudit),
         (failed_share audits <= failed_share audits')%Q ->
         (App.calculate_reliability_score text_metrics audits'
          <= App.calculate_reliability_score text_metrics audits)%Q).
Proof.
  repeat match goal with |- _ /\ _ => split end.
  - intros text_metrics claim_audits.
    split; [|apply (clamp_bounds (App.raw_score text_metrics claim_audits))].
    unfold App.calculate_reliability_score.
    apply clamp_proper.
    pose proof (raw_score_terms text_metrics claim_audits) as E.
    pose proof (failure_penalty_share claim_audits) as F.
    unfold failed_share in F.
    destruct (all_checks claim_audits) as [|check checks]; lra.
  - intros d d' v n s c audits H. apply clamp_monotone.
    pose proof (raw_score_terms (Build_TextMetrics d v n s c) audits) as E.
    pose proof (raw_score_terms (Build_TextMetrics d' v n s c) audits) as E'.
    cbn [data_density_score vagueness_score sample_size_mentioned
         extreme_language_count] in E, E'.
    lra.
  - intros d v n c audits. apply clamp_monotone.
    pose proof (raw_score_terms (Build_TextMetrics d v n false c) audits) as E.
    pose proof (raw_score_terms (Build_TextMetrics d v n true c) audits) as E'.
    cbn [data_density_score vagueness_score sample_size_mentioned
         extreme_language_count] in E, E'.
    lra.
  - intros d v v' n s c audits H. apply clamp_monotone.
    pose proof (raw_score_terms (Build_TextMetrics d v n s c) audits) as E.
    pose proof (raw_score_terms (Build_TextMetrics d v' n s c) audits) as E'.
    cbn [data_density_score vagueness_score sample_size_mentioned
         extreme_language_count] in E, E'.
    lra.
  - intros d v n n' s c audits H. apply clamp_monotone.
    pose proof (raw_score_terms (Build_TextMetrics d v n s c) audits) as E.
    pose proof (raw_score_terms (Build_TextMetrics d v n' s c) audits) as E'.
    cbn [data_density_score vagueness_score sample_size_mentioned
         extreme_language_count] in E, E'.
    assert (M : (inject_Z (Z.min (n * 2) 15) <= inject_Z (Z.min (n' * 2) 15))%Q)
      by (rewrite <- Zle_Qle; lia).
    lra.
  - intros text_metrics audits audits' H. apply clamp_monotone.
    pose proof (raw_score_terms text_metrics audits) as E.
    pose proof (raw_score_terms text_metrics audits') as E'.
    pose proof (failure_penalty_share audits) as F.
    pose proof (failure_penalty_share audits') as F'.
    lra.
Qed.

(** ** The retry loop *)

Section RetryLoop.

Variables Data T : Type.
Variable json_loads : string -> string + Data.
Variable model_validate : Data -> string + T.
Variable schema_name : string.
Variable Client : Type.
Variable create : Client -> string -> Q -> list Retry.message -> Client * string.

#[local] Abbreviation decode := (Retry.decode Data T json_loads model_validate).
#[local] Abbreviation response_text := Retry.response_text.
#[local] Abbreviation retry_loop :=
  (Retry.retry_loop Data T json_loads model_validate schema_name Client create).
#[local] Abbreviation failing := (fails json_loads model_validate).





End RetryLoop.




(* ================================================================== *)
(** * Further properties of the code *)

(** ** Letter case *)

Lemma isdecimal_lower_char (c : ascii) :
  PyStr.isdecimal (PyStr.lower_char c) = PyStr.isdecimal c.
Proof. each_char c. Qed.

Lemma list_ascii_of_lower (s : string) :
  list_ascii_of_string (PyStr.lower s) = lower_list (list_ascii_of_string s).
Proof. induction s as [|c s IH]; cbn; [reflexivity | rewrite IH; reflexivity]. Qed.

(** ** The rules that read the quote in lowercase *)

Section SameLowercase.

Variables self1 self2 : StatisticalAnalyzer.
Variables claim1 claim2 : Claim.
Hypothesis same_lower : PyStr.lower (quote claim1) = PyStr.lower (quote claim2).
Hypothesis same_values : numerical_values claim1 = numerical_values claim2.

Lemma decision_extreme_language :
  decision (_check_extreme_language_in_claim self1 claim1)
  = decision (_check_extreme_language_in_claim self2 claim2).
Proof.
  unfold _check_extreme_language_in_claim.
  rewrite same_lower.
  destruct (truthy (extreme_matches (PyStr.lower (quote claim2))));
    reflexivity.
Qed.

Lemma decision_base_rate :
  decision (_check_base_rate self1 claim1)
  = decision (_check_base_rate self2 claim2).
Proof.
  unfold _check_base_rate. rewrite same_lower. reflexivity.
Qed.

Lemma decision_data_support :
  decision (_check_data_support self1 claim1)
  = decision (_check_data_support self2 claim2).
Proof.
  unfold _check_data_support. rewrite same_lower, same_values.
  rule_cases; reflexivity.
Qed.

Lemma decision_relative_risk :
  decision (_check_relative_risk_without_context self1 claim1)
  = decision (_check_relative_risk_without_context self2 claim2).
Proof.
  unfold _check_relative_risk_without_context. rewrite same_lower.
  rule_cases; reflexivity.
Qed.

Lemma decision_missing_comparator :
  decision (_check_missing_comparator self1 claim1)
  = decision (_check_missing_comparator self2 claim2).
Proof.
  unfold _check_missing_comparator. rewrite same_lower.
  rule_cases; reflexivity.
Qed.

End SameLowercase.

(** X1. Five of the seven rules, Extreme Language, Base Rate Neglect, Data
    Support, Relative Risk Without Context and Missing Comparator, read the
    quote through [claim.quote.lower()] only: two claims whose quotes have
    the same lowercase form and that list the same numerical values get
    from each of these rules the same check name, the same outcome and the
    same severity, whatever the document of the analyzer. *)
Theorem lowercase_rules_ignore_case
        (self1 self2 : StatisticalAnalyzer) (claim1 claim2 : Claim) :
  PyStr.lower (quote claim1) = PyStr.lower (quote claim2) ->
  numerical_values claim1 = numerical_values claim2 ->
  map (fun rule => decision (rule self1 claim1)) LOWERCASE_RULES
  = map (fun rule => decision (rule self2 claim2)) LOWERCASE_RULES.
Proof.
  intros Hq Hn. unfold LOWERCASE_RULES. cbn [map].
  rewrite (decision_extreme_language self1 self2 claim1 claim2 Hq).
  rewrite (decision_base_rate self1 self2 claim1 claim2 Hq).
  rewrite (decision_data_support self1 self2 claim1 claim2 Hq Hn).
  rewrite (decision_relative_risk self1 self2 claim1 claim2 Hq).
  rewrite (decision_missing_comparator self1 self2 claim1 claim2 Hq).
  reflexivity.
Qed.

(** A quote in capitals gets from the five rules the decisions of the quote
    as the test suite writes it. *)
Lemma lowercase_rules_ignore_case_upper :
  PyStr.lower "SALES INCREASED BY 300%" = PyStr.lower "Sales increased by 300%"
  /\ numerical_values (claim_of "SALES INCREASED BY 300%" ["300%"])
     = numerical_values (claim_of "Sales increased by 300%" ["300%"])
  /\ map (fun rule =>
            decision (rule test_analyzer
                           (claim_of "SALES INCREASED BY 300%" ["300%"])))
         LOWERCASE_RULES
     = map (fun rule =>
              decision (rule test_analyzer
                             (claim_of "Sales increased by 300%" ["300%"])))
           LOWERCASE_RULES.
Proof.
  split; [vm_compute; reflexivity|]. split; [reflexivity|].
  apply lowercase_rules_ignore_case; vm_compute; reflexivity.
Defined.

(** ** Patterns that need a digit *)

Section Failure.

Variable ignorecase : bool.
Variable A : Type.

(** A property of the text that is left that its tails keep. *)
Variable P : list ascii -> Prop.
Hypothesis P_tail : forall c s, P (c :: s) -> P s.

Lemma star_greedy_fails (p : ascii -> bool) (k : Re.cont A) :
  fails_on P k -> fails_on P (Re.star_greedy A p k).
Proof.
  intros Hk prev s. revert prev.
  induction s as [|c s IH]; intros prev Hs; cbn.
  - apply Hk, Hs.
  - destruct (p c); [|apply Hk, Hs].
    rewrite (IH (Some c) (P_tail c s Hs)). apply Hk, Hs.
Qed.

Lemma star_lazy_fails (p : ascii -> bool) (k : Re.cont A) :
  fails_on P k -> fails_on P (Re.star_lazy A p k).
Proof.
  intros Hk prev s. revert prev.
  induction s as [|c s IH]; intros prev Hs; cbn.
  - rewrite (Hk prev [] Hs). reflexivity.
  - rewrite (Hk prev (c :: s) Hs).
    destruct (p c); [|reflexivity].
    apply IH, (P_tail c s Hs).
Qed.

(** A pattern cannot match when what follows it fails everywhere. *)
Lemma run_fails (r : Re.regex) :
  forall k : Re.cont A, fails_on P k -> fails_on P (Re.run ignorecase A r k).
Proof.
  induction r as [ | a | | r1 IH1 r2 IH2 | r1 IH1 r2 IH2 | r1 IH1 | a | a | a
                 | r1 IH1 ]; intros k Hk prev s Hs; cbn.
  - apply Hk, Hs.
  - destruct s as [|c s]; [reflexivity|].
    destruct (Re.atom_ok ignorecase a c); [|reflexivity].
    apply Hk, (P_tail c s Hs).
  - destruct (Re.at_boundary prev s); [apply Hk, Hs | reflexivity].
  - apply IH1; [|exact Hs]. apply IH2, Hk.
  - rewrite (IH1 k Hk prev s Hs). apply IH2; assumption.
  - rewrite (IH1 k Hk prev s Hs). apply Hk, Hs.
  - apply star_greedy_fails; assumption.
  - destruct s as [|c s]; [reflexivity|].
    destruct (Re.atom_ok ignorecase a c); [|reflexivity].
    apply star_greedy_fails; [exact Hk | exact (P_tail c s Hs)].
  - apply star_lazy_fails; assumption.
  - apply IH1; assumption.
Qed.

End Failure.

Lemma digit_free_tail (c : ascii) (s : list ascii) :
  digit_free (c :: s) -> digit_free s.
Proof. intros H. apply Forall_inv_tail in H. exact H. Qed.

(** A pattern that needs a digit matches nowhere in a text without digits. *)
Lemma run_needs_digit (ignorecase : bool) (A : Type) (r : Re.regex) :
  needs_digit r = true ->
  forall (k : Re.cont A) prev s,
    digit_free s -> Re.run ignorecase A r k prev s = None.
Proof.
  induction r as [ | a | | r1 IH1 r2 IH2 | r1 IH1 r2 IH2 | r1 IH1 | a | a | a
                 | r1 IH1 ]; intros Hn k prev s Hs; cbn in Hn;
    try discriminate.
  - destruct a; try discriminate. cbn.
    destruct s as [|c s]; [reflexivity|].
    apply Forall_inv in Hs. rewrite Hs. reflexivity.
  - cbn. apply orb_true_iff in Hn. destruct Hn as [Hn | Hn].
    + apply IH1; assumption.
    + apply (run_fails ignorecase A digit_free digit_free_tail r1);
        [|exact Hs].
      intros p t Ht. apply IH2; assumption.
  - cbn. apply andb_true_iff in Hn. destruct Hn as [H1 H2].
    rewrite (IH1 H1 k prev s Hs). apply IH2; assumption.
  - destruct a; try discriminate. cbn.
    destruct s as [|c s]; [reflexivity|].
    apply Forall_inv in Hs. rewrite Hs. reflexivity.
  - cbn. apply IH1; assumption.
Qed.

Lemma search_from_needs_digit (ignorecase : bool) (r : Re.regex) :
  needs_digit r = true ->
  forall prev s, digit_free s -> Re.search_from ignorecase r prev s = None.
Proof.
  intros Hn prev s. revert prev.
  induction s as [|c s IH]; intros prev Hs; cbn; unfold Re.match_here;
    rewrite (run_needs_digit ignorecase _ r Hn _ prev _ Hs).
  - reflexivity.
  - apply IH, (digit_free_tail c s Hs).
Qed.

Lemma search_needs_digit (pattern s : string) :
  pattern_needs_digit pattern = true ->
  text_digit_free s ->
  Re.search pattern s = false /\ Re.search_ignorecase pattern s = false.
Proof.
  unfold pattern_needs_digit, Re.search, Re.search_ignorecase, Re.search_in.
  intros Hn Hs. destruct (Re.parse pattern) as [r|]; [|split; reflexivity].
  rewrite !(search_from_needs_digit _ r Hn None _ Hs). split; reflexivity.
Qed.

Lemma any_search_needs_digit (patterns : list string) (s : string) :
  forallb pattern_needs_digit patterns = true ->
  text_digit_free s ->
  any_search patterns s = false /\ any_search_ignorecase patterns s = false.
Proof.
  unfold any_search, any_search_ignorecase.
  induction patterns as [|p patterns IH]; cbn [forallb existsb];
    intros Hn Hs; [split; reflexivity|].
  apply andb_true_iff in Hn. destruct Hn as [Hp Hn].
  destruct (search_needs_digit p s Hp Hs) as [-> ->].
  exact (IH Hn Hs).
Qed.

Lemma number_patterns_need_digit :
  forallb pattern_needs_digit NUMBER_PATTERNS = true
  /\ forallb pattern_needs_digit SAMPLE_SIZE_PATTERNS = true
  /\ pattern_needs_digit HAS_NUMBERS = true.
Proof. vm_compute. repeat split; reflexivity. Qed.

(** ** Splitting at runs of separator characters *)

Lemma take_drop_while (p : ascii -> bool) (s : list ascii) :
  (take_while p s ++ drop_while p s)%list = s.
Proof.
  induction s as [|c s IH]; cbn; [reflexivity|].
  destruct (p c); cbn; [rewrite IH|]; reflexivity.
Qed.

Lemma take_while_all (p : ascii -> bool) (s : list ascii) :
  Forall (fun c => p c = true) (take_while p s).
Proof.
  induction s as [|c s IH]; cbn; [constructor|].
  destruct (p c) eqn:E; constructor; assumption.
Qed.

Lemma drop_while_length (p : ascii -> bool) (s : list ascii) :
  (List.length (drop_while p s) <= List.length s)%nat.
Proof.
  induction s as [|c s IH]; cbn; [lia|].
  destruct (p c); cbn; lia.
Qed.

Lemma firstn_take_while (p : ascii -> bool) (s : list ascii) :
  firstn (List.length s - List.length (drop_while p s)) s = take_while p s.
Proof.
  induction s as [|c s IH]; [reflexivity|].
  cbn [drop_while take_while]. destruct (p c).
  - pose proof (drop_while_length p s).
    cbn [List.length].
    replace (S (List.length s) - List.length (drop_while p s))%nat
      with (S (List.length s - List.length (drop_while p s)))%nat by lia.
    cbn [firstn]. rewrite IH. reflexivity.
  - rewrite Nat.sub_diag. reflexivity.
Qed.

Section Plus.

Variable a : Re.atom.

Lemma star_greedy_takes (prev : option ascii) (s : list ascii) :
  exists last,
    Re.star_greedy Re.position (separator a) (fun p s' => Some (p, s')) prev s
    = Some (last, drop_while (separator a) s).
Proof.
  revert prev. induction s as [|c s IH]; intros prev; cbn.
  - exists prev. reflexivity.
  - destruct (separator a c); [|exists prev; reflexivity].
    destruct (IH (Some c)) as [last ->]. exists last. reflexivity.
Qed.

Lemma match_here_plus (prev : option ascii) (s : list ascii) :
  match s with
  | c :: s' =>
      if separator a c then
        exists last,
          Re.match_here false (Re.RPlus a) prev s
          = Some (last, drop_while (separator a) s')
      else Re.match_here false (Re.RPlus a) prev s = None
  | [] => Re.match_here false (Re.RPlus a) prev s = None
  end.
Proof.
  destruct s as [|c s]; cbn; [reflexivity|].
  unfold Re.match_here. cbn. fold (separator a c).
  destruct (separator a c); [|reflexivity].
  apply star_greedy_takes.
Qed.

(** The leftmost match starts at the first separator and takes the whole
    run of separators. *)
Lemma search_from_plus (prev : option ascii) (s : list ascii) :
  match drop_while (text_char a) s with
  | c :: s' =>
      exists last,
        Re.search_from false (Re.RPlus a) prev s
        = Some (c :: s', (last, drop_while (separator a) s'))
  | [] => Re.search_from false (Re.RPlus a) prev s = None
  end.
Proof.
  revert prev. induction s as [|c s IH]; intros prev.
  - reflexivity.
  - pose proof (match_here_plus prev (c :: s)) as M.
    cbn [drop_while]. unfold text_char at 1. fold (separator a c).
    cbn [Re.search_from]. cbv beta iota in M.
    destruct (separator a c); cbn [negb].
    + destruct M as [last ->]. exists last. reflexivity.
    + rewrite M. apply IH.
Qed.

(** The pieces between the matches and the matches themselves make up the
    text, and no piece has a separator. *)
Lemma matches_from_plus (fuel : nat) :
  forall (prev : option ascii) (s : list ascii),
    (List.length s < fuel)%nat ->
    exists rest,
      s = (List.concat (map (fun bm => fst bm ++ snd bm)
                       (Re.matches_from false fuel (Re.RPlus a) prev s))
           ++ rest)%list
      /\ Forall (fun c => separator a c = false) rest
      /\ Forall (fun bm => Forall (fun c => separator a c = false) (fst bm))
                (Re.matches_from false fuel (Re.RPlus a) prev s).
Proof.
  induction fuel as [|fuel IH]; intros prev s Hlen; [lia|].
  cbn [Re.matches_from].
  pose proof (search_from_plus prev s) as S.
  pose proof (take_drop_while (text_char a) s) as TD.
  pose proof (take_while_all (text_char a) s) as TA.
  assert (TA' : Forall (fun c => separator a c = false)
                      (take_while (text_char a) s)).
  { eapply Forall_impl; [|exact TA]. intros c Hc. unfold text_char in Hc.
    unfold separator.
    destruct (Re.atom_ok false a c); [discriminate | reflexivity]. }
  pose proof (firstn_take_while (text_char a) s) as FT.
  destruct (drop_while (text_char a) s) as [|c s'] eqn:D.
  - rewrite S. exists s. cbn. split; [reflexivity|]. split; [|constructor].
    rewrite app_nil_r in TD. rewrite <- TD. exact TA'.
  - destruct S as [last ->].
    unfold Re.matched_text. cbn [snd fst].
    pose proof (take_drop_while (separator a) s') as TD'.
    pose proof (firstn_take_while (separator a) s') as FT'.
    assert (M : firstn (List.length (c :: s')
                        - List.length (drop_while (separator a) s'))
                       (c :: s')
                = c :: take_while (separator a) s').
    { cbn [List.length].
      pose proof (drop_while_length (separator a) s').
      replace (S (List.length s')
               - List.length (drop_while (separator a) s'))%nat
        with (S (List.length s'
                 - List.length (drop_while (separator a) s')))%nat by lia.
      cbn [firstn]. rewrite FT'. reflexivity. }
    rewrite M. rewrite FT.
    assert (L : (List.length (drop_while (separator a) s') < fuel)%nat).
    { pose proof (drop_while_length (separator a) s').
      pose proof (drop_while_length (text_char a) s) as L2. rewrite D in L2.
      cbn in L2. lia. }
    destruct (IH last (drop_while (separator a) s') L) as [rest [E [R F]]].
    exists rest. cbn [map List.concat fst snd].
    split; [|split; [exact R | constructor; [exact TA' | exact F]]].
    rewrite <- !app_assoc. rewrite <- E. cbn [app]. rewrite TD'.
    symmetry. exact TD.
Qed.

End Plus.

(** ** Characters of a string *)

Lemma chars_drop (n : nat) (s : string) :
  chars (PyStr.drop n s) = skipn n (chars s).
Proof.
  revert s. induction n as [|n IH]; intros s; [reflexivity|].
  destruct s as [|c s]; cbn; [reflexivity | apply IH].
Qed.

Lemma all_chars_lstrip (P : ascii -> Prop) (s : string) :
  all_chars P s -> all_chars P (PyStr.lstrip s).
Proof.
  unfold all_chars, chars. induction s as [|c s IH]; cbn; intros H; [exact H|].
  destruct (PyStr.isspace c); [|exact H].
  apply IH. apply Forall_inv_tail in H. exact H.
Qed.

Lemma all_chars_rstrip (P : ascii -> Prop) (s : string) :
  all_chars P s -> all_chars P (PyStr.rstrip s).
Proof.
  unfold all_chars, chars. induction s as [|c s IH]; cbn; intros H; [exact H|].
  pose proof (Forall_inv H) as Hc. apply Forall_inv_tail in H.
  specialize (IH H).
  destruct (PyStr.rstrip s) as [|c' r].
  - destruct (PyStr.isspace c); cbn; constructor; [exact Hc | constructor].
  - cbn. constructor; [exact Hc | exact IH].
Qed.

Lemma all_chars_strip (P : ascii -> Prop) (s : string) :
  all_chars P s -> all_chars P (PyStr.strip s).
Proof. intros H. apply all_chars_rstrip, all_chars_lstrip, H. Qed.

(** ** Stripping twice *)

Lemma lstrip_starts_with_text (s : string) : starts_with_text (PyStr.lstrip s).
Proof.
  induction s as [|c s IH]; cbn; [exact I|].
  destruct (PyStr.isspace c) eqn:E; [exact IH | exact E].
Qed.

Lemma lstrip_fixed (s : string) : starts_with_text s -> PyStr.lstrip s = s.
Proof. destruct s as [|c s]; cbn; [reflexivity|]. intros ->. reflexivity. Qed.

Lemma rstrip_starts_with_text (s : string) :
  starts_with_text s -> starts_with_text (PyStr.rstrip s).
Proof.
  destruct s as [|c s]; cbn; [exact (fun H => H)|]. intros H.
  destruct (PyStr.rstrip s); [rewrite H|]; exact H.
Qed.

Lemma rstrip_cons (c : ascii) (s : string) :
  PyStr.rstrip (String c s)
  = match PyStr.rstrip s with
    | EmptyString =>
        if PyStr.isspace c then EmptyString else String c EmptyString
    | t => String c t
    end.
Proof. reflexivity. Qed.

Lemma rstrip_idempotent (s : string) :
  PyStr.rstrip (PyStr.rstrip s) = PyStr.rstrip s.
Proof.
  induction s as [|c s IH]; [reflexivity|].
  rewrite rstrip_cons.
  destruct (PyStr.rstrip s) as [|c' r] eqn:E.
  - destruct (PyStr.isspace c) eqn:Sc; [reflexivity|].
    rewrite rstrip_cons. cbn [PyStr.rstrip]. rewrite Sc. reflexivity.
  - rewrite rstrip_cons, IH. reflexivity.
Qed.

Lemma strip_idempotent (s : string) :
  PyStr.strip (PyStr.strip s) = PyStr.strip s.
Proof.
  unfold PyStr.strip.
  rewrite (lstrip_fixed (PyStr.rstrip (PyStr.lstrip s)));
    [apply rstrip_idempotent|].
  apply rstrip_starts_with_text, lstrip_starts_with_text.
Qed.

(** ** The pieces of a split at runs of separators *)

Lemma consumed_length (ms : list (list ascii * list ascii)) :
  fold_right (fun bm n => (List.length (fst bm) + List.length (snd bm) + n)%nat)
             0%nat ms
  = List.length (List.concat (map (fun bm => fst bm ++ snd bm)%list ms)).
Proof.
  induction ms as [|bm ms IH]; cbn; [reflexivity|].
  rewrite length_app, length_app, IH. reflexivity.
Qed.

Lemma skipn_length_app (pre rest : list ascii) :
  skipn (List.length pre) (pre ++ rest) = rest.
Proof. induction pre as [|c pre IH]; cbn; [reflexivity | exact IH]. Qed.

Lemma forall_concat_pieces (P : ascii -> Prop)
      (ms : list (list ascii * list ascii)) (rest : list ascii) :
  Forall P (List.concat (map (fun bm => fst bm ++ snd bm)%list ms) ++ rest) ->
  Forall (fun bm => Forall P (fst bm)) ms /\ Forall P rest.
Proof.
  induction ms as [|bm ms IH]; cbn; intros H.
  - split; [constructor | exact H].
  - rewrite <- !app_assoc in H. apply Forall_app in H. destruct H as [H1 H].
    apply Forall_app in H. destruct H as [_ H].
    destruct (IH H) as [F R]. split; [constructor; assumption | exact R].
Qed.

(** Splitting at a pattern [a+]: no piece has a character that [a] takes,
    and a property of all the characters of the text holds in every piece. *)
Lemma split_plus_pieces (pattern : string) (a : Re.atom) (s : string) :
  Re.parse pattern = Some (Re.RPlus a) ->
  Forall (all_chars (fun c => Re.atom_ok false a c = false))
         (Re.split pattern s)
  /\ forall P : ascii -> Prop,
       all_chars P s -> Forall (all_chars P) (Re.split pattern s).
Proof.
  intros Hp. unfold Re.split, Re.all_matches. rewrite Hp.
  set (l := list_ascii_of_string s).
  destruct (matches_from_plus a (S (List.length l)) None l (Nat.lt_succ_diag_r _))
    as [rest [E [R F]]].
  set (ms := Re.matches_from false (S (List.length l)) (Re.RPlus a) None l) in *.
  assert (Last : chars (PyStr.drop
                          (fold_right
                             (fun bm n =>
                                (List.length (fst bm) + List.length (snd bm)
                                 + n)%nat) 0%nat ms) s) = rest).
  { rewrite chars_drop, consumed_length. unfold chars. fold l.
    rewrite E at 1. apply skipn_length_app. }
  split.
  - apply Forall_app. split.
    + apply Forall_map. eapply Forall_impl; [|exact F].
      intros bm Hbm. unfold all_chars, chars.
      rewrite list_ascii_of_string_of_list_ascii. exact Hbm.
    + constructor; [|constructor]. unfold all_chars. rewrite Last. exact R.
  - intros P HP. unfold all_chars, chars in HP. fold l in HP. rewrite E in HP.
    apply forall_concat_pieces in HP. destruct HP as [HF HR].
    apply Forall_app. split.
    + apply Forall_map. eapply Forall_impl; [|exact HF].
      intros bm Hbm. unfold all_chars, chars.
      rewrite list_ascii_of_string_of_list_ascii. exact Hbm.
    + constructor; [|constructor]. unfold all_chars. rewrite Last. exact HR.
Qed.

Lemma sentence_end_parses : Re.parse SENTENCE_END = Some (Re.RPlus TERMINAL).
Proof. vm_compute. reflexivity. Qed.

Lemma terminal_not_taken (c : ascii) :
  Re.atom_ok false TERMINAL c = false -> not_terminal c.
Proof.
  unfold TERMINAL. cbn [Re.atom_ok existsb Re.item_ok].
  unfold Re.same_char. intros H.
  apply orb_false_iff in H. destruct H as [H1 H].
  apply orb_false_iff in H. destruct H as [H2 H].
  apply orb_false_iff in H. destruct H as [H3 _].
  apply Ascii.eqb_neq in H1, H2, H3.
  repeat split; intros ->; congruence.
Qed.

Lemma sentences_of_pieces (P : ascii -> Prop) (pieces : list string) :
  Forall (all_chars P) pieces ->
  Forall (all_chars P)
         (map PyStr.strip
              (filter (fun s => nonempty (PyStr.strip s)) pieces)).
Proof.
  intros H. apply Forall_map. apply Forall_forall. intros s Hin.
  apply filter_In in Hin. destruct Hin as [Hin _].
  apply all_chars_strip. rewrite Forall_forall in H. apply H, Hin.
Qed.

(** X3. Every sentence that [_split_sentences] returns is not empty, is
    stripped of surrounding white space and has none of the marks [.], [!],
    [?]; and a property of all the characters of the text holds of all the
    characters of every sentence. *)
Theorem split_sentences_well_formed (text : string) :
  Forall well_formed_sentence (_split_sentences text)
  /\ forall P : ascii -> Prop,
       all_chars P text -> Forall (all_chars P) (_split_sentences text).
Proof.
  destruct (split_plus_pieces SENTENCE_END TERMINAL text sentence_end_parses)
    as [NoEnd Sub].
  split.
  - pose proof (sentences_of_pieces _ _ NoEnd) as T.
    unfold _split_sentences. rewrite Forall_forall in T.
    apply Forall_forall. intros sentence Hin.
    specialize (T sentence Hin).
    apply in_map_iff in Hin. destruct Hin as [piece [<- Hin]].
    apply filter_In in Hin. destruct Hin as [_ Hne].
    split; [|split].
    + destruct (PyStr.strip piece); [discriminate Hne | discriminate].
    + apply strip_idempotent.
    + eapply Forall_impl; [|exact T]. exact terminal_not_taken.
  - intros P HP. unfold _split_sentences.
    apply sentences_of_pieces, Sub, HP.
Qed.

Lemma filter_none {A : Type} (f : A -> bool) (l : list A) :
  (forall x, In x l -> f x = false) -> filter f l = [].
Proof.
  induction l as [|x l IH]; cbn; intros H; [reflexivity|].
  rewrite (H x (or_introl eq_refl)). apply IH.
  intros y Hy. apply H. right. exact Hy.
Qed.

(** X2. A text without a decimal digit has data density 0 and mentions no
    sample size. *)
Theorem digit_free_text_has_no_data (text : string) :
  all_chars (fun c => PyStr.isdecimal c = false) text ->
  (data_density_score (analyze_text text) == 0)%Q
  /\ sample_size_mentioned (analyze_text text) = false.
Proof.
  intros Hd. unfold analyze_text, calculate_text_metrics.
  cbn [data_density_score sample_size_mentioned].
  split.
  - unfold _calculate_data_density, new_analyzer.
    cbn [StatisticalChecks.sentences].
    destruct (split_sentences_well_formed text) as [_ Sub].
    specialize (Sub _ Hd).
    destruct (_split_sentences text) as [|x l] eqn:E; [reflexivity|].
    assert (N : filter sentence_has_numbers (x :: l) = []).
    { apply filter_none. intros sentence Hin.
      rewrite Forall_forall in Sub. specialize (Sub sentence Hin).
      unfold sentence_has_numbers.
      destruct (any_search_needs_digit NUMBER_PATTERNS sentence
                  (proj1 number_patterns_need_digit) Sub) as [_ ->].
      reflexivity. }
    rewrite N. cbn [List.length]. unfold ratio. cbn [Z.of_nat inject_Z].
    unfold Qdiv. apply Qmult_0_l.
  - unfold _check_sample_size_mentioned, new_analyzer.
    cbn [StatisticalChecks.text].
    apply (any_search_needs_digit SAMPLE_SIZE_PATTERNS text
             (proj1 (proj2 number_patterns_need_digit)) Hd).
Qed.

(** Two sentences without a number. *)
Lemma digit_free_text_has_no_data_plain :
  all_chars (fun c => PyStr.isdecimal c = false) "Coffee is good. Tea too!"
  /\ (data_density_score (analyze_text "Coffee is good. Tea too!") == 0)%Q
  /\ sample_size_mentioned (analyze_text "Coffee is good. Tea too!") = false.
Proof.
  assert (H : all_chars (fun c => PyStr.isdecimal c = false)
                        "Coffee is good. Tea too!")
    by (unfold all_chars; vm_compute chars; repeat constructor).
  split; [exact H|].
  exact (digit_free_text_has_no_data "Coffee is good. Tea too!" H).
Defined.

(** X5. For a quote without a decimal digit the Sample Size Disclosure
    rule fails exactly when the claim lists numerical values: the quote
    itself can neither trigger nor satisfy the rule. *)
Theorem sample_size_digit_free (self : StatisticalAnalyzer) (claim : Claim) :
  all_chars (fun c => PyStr.isdecimal c = false) (quote claim) ->
  (passed (_check_sample_size self claim) = false
   <-> numerical_values claim <> []).
Proof.
  intros Hd.
  assert (Hl : all_chars (fun c => PyStr.isdecimal c = false)
                         (PyStr.lower (quote claim))).
  { unfold all_chars, chars in *. rewrite list_ascii_of_lower.
    unfold lower_list. apply Forall_map.
    eapply Forall_impl; [|exact Hd]. intros c Hc.
    rewrite isdecimal_lower_char. exact Hc. }
  unfold _check_sample_size.
  rewrite (proj1 (search_needs_digit HAS_NUMBERS _
                    (proj2 (proj2 number_patterns_need_digit)) Hl)).
  rewrite (proj2 (any_search_needs_digit SAMPLE_SIZE_PATTERNS _
                    (proj1 (proj2 number_patterns_need_digit)) Hd)).
  destruct (numerical_values claim); cbn.
  - split; [discriminate | congruence].
  - split; [discriminate | reflexivity].
Qed.

(** A quote without a digit whose claim lists a value fails the rule. *)
Lemma sample_size_digit_free_listed :
  all_chars (fun c => PyStr.isdecimal c = false)
            (quote (claim_of "Most users were satisfied" ["most"]))
  /\ (passed (_check_sample_size
                test_analyzer (claim_of "Most users were satisfied" ["most"]))
      = false
      <-> numerical_values (claim_of "Most users were satisfied" ["most"])
          <> []).
Proof.
  assert (H : all_chars (fun c => PyStr.isdecimal c = false)
                        (quote (claim_of "Most users were satisfied" ["most"])))
    by (unfold all_chars; vm_compute chars; repeat constructor).
  split; [exact H|].
  exact (sample_size_digit_free test_analyzer _ H).
Defined.

(** ** Counting matches and finding one *)

Lemma matches_from_nil (ignorecase : bool) (fuel : nat) (r : Re.regex)
      (prev : option ascii) (s : list ascii) :
  Re.matches_from ignorecase (S fuel) r prev s = []
  <-> Re.search_from ignorecase r prev s = None.
Proof.
  cbn [Re.matches_from].
  destruct (Re.search_from ignorecase r prev s) as [[start e]|].
  - split; [|discriminate].
    destruct (Re.matched_text start e), (snd e); discriminate.
  - split; reflexivity.
Qed.

Lemma count_findall_zero (pattern s : string) :
  Re.count_findall pattern s = 0%nat <-> Re.search pattern s = false.
Proof.
  unfold Re.count_findall, Re.all_matches, Re.search, Re.search_in.
  destruct (Re.parse pattern) as [r|]; [|split; reflexivity].
  rewrite length_zero_iff_nil, matches_from_nil.
  destruct (Re.search_from false r None (list_ascii_of_string s));
    split; congruence.
Qed.

Lemma sum_findall_zero (patterns : list string) (s : string) :
  sum_findall patterns s = 0%nat <-> any_search patterns s = false.
Proof.
  unfold sum_findall, any_search.
  induction patterns as [|p patterns IH]; cbn [fold_right existsb];
    [split; reflexivity|].
  rewrite orb_false_iff, <- IH, <- count_findall_zero. lia.
Qed.

(** X4. The counts of the document and the rules of a claim agree on a
    text: the Extreme Language rule passes on a quote exactly when the
    extreme-language count of the quote, analysed as a document, is 0; and a
    quote whose causation-language count is 0 passes the Correlation vs
    Causation rule. *)
Theorem counts_agree_with_rules (self : StatisticalAnalyzer) (claim : Claim) :
  (passed (_check_extreme_language_in_claim self claim) = true
   <-> extreme_language_count (analyze_text (quote claim)) = 0%Z)
  /\ (causation_language_count (analyze_text (quote claim)) = 0%Z ->
      passed (_check_correlation_vs_causation self claim) = true).
Proof.
  unfold analyze_text, calculate_text_metrics, new_analyzer.
  cbn [extreme_language_count causation_language_count].
  unfold _count_extreme_language, _count_causation_language.
  cbn [StatisticalChecks.text].
  split.
  - unfold _check_extreme_language_in_claim, extreme_matches.
    rewrite truthy_matching.
    change 0%Z with (Z.of_nat 0). rewrite Nat2Z.inj_iff, sum_findall_zero.
    destruct (any_search EXTREME_WORDS (PyStr.lower (quote claim))); cbn;
      split; congruence.
  - change 0%Z with (Z.of_nat 0). rewrite Nat2Z.inj_iff, sum_findall_zero.
    intros H. unfold _check_correlation_vs_causation. rewrite H. reflexivity.
Qed.

(** ** The retry loop: no attempt, and the conversation *)

Section RetryConversation.

Variables Data T : Type.
Variable json_loads : string -> string + Data.
Variable model_validate : Data -> string + T.
Variable schema_name : string.
Variable Client : Type.
Variable create : Client -> string -> Q -> list Retry.message -> Client * string.

Lemma retry_loop_conversation (model : string) (temperature : Q)
      (max_retries : Z) (attempts : list Z) :
  forall (client : Client) (messages : list Retry.message)
         (last_error : option Retry.decode_error),
    conversation_grows json_loads model_validate schema_name messages
      (Retry.calls T Client
         (Retry.retry_loop Data T json_loads model_validate schema_name
                           Client create attempts client model temperature
                           max_retries messages last_error)).
Proof.
  induction attempts as [|n attempts IH]; intros client messages last_error;
    cbn [Retry.retry_loop].
  - exact I.
  - destruct (create client model temperature messages) as [client' text].
    destruct (Retry.decode Data T json_loads model_validate text)
      as [e|v] eqn:D.
    + destruct (n <? max_retries)%Z.
      * unfold Retry.record_call. cbn [Retry.calls].
        cbn [conversation_grows Retry.sent Retry.response_text].
        split; [reflexivity|].
        specialize (IH client'
                       (messages
                        ++ [ {| Retry.role := "assistant";
                                Retry.content := text |};
                             {| Retry.role := "user";
                                Retry.content :=
                                  Retry.error_message schema_name e |} ])%list
                       (Some e)).
        destruct (Retry.calls T Client
                    (Retry.retry_loop Data T json_loads model_validate
                       schema_name Client create attempts client' model
                       temperature max_retries
                       (messages
                        ++ [ {| Retry.role := "assistant";
                                Retry.content := text |};
                             {| Retry.role := "user";
                                Retry.content :=
                                  Retry.error_message schema_name e |} ])%list
                       (Some e))) as [|b later] eqn:C; [exact I|].
        exists e. split; [exact D | exact IH].
      * cbn. split; [reflexivity | exact I].
    + cbn. split; [reflexivity | exact I].
Qed.

(** X7. The conversations of the calls: the first call sends a copy of
    [initial_messages]; every call but the last failed to decode, and the
    call after it sends the conversation before with two messages more, the
    response as the assistant and the feedback on its error as the user. *)
Theorem validate_with_retry_conversation
        (client : Client) (model : string)
        (initial_messages : list Retry.message) (max_retries : Z)
        (temperature : Q) :
  conversation_grows json_loads model_validate schema_name initial_messages
    (Retry.calls T Client
       (Retry.validate_with_retry Data T json_loads model_validate
          schema_name Client create client model initial_messages
          max_retries temperature)).
Proof.
  unfold Retry.validate_with_retry. apply retry_loop_conversation.
Qed.

(** X6. With a negative [max_retries] the service is never called, and
    the loop raises [RetryExhaustedError] with the message of the line after
    the loop, in which the last error is [None]. *)
Theorem validate_with_retry_no_attempt
        (client : Client) (model : string)
        (initial_messages : list Retry.message) (max_retries : Z)
        (temperature : Q) :
  (max_retries < 0)%Z ->
  Retry.validate_with_retry Data T json_loads model_validate
    schema_name Client create client model initial_messages
    max_retries temperature
  = {| Retry.outcome :=
         inr (Retry.RetryExhaustedError
                "Unexpected error in retry loop. Last error: None");
       Retry.calls := [];
       Retry.client_after := client |}.
Proof.
  intros H. unfold Retry.validate_with_retry, Retry.range.
  replace (Z.to_nat (max_retries + 1)) with 0%nat by lia.
  reflexivity.
Qed.

End RetryConversation.

(** With [max_retries = -1] the stub service is not called. *)
Lemma validate_with_retry_no_attempt_minus_one :
  (-1 < 0)%Z
  /\ Retry.validate_with_retry string string stub_loads stub_validate
       "ClaimsExtraction" nat always_invalid 0%nat "model" stub_prompt
       (-1) 0%Q
     = {| Retry.outcome :=
            inr (Retry.RetryExhaustedError
                   "Unexpected error in retry loop. Last error: None");
          Retry.calls := [];
          Retry.client_after := 0%nat |}.
Proof.
  split; [reflexivity|].
  apply (validate_with_retry_no_attempt string string stub_loads stub_validate
           "ClaimsExtraction" nat always_invalid 0%nat "model" stub_prompt
           (-1) 0%Q).
  reflexivity.
Defined.

(** ** Fenced responses *)

Lemma append_cons (c : ascii) (s t : string) :
  String c s ++ t = String c (s ++ t).
Proof. reflexivity. Qed.

Lemma append_nil (t : string) : "" ++ t = t.
Proof. reflexivity. Qed.

Lemma length_append (s t : string) :
  String.length (s ++ t) = (String.length s + String.length t)%nat.
Proof.
  induction s as [|c s IH]; [reflexivity|].
  rewrite append_cons. cbn [String.length]. rewrite IH. reflexivity.
Qed.

Lemma append_assoc (s t u : string) : (s ++ t) ++ u = s ++ (t ++ u).
Proof.
  induction s as [|c s IH]; [reflexivity|].
  rewrite !append_cons, IH. reflexivity.
Qed.

Lemma prefix_append (p s : string) : prefix p (p ++ s) = true.
Proof.
  induction p as [|c p IH]; [destruct s; reflexivity|].
  rewrite append_cons. cbn [prefix].
  destruct (ascii_dec c c); [exact IH | congruence].
Qed.

Lemma contains_append (p before rest : string) :
  PyStr.contains p (before ++ p ++ rest) = true.
Proof.
  induction before as [|c before IH].
  - rewrite append_nil. apply prefix_contains, prefix_append.
  - rewrite append_cons. cbn [PyStr.contains]. rewrite IH.
    apply orb_true_r.
Qed.

(** A text that starts with something else than a backtick does not start
    with a fence. *)
Lemma prefix_fence_other (fence_rest : string) (c : ascii) (s : string) :
  c <> backtick -> prefix (String backtick fence_rest) (String c s) = false.
Proof.
  intros H. cbn [prefix].
  destruct (ascii_dec backtick c); [congruence | reflexivity].
Qed.

Lemma find_from_fence (fence_rest before rest : string) (pos : Z) :
  no_backtick before ->
  PyStr.find_from (String backtick fence_rest)
                  (before ++ String backtick fence_rest ++ rest) pos
  = (pos + Z.of_nat (String.length before))%Z.
Proof.
  revert pos. induction before as [|c before IH]; intros pos H.
  - rewrite append_nil.
    assert (P : prefix (String backtick fence_rest)
                       (String backtick fence_rest ++ rest) = true)
      by apply prefix_append.
    destruct (String backtick fence_rest ++ rest) eqn:E;
      [discriminate E|].
    cbn [PyStr.find_from]. rewrite P. cbn. lia.
  - rewrite append_cons. cbn [PyStr.find_from].
    unfold no_backtick, all_chars, chars in H. cbn in H.
    rewrite (prefix_fence_other fence_rest c _ (Forall_inv H)).
    rewrite IH; [cbn [String.length]; lia|].
    exact (Forall_inv_tail H).
Qed.

Lemma drop_append (s t : string) : PyStr.drop (String.length s) (s ++ t) = t.
Proof.
  induction s as [|c s IH]; [destruct t; reflexivity|].
  rewrite append_cons. cbn. exact IH.
Qed.

Lemma substring_append (s t u : string) :
  substring (String.length s) (String.length t) (s ++ t ++ u) = t.
Proof.
  induction s as [|c s IH].
  - rewrite append_nil. cbn [String.length].
    induction t as [|d t IHt].
    + rewrite append_nil. destruct u; reflexivity.
    + rewrite append_cons. cbn [String.length substring]. rewrite IHt.
      reflexivity.
  - rewrite append_cons. cbn [String.length substring]. exact IH.
Qed.

Lemma find_fence_start (fence_rest before rest : string) :
  no_backtick before ->
  PyStr.find (String backtick fence_rest)
             (before ++ String backtick fence_rest ++ rest) 0
  = Z.of_nat (String.length before).
Proof.
  intros H. unfold PyStr.find.
  assert (L : (Z.of_nat (String.length
                           (before ++ String backtick fence_rest ++ rest))
               <? 0)%Z = false) by (apply Z.ltb_ge; lia).
  rewrite L. change (Z.to_nat 0) with 0%nat. cbn [PyStr.drop].
  assert (D : forall s, PyStr.drop 0 s = s) by (intros []; reflexivity).
  rewrite (find_from_fence fence_rest before rest 0 H). lia.
Qed.

(** X8. A response with a fenced block marked [json]: when neither the
    text before the block nor the block has a backtick, the extraction of
    the loop yields the stripped block, whatever follows the closing
    fence. *)
Theorem extract_json_fenced (before body after : string) :
  no_backtick before ->
  no_backtick body ->
  Retry.extract_json_str (before ++ JSON_FENCE ++ body ++ FENCE ++ after)
  = PyStr.strip body.
Proof.
  intros Hb Hy. unfold Retry.extract_json_str, JSON_FENCE, FENCE.
  set (text := before ++ "```json" ++ body ++ "```" ++ after).
  assert (C : PyStr.contains "```json" text = true)
    by apply contains_append.
  rewrite C.
  assert (S1 : PyStr.find "```json" text 0 = Z.of_nat (String.length before))
    by (apply (find_fence_start "``json" before _ Hb)).
  rewrite S1.
  assert (Len : String.length text
                = (String.length before + 7 + String.length body + 3
                   + String.length after)%nat).
  { unfold text. rewrite !length_append. cbn [String.length]. lia. }
  assert (S2 : PyStr.find "```" text (Z.of_nat (String.length before) + 7)
               = (Z.of_nat (String.length before) + 7
                  + Z.of_nat (String.length body))%Z).
  { unfold PyStr.find.
    assert (L : (Z.of_nat (String.length text)
                 <? Z.of_nat (String.length before) + 7)%Z = false)
      by (apply Z.ltb_ge; lia).
    rewrite L.
    replace (Z.to_nat (Z.of_nat (String.length before) + 7))
      with (String.length (before ++ "```json"))
      by (rewrite length_append; cbn [String.length]; lia).
    unfold text. rewrite <- (append_assoc before "```json").
    rewrite drop_append.
    apply (find_from_fence "``" body after _ Hy). }
  rewrite S2. f_equal. unfold PyStr.slice.
  rewrite Len.
  set (a := (Z.of_nat (String.length before) + 7)%Z).
  set (n := Z.of_nat (String.length before + 7 + String.length body + 3
                      + String.length after)).
  assert (A0 : (a <? 0)%Z = false) by (apply Z.ltb_ge; unfold a; lia).
  assert (B0 : (a + Z.of_nat (String.length body) <? 0)%Z = false)
    by (apply Z.ltb_ge; unfold a; lia).
  rewrite A0, B0.
  replace (Z.min a n) with a by (unfold a, n; lia).
  replace (Z.min (a + Z.of_nat (String.length body)) n)
    with (a + Z.of_nat (String.length body))%Z by (unfold a, n; lia).
  replace (Z.to_nat (a + Z.of_nat (String.length body) - a))
    with (String.length body) by lia.
  replace (Z.to_nat a) with (String.length (before ++ "```json"))
    by (rewrite length_append; cbn [String.length]; unfold a; lia).
  unfold text. rewrite <- (append_assoc before "```json").
  apply substring_append.
Qed.

(** A block between a sentence and a question. *)
Lemma extract_json_fenced_reply :
  no_backtick "Here are the claims: "
  /\ no_backtick " [1, 2] "
  /\ Retry.extract_json_str
       ("Here are the claims: " ++ JSON_FENCE ++ " [1, 2] " ++ FENCE
        ++ " Anything else?")
     = PyStr.strip " [1, 2] ".
Proof.
  assert (Hb : no_backtick "Here are the claims: ") by no_backticks.
  assert (Hy : no_backtick " [1, 2] ") by no_backticks.
  split; [exact Hb|]. split; [exact Hy|].
  exact (extract_json_fenced _ _ " Anything else?" Hb Hy).
Defined.

Lemma prefix_fence_absent (fence_rest s : string) :
  no_backtick s -> prefix (String backtick fence_rest) s = false.
Proof.
  destruct s as [|c s]; [reflexivity|]. intros H.
  apply prefix_fence_other. exact (Forall_inv H).
Qed.

Lemma no_backtick_tail (c : ascii) (s : string) :
  no_backtick (String c s) -> no_backtick s.
Proof. intros H. exact (Forall_inv_tail H). Qed.

Lemma contains_fence_absent (fence_rest s : string) :
  no_backtick s -> PyStr.contains (String backtick fence_rest) s = false.
Proof.
  induction s as [|c s IH]; intros H; cbn [PyStr.contains];
    rewrite (prefix_fence_absent fence_rest _ H); [reflexivity|].
  apply IH, (no_backtick_tail c s H).
Qed.

Lemma find_from_fence_absent (fence_rest s : string) (pos : Z) :
  no_backtick s ->
  PyStr.find_from (String backtick fence_rest) s pos = (-1)%Z.
Proof.
  revert pos. induction s as [|c s IH]; intros pos H; cbn [PyStr.find_from];
    rewrite (prefix_fence_absent fence_rest _ H); [reflexivity|].
  apply IH, (no_backtick_tail c s H).
Qed.

(** X10. A response without a backtick is taken whole: the extraction of
    the loop and [extract_json_from_text] both yield the stripped
    response. *)
Theorem extract_json_unfenced (response_text : string) :
  no_backtick response_text ->
  Retry.extract_json_str response_text = PyStr.strip response_text
  /\ Retry.extract_json_from_text response_text = PyStr.strip response_text.
Proof.
  intros H. split.
  - unfold Retry.extract_json_str.
    rewrite (contains_fence_absent "``json" _ H).
    rewrite (contains_fence_absent "``" _ H). reflexivity.
  - unfold Retry.extract_json_from_text.
    pose proof (all_chars_strip _ _ H) as Hs.
    rewrite (contains_fence_absent "``json" _ Hs).
    rewrite (contains_fence_absent "``" _ Hs). reflexivity.
Qed.

(** A response that is the payload, with white space around it. *)
Lemma extract_json_unfenced_reply :
  no_backtick "  [1, 2] "
  /\ Retry.extract_json_str "  [1, 2] " = PyStr.strip "  [1, 2] "
  /\ Retry.extract_json_from_text "  [1, 2] " = PyStr.strip "  [1, 2] ".
Proof.
  assert (H : no_backtick "  [1, 2] ") by no_backticks.
  split; [exact H|].
  exact (extract_json_unfenced _ H).
Defined.

(** X11. [extract_json_from_text] is the extraction of the loop on the
    stripped text. *)
Theorem extract_json_from_text_strips (text : string) :
  Retry.extract_json_from_text text
  = Retry.extract_json_str (PyStr.strip text).
Proof.
  unfold Retry.extract_json_from_text, Retry.extract_json_str.
  destruct (PyStr.contains "```json" (PyStr.strip text)); [reflexivity|].
  destruct (PyStr.contains "```" (PyStr.strip text)); [reflexivity|].
  symmetry. apply strip_idempotent.
Qed.

Lemma substring_skip (s t : string) (m : nat) :
  substring (String.length s) m (s ++ t) = substring 0 m t.
Proof.
  induction s as [|c s IH]; [reflexivity|].
  rewrite append_cons. cbn [String.length substring]. exact IH.
Qed.

(** X9. A fence that is never closed: [find] answers -1, and the slice up
    to -1 leaves out the last character of the response, so that the
    extraction yields the text after the opening fence without its last
    character, stripped. *)
Theorem extract_json_unclosed_fence (before body : string) :
  no_backtick before ->
  no_backtick body ->
  Retry.extract_json_str (before ++ JSON_FENCE ++ body)
  = PyStr.strip (PyStr.slice body 0 (-1)).
Proof.
  intros Hb Hy. unfold Retry.extract_json_str, JSON_FENCE.
  set (text := before ++ "```json" ++ body).
  assert (C : PyStr.contains "```json" text = true).
  { unfold text. rewrite <- (append_nil body) at 1.
    rewrite <- (append_assoc "```json" "" body).
    replace ("```json" ++ "") with "```json" by reflexivity.
    pose proof (contains_append "```json" before body) as K. exact K. }
  rewrite C.
  assert (S1 : PyStr.find "```json" text 0 = Z.of_nat (String.length before))
    by (apply (find_fence_start "``json" before _ Hb)).
  rewrite S1.
  assert (Len : String.length text
                = (String.length before + 7 + String.length body)%nat).
  { unfold text. rewrite !length_append. cbn [String.length]. lia. }
  assert (S2 : PyStr.find "```" text (Z.of_nat (String.length before) + 7)
               = (-1)%Z).
  { unfold PyStr.find.
    assert (L : (Z.of_nat (String.length text)
                 <? Z.of_nat (String.length before) + 7)%Z = false)
      by (apply Z.ltb_ge; lia).
    rewrite L.
    replace (Z.to_nat (Z.of_nat (String.length before) + 7))
      with (String.length (before ++ "```json"))
      by (rewrite length_append; cbn [String.length]; lia).
    unfold text. rewrite <- (append_assoc before "```json").
    rewrite drop_append.
    apply (find_from_fence_absent "``" body _ Hy). }
  rewrite S2. f_equal. unfold PyStr.slice.
  rewrite Len.
  set (a := (Z.of_nat (String.length before) + 7)%Z).
  assert (A0 : (a <? 0)%Z = false) by (apply Z.ltb_ge; unfold a; lia).
  rewrite A0. cbn [Z.ltb Z.compare].
  replace (Z.min a (Z.of_nat (String.length before + 7 + String.length body)))
    with a by (unfold a; lia).
  replace (Z.min 0 (Z.of_nat (String.length body))) with 0%Z by lia.
  replace (Z.to_nat
             (Z.max 0 (-1 + Z.of_nat
                               (String.length before + 7
                                + String.length body)) - a))
    with (Z.to_nat (Z.max 0 (-1 + Z.of_nat (String.length body)) - 0))
    by (unfold a; lia).
  replace (Z.to_nat a) with (String.length (before ++ "```json"))
    by (rewrite length_append; cbn [String.length]; unfold a; lia).
  unfold text. rewrite <- (append_assoc before "```json").
  rewrite substring_skip. reflexivity.
Qed.

(** A response that opens a fence and never closes it loses its closing
    bracket. *)
Lemma extract_json_unclosed_fence_reply :
  no_backtick "Sure: "
  /\ no_backtick " [1, 2]"
  /\ Retry.extract_json_str ("Sure: " ++ JSON_FENCE ++ " [1, 2]")
     = PyStr.strip (PyStr.slice " [1, 2]" 0 (-1)).
Proof.
  assert (Hb : no_backtick "Sure: ") by no_backticks.
  assert (Hy : no_backtick " [1, 2]") by no_backticks.
  split; [exact Hb|]. split; [exact Hy|].
  exact (extract_json_unclosed_fence _ _ Hb Hy).
Defined.

(** ** Dictionaries *)

Lemma get_set_same {V : Type} (d : PyDict.dict V) (key : string) (value : V) :
  PyDict.get (PyDict.set d key value) key = Some value.
Proof.
  induction d as [|[k v] d IH]; cbn.
  - rewrite String.eqb_refl. reflexivity.
  - destruct (String.eqb k key) eqn:E; cbn; rewrite E; [reflexivity | exact IH].
Qed.

Lemma get_set_other {V : Type} (d : PyDict.dict V) (key other : string)
      (value : V) :
  key <> other ->
  PyDict.get (PyDict.set d key value) other = PyDict.get d other.
Proof.
  intros N. induction d as [|[k v] d IH]; cbn.
  - apply String.eqb_neq in N. rewrite N. reflexivity.
  - destruct (String.eqb k key) eqn:E; cbn.
    + apply String.eqb_eq in E. subst k.
      apply String.eqb_neq in N. rewrite N. reflexivity.
    + destruct (String.eqb k other); [reflexivity | exact IH].
Qed.

Lemma last_with_id_in (id : string) (claims : list Claim) (claim : Claim) :
  In claim claims -> claim_id claim = id ->
  exists c, last_with_id id claims = Some c /\ In c claims /\ claim_id c = id.
Proof.
  induction claims as [|x claims IH]; intros Hin Hid; [destruct Hin|].
  cbn [last_with_id].
  destruct (last_with_id id claims) as [later|] eqn:L.
  - destruct Hin as [-> | Hin].
    + clear IH. revert later L. induction claims as [|y claims IHc];
        intros later L; [discriminate|].
      cbn [last_with_id] in L.
      destruct (last_with_id id claims) as [z|] eqn:Lz.
      * injection L as <-. destruct (IHc z eq_refl) as [c [Hc [Hi Hd]]].
        injection Hc as <-. exists z. repeat split; try assumption.
        destruct Hi as [<- | Hi]; [left; reflexivity | right; right; exact Hi].
      * destruct (String.eqb (claim_id y) id) eqn:E; [|discriminate].
        injection L as <-. exists y. repeat split.
        -- right. left. reflexivity.
        -- apply String.eqb_eq. exact E.
    + destruct (IH Hin Hid) as [c [Hc [Hi Hd]]].
      exists c. repeat split; [exact Hc | right; exact Hi | exact Hd].
  - destruct Hin as [-> | Hin].
    + subst id. rewrite String.eqb_refl. exists claim.
      repeat split. left. reflexivity.
    + destruct (IH Hin Hid) as [c [Hc _]]. discriminate.
Qed.

Section Pipeline.

Variable analyzer : StatisticalAnalyzer.

Lemma stored_checks (claims : list Claim) :
  forall (d : PyDict.dict (list StatisticalCheck)) (id : string),
    PyDict.get (fold_left (fun d claim =>
                            PyDict.set d (claim_id claim)
                                       (check_claim analyzer claim))
                         claims d) id
    = match last_with_id id claims with
      | Some claim => Some (check_claim analyzer claim)
      | None => PyDict.get d id
      end.
Proof.
  induction claims as [|x claims IH]; intros d id; cbn [fold_left last_with_id];
    [reflexivity|].
  rewrite IH. destruct (last_with_id id claims); [reflexivity|].
  destruct (String.eqb (claim_id x) id) eqn:E.
  - apply String.eqb_eq in E. subst id. apply get_set_same.
  - apply String.eqb_neq in E. apply get_set_other. exact E.
Qed.

End Pipeline.

(** ** The checks of [check_claims] *)

(** X19. The dictionary of [check_claims] holds, under an id, the checks
    of the last claim of the list with that id, made with the analyzer of
    the text; its keys are the ids of the claims. *)
Theorem check_claims_lookup (text : string) (claims : list Claim)
        (id : string) :
  PyDict.get (check_claims text claims) id
  = option_map (check_claim (new_analyzer text)) (last_with_id id claims)
  /\ (PyDict.mem (check_claims text claims) id = true
      <-> In id (map claim_id claims)).
Proof.
  assert (G : PyDict.get (check_claims text claims) id
              = option_map (check_claim (new_analyzer text))
                           (last_with_id id claims)).
  { unfold check_claims. cbv zeta.
    rewrite (stored_checks (new_analyzer text) claims [] id).
    destruct (last_with_id id claims); reflexivity. }
  split; [exact G|].
  unfold PyDict.mem. rewrite G. split.
  - destruct (last_with_id id claims) as [c|] eqn:L; [|discriminate].
    intros _. clear G. revert c L.
    induction claims as [|x claims IH]; intros c L; [discriminate|].
    cbn [last_with_id] in L. cbn [map]. 
    destruct (last_with_id id claims) as [later|].
    + right. apply (IH later). reflexivity.
    + destruct (String.eqb (claim_id x) id) eqn:E; [|discriminate].
      left. apply String.eqb_eq. exact E.
  - intros Hin. apply in_map_iff in Hin. destruct Hin as [c [Hid Hin]].
    destruct (last_with_id_in id claims c Hin Hid) as [c' [-> _]].
    reflexivity.
Qed.

(** ** The audits of a run *)

Lemma build_claim_audits_total (analyzer : StatisticalAnalyzer)
      (all claims : list Claim) :
  (forall claim, In claim claims -> In claim all) ->
  exists audits,
    App.build_claim_audits (App.claim_check_results analyzer all) claims
    = Some audits
    /\ Forall2 (fun claim audit =>
                  exists source,
                    last_with_id (claim_id claim) all = Some source
                    /\ audit = audit_with_checks_of analyzer claim source)
               claims audits.
Proof.
  induction claims as [|x claims IH]; intros Hsub.
  - exists []. split; [reflexivity | constructor].
  - destruct IH as [audits [Hb HF]];
      [intros c Hc; apply Hsub; right; exact Hc|].
    destruct (last_with_id_in (claim_id x) all x
                (Hsub x (or_introl eq_refl)) eq_refl)
      as [source [Hl _]].
    cbn [App.build_claim_audits]. unfold App.claim_check_results at 1.
    rewrite (stored_checks analyzer all [] (claim_id x)), Hl, Hb.
    eexists. split; [reflexivity|].
    constructor; [|exact HF].
    exists source. split; [exact Hl | reflexivity].
Qed.

(** X12. The lookups of [run_standard_analysis] never fail, and it builds
    one audit for every claim, in the order of the claims; the audit has the
    id and the quote of its claim and the checks and the status of the last
    claim of the list that has the same id. *)
Theorem run_checks_audits (analyzer : StatisticalAnalyzer)
        (claims : list Claim) :
  exists audits,
    App.run_checks analyzer claims = Some audits
    /\ Forall2 (fun claim audit =>
                  exists source,
                    last_with_id (claim_id claim) claims = Some source
                    /\ audit = audit_with_checks_of analyzer claim source)
               claims audits.
Proof.
  unfold App.run_checks. apply build_claim_audits_total. auto.
Qed.

Lemma last_with_id_absent (id : string) (claims : list Claim) :
  ~ In id (map claim_id claims) -> last_with_id id claims = None.
Proof.
  induction claims as [|x claims IH]; intros N; [reflexivity|].
  cbn [last_with_id]. rewrite IH.
  - destruct (String.eqb (claim_id x) id) eqn:E; [|reflexivity].
    exfalso. apply N. left. apply String.eqb_eq. exact E.
  - intros H. apply N. right. exact H.
Qed.

Lemma last_with_id_unique (claims : list Claim) (claim : Claim) :
  NoDup (map claim_id claims) -> In claim claims ->
  last_with_id (claim_id claim) claims = Some claim.
Proof.
  induction claims as [|x claims IH]; intros ND Hin; [destruct Hin|].
  cbn [map] in ND. apply NoDup_cons_iff in ND. destruct ND as [Nx ND].
  cbn [last_with_id]. destruct Hin as [-> | Hin].
  - rewrite (last_with_id_absent _ _ Nx), String.eqb_refl. reflexivity.
  - rewrite (IH ND Hin). reflexivity.
Qed.

(** X13. When no two claims have the same id, the audits are the audits
    of the claims, one by one. *)
Theorem run_checks_distinct_ids (analyzer : StatisticalAnalyzer)
        (claims : list Claim) :
  NoDup (map claim_id claims) ->
  App.run_checks analyzer claims = Some (map (App.audit_claim analyzer) claims).
Proof.
  intros ND. destruct (run_checks_audits analyzer claims) as [audits [-> HF]].
  f_equal.
  assert (G : forall part audits',
             (forall c, In c part -> In c claims) ->
             Forall2 (fun claim audit =>
                        exists source,
                          last_with_id (claim_id claim) claims = Some source
                          /\ audit = audit_with_checks_of analyzer claim source)
                     part audits' ->
             audits' = map (App.audit_claim analyzer) part).
  { induction part as [|x part IHp]; intros audits' Hsub F;
      inversion F as [|? a ? rest [source [Hl Ha]] Frest]; subst;
      [reflexivity|].
    rewrite (last_with_id_unique claims x ND (Hsub x (or_introl eq_refl)))
      in Hl.
    injection Hl as <-. cbn [map]. f_equal.
    apply IHp; [intros c Hc; apply Hsub; right; exact Hc | exact Frest]. }
  apply (G claims audits); [auto | exact HF].
Qed.

(** Two claims with the ids [c1] and [c2]. *)
Lemma run_checks_distinct_ids_two :
  NoDup (map claim_id two_claims)
  /\ App.run_checks test_analyzer two_claims
     = Some (map (App.audit_claim test_analyzer) two_claims).
Proof.
  assert (H : NoDup (map claim_id two_claims)).
  { cbn. apply NoDup_cons; [intros [E | []]; discriminate E|].
    apply NoDup_cons; [intros []|]. apply NoDup_nil. }
  split; [exact H|].
  exact (run_checks_distinct_ids test_analyzer two_claims H).
Defined.

(** ** Statuses that the rules can produce *)

Lemma check_claim_well_formed (self : StatisticalAnalyzer) (claim : Claim)
      (check : StatisticalCheck) :
  In check (check_claim self claim) ->
  (passed check = true -> severity check = low)
  /\ (passed check = false -> severity check = medium \/ severity check = high)
  /\ severity check <> critical.
Proof.
  intros Hin.
  pose proof (rules_well_formed self claim) as W.
  unfold RULE_NAMES, RULES in W.
  repeat match goal with
         | H : Forall2 _ (_ :: _) (_ :: _) |- _ =>
             apply Forall2_cons_iff in H; destruct H as [[_ ?] ?]
         end.
  unfold check_claim in Hin. cbn [app] in Hin.
  repeat (destruct Hin as [<- | Hin]; [assumption|]).
  destruct Hin.
Qed.

(** X14. The status of a claim whose checks are those of [check_claim] is
    never critical; it is clean exactly when every check passed, major
    issues exactly when a failed check has severity high, and minor issues
    exactly when some check failed and every failed check has severity
    medium. *)
Theorem claim_status_of_rules (self : StatisticalAnalyzer) (claim : Claim) :
  let checks := check_claim self claim in
  App.derive_status checks <> critical_status
  /\ (App.derive_status checks = clean
      <-> forall check, In check checks -> passed check = true)
  /\ (App.derive_status checks = major_issues
      <-> exists check,
            In check checks /\ passed check = false /\ severity check = high)
  /\ (App.derive_status checks = minor_issues
      <-> (exists check, In check checks /\ passed check = false)
          /\ forall check,
               In check checks -> passed check = false ->
               severity check = medium).
Proof.
  cbv zeta.
  pose proof (check_claim_well_formed self claim) as W.
  pose proof (existsb_failed_with critical (check_claim self claim)) as Hc.
  pose proof (existsb_failed_with high (check_claim self claim)) as Hh.
  pose proof (truthy_failed (check_claim self claim)) as Hf.
  assert (NoCrit : ~ failed_with critical (check_claim self claim)).
  { intros [c [Hin [_ Hs]]]. apply (W c Hin). exact Hs. }
  unfold App.derive_status.
  destruct (existsb (fun c => Severity_eqb (severity c) critical)
                    (filter (fun c => negb (passed c)) (check_claim self claim))).
  { exfalso. apply NoCrit, Hc. reflexivity. }
  clear Hc.
  unfold failed_with, some_failed in *.
  destruct (existsb (fun c => Severity_eqb (severity c) high)
                    (filter (fun c => negb (passed c)) (check_claim self claim))).
  - assert (H : exists check, In check (check_claim self claim)
                              /\ passed check = false /\ severity check = high)
      by (apply Hh; reflexivity).
    split; [discriminate|]. split; [|split].
    + split; [discriminate|]. intros A. destruct H as [c [Hin [Hp _]]].
      rewrite (A c Hin) in Hp. discriminate.
    + split; [intros _; exact H | reflexivity].
    + split; [discriminate|]. intros [_ A]. destruct H as [c [Hin [Hp Hs]]].
      rewrite (A c Hin Hp) in Hs. discriminate.
  - assert (NH : ~ exists check, In check (check_claim self claim)
                                 /\ passed check = false
                                 /\ severity check = high)
      by (intros X; apply Hh in X; discriminate).
    clear Hh.
    destruct (truthy (filter (fun c => negb (passed c))
                             (check_claim self claim))).
    + assert (F : exists check, In check (check_claim self claim)
                                /\ passed check = false)
        by (apply Hf; reflexivity).
      split; [discriminate|]. split; [|split].
      * split; [discriminate|]. intros A. destruct F as [c [Hin Hp]].
        rewrite (A c Hin) in Hp. discriminate.
      * split; [discriminate | intros X; contradiction].
      * split; [|reflexivity]. intros _. split; [exact F|].
        intros c Hin Hp. destruct (W c Hin) as [_ [M _]].
        destruct (M Hp) as [Hm | Hhigh]; [exact Hm|].
        exfalso. apply NH. exists c. repeat split; assumption.
    + assert (NF : ~ exists check, In check (check_claim self claim)
                                   /\ passed check = false)
        by (intros X; apply Hf in X; discriminate).
      split; [discriminate|]. split; [|split].
      * split; [|reflexivity]. intros _ c Hin.
        destruct (passed c) eqn:E; [reflexivity|].
        exfalso. apply NF. exists c. split; assumption.
      * split; [discriminate | intros X; contradiction].
      * split; [discriminate|]. intros [F _]. contradiction.
Qed.

(** ** The range of the reliability score *)

Lemma failed_at_most_total (claim_audits : list ClaimAudit) :
  (App.failed_checks claim_audits <= App.total_checks claim_audits)%nat.
Proof.
  unfold App.failed_checks, App.total_checks, App.sum_over.
  induction claim_audits as [|audit audits IH]; cbn [fold_right]; [lia|].
  pose proof (filter_length_le (fun c => negb (passed c))
                               (checks_performed audit)).
  lia.
Qed.

(** X15. For text metrics in the ranges of their schema the score before
    clamping lies between -10 and 80, so that the bound 100 of the clamp is
    never reached: the reliability score is the maximum of 0 and the score
    before clamping, and at most 80. *)
Theorem reliability_score_range (text_metrics : TextMetrics)
        (claim_audits : list ClaimAudit) :
  (0 <= data_density_score text_metrics)%Q ->
  (data_density_score text_metrics <= 1)%Q ->
  (0 <= vagueness_score text_metrics)%Q ->
  (vagueness_score text_metrics <= 1)%Q ->
  (0 <= extreme_language_count text_metrics)%Z ->
  (-10 <= App.raw_score text_metrics claim_audits)%Q
  /\ (App.raw_score text_metrics claim_audits <= 80)%Q
  /\ (App.calculate_reliability_score text_metrics claim_audits
      == Qmax 0 (App.raw_score text_metrics claim_audits))%Q
  /\ (App.calculate_reliability_score text_metrics claim_audits <= 80)%Q.
Proof.
  intros D0 D1 V0 V1 C0.
  pose proof (raw_score_terms text_metrics claim_audits) as E.
  pose proof (failure_penalty_rate claim_audits) as F.
  pose proof (ratio_nonneg (App.failed_checks claim_audits)
                           (App.total_checks claim_audits)) as R0.
  pose proof (ratio_le_1 _ _ (failed_at_most_total claim_audits)) as R1.
  fold (App.failure_rate claim_audits) in R0, R1.
  assert (M0 : (0 <= inject_Z (Z.min (extreme_language_count text_metrics * 2)
                                     15))%Q)
    by (change 0%Q with (inject_Z 0); rewrite <- Zle_Qle; lia).
  assert (M1 : (inject_Z (Z.min (extreme_language_count text_metrics * 2) 15)
                <= 15)%Q)
    by (change 15%Q with (inject_Z 15); rewrite <- Zle_Qle; lia).
  assert (S : (0 <= (if sample_size_mentioned text_metrics then 10 else 0)
               <= 10)%Q)
    by (destruct (sample_size_mentioned text_metrics); split; discriminate).
  assert (Lo : (-10 <= App.raw_score text_metrics claim_audits)%Q) by lra.
  assert (Hi : (App.raw_score text_metrics claim_audits <= 80)%Q) by lra.
  unfold App.calculate_reliability_score.
  assert (Min : (Qmin 100 (App.raw_score text_metrics claim_audits)
                 == App.raw_score text_metrics claim_audits)%Q)
    by (apply Q.min_r; lra).
  split; [exact Lo|]. split; [exact Hi|]. split.
  - apply Qle_antisym.
    + apply Q.max_lub; [apply Q.le_max_l|].
      rewrite Min. apply Q.le_max_r.
    + apply Q.max_lub; [apply Q.le_max_l|].
      rewrite <- Min at 1. apply Q.le_max_r.
  - apply Q.max_lub; [discriminate|]. rewrite Min. exact Hi.
Qed.

(** The best metrics and no audit. *)
Lemma reliability_score_range_best :
  (0 <= data_density_score best_metrics)%Q
  /\ (data_density_score best_metrics <= 1)%Q
  /\ (0 <= vagueness_score best_metrics)%Q
  /\ (vagueness_score best_metrics <= 1)%Q
  /\ (0 <= extreme_language_count best_metrics)%Z
  /\ (-10 <= App.raw_score best_metrics [])%Q
  /\ (App.raw_score best_metrics [] <= 80)%Q
  /\ (App.calculate_reliability_score best_metrics []
      == Qmax 0 (App.raw_score best_metrics []))%Q
  /\ (App.calculate_reliability_score best_metrics [] <= 80)%Q.
Proof.
  assert (D0 : (0 <= data_density_score best_metrics)%Q) by discriminate.
  assert (D1 : (data_density_score best_metrics <= 1)%Q) by discriminate.
  assert (V0 : (0 <= vagueness_score best_metrics)%Q) by discriminate.
  assert (V1 : (vagueness_score best_metrics <= 1)%Q) by discriminate.
  assert (C0 : (0 <= extreme_language_count best_metrics)%Z) by discriminate.
  split; [exact D0|]. split; [exact D1|]. split; [exact V0|].
  split; [exact V1|]. split; [exact C0|].
  exact (reliability_score_range best_metrics [] D0 D1 V0 V1 C0).
Defined.

(** ** Sets *)

Lemma mem_In (x : string) (s : PySet.set) : PySet.mem x s = true <-> In x s.
Proof.
  unfold PySet.mem. rewrite existsb_exists. split.
  - intros [y [Hin E]]. apply String.eqb_eq in E. subst. exact Hin.
  - intros Hin. exists x. split; [exact Hin | apply String.eqb_refl].
Qed.

Lemma add_In (s : PySet.set) (x y : string) :
  In y (PySet.add s x) <-> In y s \/ y = x.
Proof.
  unfold PySet.add. destruct (PySet.mem x s) eqn:E.
  - apply mem_In in E. split; [left; assumption|].
    intros [H | ->]; assumption.
  - rewrite in_app_iff. cbn. intuition congruence.
Qed.

Lemma add_NoDup (s : PySet.set) (x : string) :
  NoDup s -> NoDup (PySet.add s x).
Proof.
  intros H. unfold PySet.add. destruct (PySet.mem x s) eqn:E; [exact H|].
  apply NoDup_app; [exact H | repeat constructor; intros [] |].
  intros y Hy [<- | []]. apply mem_In in Hy. congruence.
Qed.

Lemma of_list_NoDup (l : list string) : NoDup (PySet.of_list l).
Proof.
  unfold PySet.of_list.
  assert (G : forall s, NoDup s -> NoDup (fold_left PySet.add l s)).
  { induction l as [|x l IH]; intros s Hs; cbn; [exact Hs|].
    apply IH, add_NoDup, Hs. }
  apply G. constructor.
Qed.

(** The two ways round of an intersection have as many elements. *)
Lemma inter_length (a b : PySet.set) :
  NoDup a -> NoDup b ->
  List.length (PySet.inter a b) = List.length (PySet.inter b a).
Proof.
  intros Ha Hb. apply Permutation_length. unfold PySet.inter.
  apply NoDup_Permutation; try (apply NoDup_filter; assumption).
  intros x. rewrite !filter_In, !mem_In. tauto.
Qed.

Lemma inter_diff_length (a b : PySet.set) :
  (List.length (PySet.inter a b) + List.length (PySet.diff a b))%nat
  = List.length a.
Proof.
  unfold PySet.inter, PySet.diff.
  induction a as [|x a IH]; cbn; [reflexivity|].
  destruct (PySet.mem x b); cbn; lia.
Qed.

Lemma mem_inter (x : string) (a b : PySet.set) :
  PySet.mem x (PySet.inter a b) = PySet.mem x a && PySet.mem x b.
Proof.
  apply eq_true_iff_eq. rewrite andb_true_iff, !mem_In.
  unfold PySet.inter. rewrite filter_In, mem_In. tauto.
Qed.

(** ** The issues of an audit *)

Lemma pred_key_in (check_name pred_key : string) :
  Predictions.pred_key_of check_name = Some pred_key ->
  In pred_key (PyDict.keys Predictions.PRED_TO_CHECK).
Proof.
  unfold Predictions.pred_key_of.
  destruct (find _ Predictions.PRED_TO_CHECK) as [[k v]|] eqn:F;
    [|discriminate].
  intros [= <-]. apply find_some in F. destruct F as [Hin _].
  unfold PyDict.keys. apply in_map_iff. exists (k, v). split; [reflexivity|].
  exact Hin.
Qed.

Lemma actual_issues_NoDup_keys (actual_checks : PySet.set) :
  NoDup (Predictions.actual_issues_of actual_checks)
  /\ forall issue,
       In issue (Predictions.actual_issues_of actual_checks) ->
       In issue (PyDict.keys Predictions.PRED_TO_CHECK).
Proof.
  unfold Predictions.actual_issues_of.
  set (f := fun (actual_issues : PySet.set) (check_name : string) =>
              match Predictions.pred_key_of check_name with
              | Some pred_key => PySet.add actual_issues pred_key
              | None => actual_issues
              end).
  assert (G : forall s,
             NoDup s ->
             (forall i, In i s -> In i (PyDict.keys Predictions.PRED_TO_CHECK)) ->
             NoDup (fold_left f actual_checks s)
             /\ forall i, In i (fold_left f actual_checks s) ->
                          In i (PyDict.keys Predictions.PRED_TO_CHECK)).
  { induction actual_checks as [|name names IH]; intros s Hs Hk; cbn;
      [split; assumption|].
    apply IH; unfold f;
      destruct (Predictions.pred_key_of name) as [k|] eqn:E; try assumption.
    - apply add_NoDup, Hs.
    - intros i Hi. apply add_In in Hi. destruct Hi as [Hi | ->];
        [apply Hk, Hi | apply (pred_key_in name), E]. }
  apply G; [constructor | intros i []].
Qed.

(** ** The table by type *)

Lemma get_in_keys {V : Type} (d : PyDict.dict V) (key : string) :
  In key (PyDict.keys d) -> exists value, PyDict.get d key = Some value.
Proof.
  induction d as [|[k v] d IH]; cbn; [intros []|].
  destruct (String.eqb k key) eqn:E; [exists v; reflexivity|].
  intros [H | H]; [|exact (IH H)].
  apply String.eqb_neq in E. congruence.
Qed.

Lemma set_present {V : Type} (f : V -> nat) (P : V -> Prop)
      (d : PyDict.dict V) (key : string) (old new : V) :
  PyDict.get d key = Some old ->
  PyDict.keys (PyDict.set d key new) = PyDict.keys d
  /\ (fold_right (fun item n => (f (snd item) + n)%nat) 0%nat
                 (PyDict.set d key new) + f old
      = fold_right (fun item n => (f (snd item) + n)%nat) 0%nat d + f new)%nat
  /\ (P new -> Forall (fun item => P (snd item)) d ->
      Forall (fun item => P (snd item)) (PyDict.set d key new)).
Proof.
  unfold PyDict.keys.
  induction d as [|[k v] d IH]; cbn; [discriminate|].
  destruct (String.eqb k key) eqn:E.
  - intros [= ->]. cbn. split; [reflexivity|]. split; [lia|].
    intros Hn Hd. constructor; [exact Hn | exact (Forall_inv_tail Hd)].
  - intros G. destruct (IH G) as [K [S F]]. cbn.
    split; [rewrite K; reflexivity|]. split; [lia|].
    intros Hn Hd. constructor; [exact (Forall_inv Hd)|].
    apply F; [exact Hn | exact (Forall_inv_tail Hd)].
Qed.

Lemma track_all_accounts (caught : PySet.set) (actual_issues : list string) :
  forall by_type : PyDict.dict Predictions.ByType.metrics,
    by_type_well_formed by_type ->
    (forall issue, In issue actual_issues ->
                   In issue (PyDict.keys Predictions.PRED_TO_CHECK)) ->
    exists by_type',
      Predictions.track_all caught by_type actual_issues = Some by_type'
      /\ by_type_well_formed by_type'
      /\ sum_by_type Predictions.ByType.total by_type'
         = (sum_by_type Predictions.ByType.total by_type
            + List.length actual_issues)%nat
      /\ sum_by_type Predictions.ByType.caught by_type'
         = (sum_by_type Predictions.ByType.caught by_type
            + List.length (filter (fun issue => PySet.mem issue caught)
                                  actual_issues))%nat.
Proof.
  induction actual_issues as [|issue rest IH]; intros by_type W Hk.
  - exists by_type. cbn. repeat split; try apply W; lia.
  - destruct W as [K L].
    assert (Hin : In issue (PyDict.keys by_type))
      by (rewrite K; apply Hk; left; reflexivity).
    destruct (get_in_keys by_type issue Hin) as [entry G].
    cbn [Predictions.track_all]. unfold Predictions.track. rewrite G.
    cbv zeta.
    set (entry' := if PySet.mem issue caught then _ else _).
    destruct (set_present Predictions.ByType.total
                (fun m => (Predictions.ByType.caught m
                           <= Predictions.ByType.total m)%nat)
                by_type issue entry entry' G) as [K' [St F]].
    destruct (set_present Predictions.ByType.caught (fun _ => True)
                by_type issue entry entry' G) as [_ [Sc _]].
    assert (Le : (Predictions.ByType.caught entry
                  <= Predictions.ByType.total entry)%nat).
    { clear - L G. induction by_type as [|[k v] d IHd]; [discriminate|].
      cbn in G. destruct (String.eqb k issue).
      - injection G as <-. exact (Forall_inv L).
      - apply IHd; [exact (Forall_inv_tail L) | exact G]. }
    destruct (IH (PyDict.set by_type issue entry')) as [d' [T [W' [St' Sc']]]].
    + split; [rewrite K'; exact K|]. apply F; [|exact L].
      unfold entry'. destruct (PySet.mem issue caught); cbn; lia.
    + intros i Hi. apply Hk. right. exact Hi.
    + exists d'. split; [exact T|]. split; [exact W'|].
      unfold sum_by_type in *. cbn [List.length filter].
      assert (Et : Predictions.ByType.total entry'
                   = S (Predictions.ByType.total entry))
        by (unfold entry'; destruct (PySet.mem issue caught); cbn; lia).
      assert (Ec : Predictions.ByType.caught entry'
                   = ((if PySet.mem issue caught then 1 else 0)
                      + Predictions.ByType.caught entry)%nat)
        by (unfold entry'; destruct (PySet.mem issue caught); cbn; lia).
      split; [lia|].
      destruct (PySet.mem issue caught); cbn [List.length]; lia.
Qed.

(** ** The loop *)

Lemma review_accounts (user_predictions : PyDict.dict (PyDict.dict bool))
      (st : Predictions.Loop.state) (audit : ClaimAudit) :
  accounted st ->
  exists st',
    Predictions.review user_predictions st audit = Some st'
    /\ accounted st'
    /\ Predictions.Loop.total_issues st'
       = (Predictions.Loop.total_issues st
          + if reviewed user_predictions audit
            then List.length (Predictions.actual_issues_of
                                (Predictions.actual_checks_of audit))
            else 0)%nat.
Proof.
  intros [A [W [St Sc]]]. unfold Predictions.review, reviewed. cbv zeta.
  destruct (PyDict.mem user_predictions (audit_claim_id audit)); cbn [negb].
  2:{ exists st. split; [reflexivity|]. split; [|lia].
      repeat split; try assumption; apply W. }
  set (predicted := Predictions.predicted_issues_of _).
  set (actual := Predictions.actual_issues_of _).
  destruct (actual_issues_NoDup_keys (Predictions.actual_checks_of audit))
    as [Na Ka]. fold actual in Na, Ka.
  assert (Np : NoDup predicted) by apply of_list_NoDup.
  destruct (track_all_accounts (PySet.inter predicted actual) actual
              (Predictions.Loop.by_type_metrics st) W Ka)
    as [d' [T [W' [St' Sc']]]].
  rewrite T. eexists. split; [reflexivity|].
  cbn [Predictions.Loop.total_issues Predictions.Loop.true_positives
       Predictions.Loop.false_negatives Predictions.Loop.by_type_metrics].
  pose proof (inter_length predicted actual Np Na) as IL.
  pose proof (inter_diff_length actual predicted) as ID.
  assert (C : filter (fun issue =>
                        PySet.mem issue (PySet.inter predicted actual)) actual
              = PySet.inter actual predicted).
  { unfold PySet.inter at 2. apply filter_ext_in. intros i Hi.
    rewrite mem_inter. apply mem_In in Hi. rewrite Hi. apply andb_true_r. }
  rewrite C in Sc'.
  split; [|reflexivity].
  unfold accounted.
  cbn [Predictions.Loop.total_issues Predictions.Loop.true_positives
       Predictions.Loop.false_negatives Predictions.Loop.by_type_metrics].
  split; [lia|]. split; [exact W'|]. split; lia.
Qed.

Lemma review_all_accounts (user_predictions : PyDict.dict (PyDict.dict bool))
      (claim_audits : list ClaimAudit) :
  forall st : Predictions.Loop.state,
    accounted st ->
    exists st',
      Predictions.review_all user_predictions st claim_audits = Some st'
      /\ accounted st'
      /\ Predictions.Loop.total_issues st'
         = (Predictions.Loop.total_issues st
            + fold_right
                (fun audit n =>
                   (List.length (Predictions.actual_issues_of
                                   (Predictions.actual_checks_of audit))
                    + n)%nat) 0%nat
                (filter (reviewed user_predictions) claim_audits))%nat.
Proof.
  induction claim_audits as [|audit rest IH]; intros st H.
  - exists st. cbn. split; [reflexivity|]. split; [exact H | lia].
  - destruct (review_accounts user_predictions st audit H)
      as [st1 [R [H1 T1]]].
    destruct (IH st1 H1) as [st' [R' [H' T']]].
    exists st'. cbn [Predictions.review_all]. rewrite R.
    split; [exact R'|]. split; [exact H'|].
    rewrite T', T1. cbn [filter].
    destruct (reviewed user_predictions audit); cbn [fold_right]; lia.
Qed.

Lemma initial_accounted : accounted Predictions.initial.
Proof.
  vm_compute. repeat split; try reflexivity.
  repeat (apply Forall_cons; [apply le_n|]). apply Forall_nil.
Qed.

(** X16. [calculate_prediction_accuracy] raises no [KeyError], and its
    accounts add up: the caught and the missed issues are the issues, the
    overall accuracy lies between 0 and 1, the table by type has the seven
    types of issue with no more caught issues than issues for any of them,
    and its totals and its caught issues sum to the total of the issues and
    to the true positives. *)
Theorem prediction_accuracy_adds_up
        (user_predictions : PyDict.dict (PyDict.dict bool))
        (claim_audits : list ClaimAudit) :
  exists metrics,
    Predictions.calculate_prediction_accuracy user_predictions claim_audits
    = Some metrics
    /\ (Predictions.true_positives metrics
        + Predictions.false_negatives metrics
        = Predictions.total_issues metrics)%nat
    /\ (0 <= Predictions.overall_accuracy metrics <= 1)%Q
    /\ by_type_well_formed (Predictions.by_type metrics)
    /\ sum_by_type Predictions.ByType.total (Predictions.by_type metrics)
       = Predictions.total_issues metrics
    /\ sum_by_type Predictions.ByType.caught (Predictions.by_type metrics)
       = Predictions.true_positives metrics.
Proof.
  destruct (review_all_accounts user_predictions claim_audits
              Predictions.initial initial_accounted)
    as [st [R [[A [W [St Sc]]] _]]].
  unfold Predictions.calculate_prediction_accuracy. rewrite R.
  eexists. split; [reflexivity|].
  cbn [Predictions.true_positives Predictions.false_negatives
       Predictions.total_issues Predictions.overall_accuracy
       Predictions.by_type].
  split; [exact A|]. split; [|repeat split; try assumption; apply W].
  destruct (0 <? Predictions.Loop.total_issues st)%nat eqn:E;
    [|split; discriminate].
  split.
  - apply ratio_nonneg.
  - apply ratio_le_1. lia.
Qed.

(** ** The issues of the audit of a claim *)

Lemma failed_names_flags (checks : list StatisticalCheck) :
  map check_name (filter (fun check => negb (passed check)) checks)
  = map fst (failed_flags (flags checks)).
Proof.
  induction checks as [|c checks IH]; cbn; [reflexivity|].
  destruct (passed c); cbn; [exact IH | rewrite IH; reflexivity].
Qed.

Lemma failed_length_flags (checks : list StatisticalCheck) :
  List.length (filter (fun check => negb (passed check)) checks)
  = List.length (failed_flags (flags checks)).
Proof.
  rewrite <- (length_map check_name), failed_names_flags, length_map.
  reflexivity.
Qed.

(** Every failed rule gives one issue of its own. *)
Lemma rule_flags_issues (b1 b2 b3 b4 b5 b6 b7 : bool) :
  List.length
    (Predictions.actual_issues_of
       (PySet.of_list
          (map fst
               (failed_flags
                  (combine RULE_NAMES [b1; b2; b3; b4; b5; b6; b7])))))
  = List.length
      (failed_flags (combine RULE_NAMES [b1; b2; b3; b4; b5; b6; b7])).
Proof.
  destruct b1, b2, b3, b4, b5, b6, b7; vm_compute; reflexivity.
Qed.

Lemma check_claim_flags (self : StatisticalAnalyzer) (claim : Claim) :
  exists b1 b2 b3 b4 b5 b6 b7,
    flags (check_claim self claim)
    = combine RULE_NAMES [b1; b2; b3; b4; b5; b6; b7].
Proof.
  pose proof (rules_well_formed self claim) as W.
  unfold RULE_NAMES, RULES in W.
  repeat match goal with
         | H : Forall2 _ (_ :: _) (_ :: _) |- _ =>
             apply Forall2_cons_iff in H; destruct H as [[? _] ?]
         end.
  unfold check_claim, flags. cbn [app map].
  repeat match goal with
         | H : check_name _ = _ |- _ => rewrite H; clear H
         end.
  do 7 eexists. reflexivity.
Qed.

Lemma audit_claim_issues (analyzer : StatisticalAnalyzer) (claim : Claim) :
  List.length (Predictions.actual_issues_of
                 (Predictions.actual_checks_of
                    (App.audit_claim analyzer claim)))
  = List.length (filter (fun check => negb (passed check))
                        (checks_performed (App.audit_claim analyzer claim))).
Proof.
  unfold Predictions.actual_checks_of, App.audit_claim.
  cbn [checks_performed].
  rewrite failed_names_flags, failed_length_flags.
  destruct (check_claim_flags analyzer claim)
    as [b1 [b2 [b3 [b4 [b5 [b6 [b7 ->]]]]]]].
  apply rule_flags_issues.
Qed.

Lemma reviewed_issues_failed
      (analyzer : StatisticalAnalyzer)
      (user_predictions : PyDict.dict (PyDict.dict bool))
      (claims : list Claim) :
  fold_right
    (fun audit n =>
       (List.length (Predictions.actual_issues_of
                       (Predictions.actual_checks_of audit)) + n)%nat) 0%nat
    (filter (reviewed user_predictions)
            (map (App.audit_claim analyzer) claims))
  = App.failed_checks
      (filter (reviewed user_predictions)
              (map (App.audit_claim analyzer) claims)).
Proof.
  unfold App.failed_checks, App.sum_over.
  induction claims as [|claim claims IH]; [reflexivity|].
  cbn [map filter].
  destruct (reviewed user_predictions (App.audit_claim analyzer claim));
    [|exact IH].
  cbn [fold_right]. rewrite audit_claim_issues, IH. reflexivity.
Qed.

(** X17. On the audits that the rules produce, the issues that
    [calculate_prediction_accuracy] counts are the failed checks of the
    claims that the user reviewed: every failed rule is one issue, of the
    type of the rule. *)
Theorem total_issues_counts_failed_checks
        (analyzer : StatisticalAnalyzer)
        (user_predictions : PyDict.dict (PyDict.dict bool))
        (claims : list Claim) :
  exists metrics,
    Predictions.calculate_prediction_accuracy
      user_predictions (map (App.audit_claim analyzer) claims)
    = Some metrics
    /\ Predictions.total_issues metrics
       = App.failed_checks
           (filter (reviewed user_predictions)
                   (map (App.audit_claim analyzer) claims)).
Proof.
  destruct (review_all_accounts user_predictions
              (map (App.audit_claim analyzer) claims)
              Predictions.initial initial_accounted)
    as [st [R [_ T]]].
  unfold Predictions.calculate_prediction_accuracy. rewrite R.
  eexists. split; [reflexivity|].
  cbn [Predictions.total_issues]. rewrite T.
  change (Predictions.Loop.total_issues Predictions.initial) with 0%nat.
  cbn [Nat.add]. apply reviewed_issues_failed.
Qed.

(** ** Identifiers *)

Lemma string_of_uint_digits (d : Decimal.uint) :
  forallb Validators.isdigit_char
          (list_ascii_of_string (NilEmpty.string_of_uint d)) = true.
Proof. induction d; cbn; [reflexivity | exact IHd ..]. Qed.

Lemma string_of_uint_nonempty (d : Decimal.uint) :
  d <> Decimal.Nil -> NilEmpty.string_of_uint d <> "".
Proof. destruct d; cbn; congruence. Qed.

Lemma str_of_nat_isdigit (n : nat) :
  Validators.isdigit (PyStr.str_of_Z (Z.of_nat n)) = true.
Proof.
  unfold PyStr.str_of_Z, Validators.isdigit.
  assert (E : exists d, Z.to_int (Z.of_nat n) = Decimal.Pos d
                        /\ d <> Decimal.Nil).
  { destruct (Z.of_nat n) as [|p|p] eqn:Z.
    - exists (Decimal.D0 Decimal.Nil). split; [reflexivity | discriminate].
    - exists (Pos.to_uint p). split; [reflexivity|].
      apply Unsigned.to_uint_nonnil.
    - lia. }
  destruct E as [d [-> Hd]]. cbn [NilEmpty.string_of_int].
  pose proof (string_of_uint_nonempty d Hd) as N.
  pose proof (string_of_uint_digits d) as D.
  destruct (NilEmpty.string_of_uint d); [congruence | exact D].
Qed.

(** X18. The validator of [Claim.claim_id] accepts [c] followed by the
    decimal numeral of any natural number; and an id that it accepts is at
    least two characters long and is accepted by the validator of
    [ClaimAudit.claim_id]. *)
Theorem claim_ids_accepted :
  (forall n : nat,
      Validators.validate_claim_id ("c" ++ PyStr.str_of_Z (Z.of_nat n))
      = inr ("c" ++ PyStr.str_of_Z (Z.of_nat n)))
  /\ (forall v : string,
         (exists e, Validators.validate_claim_id v = inl e)
         \/ (Validators.validate_claim_id v = inr v
             /\ Validators.validate_claim_id_format v = inr v
             /\ (2 <= String.length v)%nat)).
Proof.
  split.
  - intros n. unfold Validators.validate_claim_id, Validators.startswith.
    change ("c" ++ PyStr.str_of_Z (Z.of_nat n))
      with (String "c" (PyStr.str_of_Z (Z.of_nat n))).
    cbn [prefix PyStr.drop].
    destruct (ascii_dec "c" "c"); [|congruence].
    assert (P : prefix "" (PyStr.str_of_Z (Z.of_nat n)) = true)
      by (destruct (PyStr.str_of_Z (Z.of_nat n)); reflexivity).
    rewrite P.
    rewrite str_of_nat_isdigit. reflexivity.
  - intros v.
    unfold Validators.validate_claim_id, Validators.validate_claim_id_format.
    destruct (Validators.startswith v "c") eqn:S; cbn [negb orb];
      [|left; eexists; reflexivity].
    destruct (Validators.isdigit (PyStr.drop 1 v)) eqn:D; cbn [negb];
      [|left; eexists; reflexivity].
    right. split; [reflexivity|]. split; [reflexivity|].
    destruct v as [|c v]; [discriminate S|].
    destruct v as [|c' v]; [discriminate D | cbn; lia].
Qed.

(** ** The explanations of the checks *)

Lemma length_append_le (s t : string) :
  (String.length s <= String.length (s ++ t))%nat.
Proof. rewrite length_append. lia. Qed.

(** A text that starts with a literal of ten characters or more. *)
Ltac starts_long :=
  unfold explained, MIN_EXPLANATION; cbn [explanation];
  first
    [ apply Nat.leb_le; reflexivity
    | eapply Nat.le_trans; [|apply length_append_le];
      apply Nat.leb_le; reflexivity ].

Lemma rules_explained (self : StatisticalAnalyzer) (claim : Claim) :
  Forall (fun rule => explained (rule self claim)) RULES.
Proof.
  unfold RULES.
  repeat (apply Forall_cons; [| try apply Forall_nil]);
    match goal with
    | |- explained (?rule self claim) => unfold rule
    end;
    rule_cases; starts_long.
Qed.

(** X20. Every check that [check_claim] returns has an explanation of at
    least ten characters, whatever the quote: the constraint of the schema
    on [StatisticalCheck.explanation] is met in every branch of every rule,
    so that building a check raises no validation error. *)
Theorem check_claim_explained (self : StatisticalAnalyzer) (claim : Claim) :
  Forall explained (check_claim self claim).
Proof.
  pose proof (rules_explained self claim) as H. unfold RULES in H.
  unfold check_claim. cbn [app].
  repeat match goal with
         | H : Forall _ (_ :: _) |- _ =>
             apply Forall_cons_iff in H; destruct H as [? H]
         end.
  repeat (apply Forall_cons; [assumption|]). apply Forall_nil.
Qed.
